(** * E-mining campus: enrollment progress, certificates, lesson tracking
      and order fulfilment

    A shallow embedding of the parts of [courses/models.py],
    [courses/views.py] and [courses/admin_views.py] that decide how an
    enrollment's progress is recalculated, when a certificate is issued,
    when a lesson-progress row is created and how an order's status moves.

    The database is a record of tables; a table is the list of its rows.
    A view or a model method is a function from the database (and, for a
    method, the Python object it is called on) to the new database and either
    a value or the exception it raised.  Django runs in autocommit mode here
    (no [transaction.atomic] in the sources), so what was written before an
    exception stays written. *)

From Stdlib Require Import ZArith List Bool String Ascii Lia PeanoNat.
From Stdlib Require Import Floats.SpecFloat.
Import ListNotations.

Set Implicit Arguments.

(* ------------------------------------------------------------------ *)
(** ** Python numbers *)

(** Python's [float] is IEEE-754 binary64.  The operations are those of the
    standard library's executable specification of binary floating point,
    instantiated at 53 bits of precision. *)
Module PyFloat.

Definition prec : Z := 53.
Definition emax : Z := 1024.

Definition float := spec_float.

(** An integer as an (unrounded) mantissa with exponent zero. *)
Definition of_int_exact (n : Z) : float :=
  match n with
  | Z0 => S754_zero false
  | Zpos p => S754_finite false p 0
  | Zneg p => S754_finite true p 0
  end.

(** [float(n)]: the integer rounded to the nearest double. *)
Definition float_of_int (n : Z) : float :=
  binary_normalize prec emax n 0 false.

(** [a / b] on two Python ints: the correctly rounded quotient of the two
    integers.  The division core works on the integer mantissas directly
    and rounds once.  The caller excludes [b = 0] (ZeroDivisionError). *)
Definition int_truediv (a b : Z) : float :=
  SFdiv prec emax (of_int_exact a) (of_int_exact b).

(** [x * n] for a float and an int: the int is converted, then the
    product is rounded. *)
Definition mul_int (x : float) (n : Z) : float :=
  SFmul prec emax x (float_of_int n).

(** [int(x)]: truncation toward zero; [None] where Python raises
    (OverflowError on an infinity, ValueError on a NaN). *)
Definition to_int (x : float) : option Z :=
  match x with
  | S754_zero _ => Some 0%Z
  | S754_finite s m e =>
      let a := if (0 <=? e)%Z then Z.shiftl (Zpos m) e
               else Z.shiftr (Zpos m) (- e) in
      Some (if s then (- a)%Z else a)
  | S754_infinity _ => None
  | S754_nan => None
  end.

End PyFloat.

(** [int((completed_lessons / total_lessons) * 100)] *)
Definition percentage (completed_lessons total_lessons : Z) : option Z :=
  PyFloat.to_int
    (PyFloat.mul_int (PyFloat.int_truediv completed_lessons total_lessons) 100).

(** What the expression would be in exact arithmetic. *)
Definition floor_percentage (completed_lessons total_lessons : Z) : Z :=
  (completed_lessons * 100 / total_lessons)%Z.

(* ------------------------------------------------------------------ *)
(** ** Exceptions and the state-and-exception monad *)

(** The exceptions the modelled code can meet.  [DoesNotExist] and
    [MultipleObjectsReturned] are per-model classes in Django, so they carry
    the model's name. *)
Inductive Exn : Type :=
| DoesNotExist (model : string)
| MultipleObjectsReturned (model : string)
| IntegrityError
| OverflowError
| KeyError
| RequestException
| Http404.

Inductive result (A : Type) : Type :=
| Ok (a : A)
| Raise (e : Exn).

Arguments Ok {A} a.
Arguments Raise {A} e.

(** A computation over a state [S]: the state it leaves behind is defined
    also when it raises. *)
Definition M (S A : Type) : Type := S -> S * result A.

Section Monad.
Context {S : Type}.

Definition ret {A} (a : A) : M S A := fun s => (s, Ok a).

Definition raise {A} (e : Exn) : M S A := fun s => (s, Raise e).

Definition bind {A B} (m : M S A) (k : A -> M S B) : M S B :=
  fun s =>
    match m s with
    | (s', Ok a) => k a s'
    | (s', Raise e) => (s', Raise e)
    end.

(** [try: m except E: h] for the exceptions selected by [catches]. *)
Definition try_except {A} (m : M S A) (catches : Exn -> bool)
           (h : Exn -> M S A) : M S A :=
  fun s =>
    match m s with
    | (s', Ok a) => (s', Ok a)
    | (s', Raise e) => if catches e then h e s' else (s', Raise e)
    end.

Definition gets {A} (f : S -> A) : M S A := fun s => (s, Ok (f s)).
Definition modify (f : S -> S) : M S unit := fun s => (f s, Ok tt).

(** [for x in l: body x] *)
Fixpoint for_each {A} (l : list A) (body : A -> M S unit) : M S unit :=
  match l with
  | [] => ret tt
  | x :: l' => bind (body x) (fun _ => for_each l' body)
  end.
End Monad.

Declare Scope monad_scope.
Delimit Scope monad_scope with monad.
Notation "x <- m ;; k" := (bind m (fun x => k))
  (at level 61, m at next level, right associativity) : monad_scope.
Notation "m ;;; k" := (bind m (fun _ => k))
  (at level 61, right associativity) : monad_scope.
Open Scope monad_scope.

(** Raise the exception of a failed table operation. *)
Definition lift_option {S A} (e : Exn) (o : option A) : M S A :=
  match o with
  | Some a => ret a
  | None => raise e
  end.

(* ------------------------------------------------------------------ *)
(** ** The models of [courses/models.py]

    A foreign key is the primary key of the row it points to; a
    [DateTimeField] is an integer instant; a nullable field is an option.
    Only the fields the modelled code reads or writes are kept. *)

Module Course.
Record t : Type := mk { id : nat; slug : string; price : Z }.
End Course.

Module CourseSection.
Record t : Type := mk { id : nat; course : nat }.
End CourseSection.

Module Lesson.
Record t : Type := mk { id : nat; section : nat; is_preview : bool }.
End Lesson.

Module LessonProgress.
Record t : Type := mk {
  id : nat;
  student : nat;
  lesson : nat;
  completed : bool;
  completed_at : option Z;
  last_viewed : Z
}.
Definition set_completed (b : bool) (p : t) : t :=
  mk (id p) (student p) (lesson p) b (completed_at p) (last_viewed p).
Definition set_completed_at (d : option Z) (p : t) : t :=
  mk (id p) (student p) (lesson p) (completed p) d (last_viewed p).
End LessonProgress.

Module Enrollment.
Record t : Type := mk {
  id : nat;
  student : nat;
  course : nat;
  enrolled_at : Z;
  completed : bool;
  completed_at : option Z;
  progress_percentage : Z
}.
Definition set_completed (b : bool) (e : t) : t :=
  mk (id e) (student e) (course e) (enrolled_at e) b (completed_at e)
     (progress_percentage e).
Definition set_completed_at (d : option Z) (e : t) : t :=
  mk (id e) (student e) (course e) (enrolled_at e) (completed e) d
     (progress_percentage e).
Definition set_progress_percentage (p : Z) (e : t) : t :=
  mk (id e) (student e) (course e) (enrolled_at e) (completed e)
     (completed_at e) p.
End Enrollment.

Module Certificate.
Record t : Type := mk {
  id : nat;
  student : nat;
  course : nat;
  certificate_id : string;
  issued_at : Z;
  pdf_file : option string
}.
End Certificate.

Module Cart.
Record t : Type := mk { id : nat; user : nat }.
End Cart.

Module CartItem.
Record t : Type := mk { id : nat; cart : nat; course : nat }.
End CartItem.

(** [Order.STATUS_CHOICES] *)
Module Status.
Inductive t : Type := pending | processing | completed | failed | refunded.

Definition eqb (a b : t) : bool :=
  match a, b with
  | pending, pending | processing, processing | completed, completed
  | failed, failed | refunded, refunded => true
  | _, _ => false
  end.

Definition to_string (s : t) : string :=
  match s with
  | pending => "pending"
  | processing => "processing"
  | completed => "completed"
  | failed => "failed"
  | refunded => "refunded"
  end.

Definition choices : list t :=
  [pending; processing; completed; failed; refunded].

(** [new_status in dict(choices)]: the choice with that key, if any. *)
Definition of_string (s : string) : option t :=
  find (fun c => String.eqb (to_string c) s) choices.
End Status.

Module Order.
Record t : Type := mk {
  id : nat;
  user : nat;
  order_id : string;
  total_amount : Z;
  currency : string;
  status : Status.t;
  payment_reference : string;
  payment_method : string;
  created_at : Z;
  updated_at : Z;
  completed_at : option Z
}.
Definition set_status (s : Status.t) (o : t) : t :=
  mk (id o) (user o) (order_id o) (total_amount o) (currency o) s
     (payment_reference o) (payment_method o) (created_at o) (updated_at o)
     (completed_at o).
Definition set_payment_reference (r : string) (o : t) : t :=
  mk (id o) (user o) (order_id o) (total_amount o) (currency o) (status o)
     r (payment_method o) (created_at o) (updated_at o) (completed_at o).
Definition set_payment_method (m : string) (o : t) : t :=
  mk (id o) (user o) (order_id o) (total_amount o) (currency o) (status o)
     (payment_reference o) m (created_at o) (updated_at o) (completed_at o).
Definition set_completed_at (d : option Z) (o : t) : t :=
  mk (id o) (user o) (order_id o) (total_amount o) (currency o) (status o)
     (payment_reference o) (payment_method o) (created_at o) (updated_at o)
     d.
End Order.

Module OrderItem.
Record t : Type := mk { id : nat; order : nat; course : nat; price : Z }.
End OrderItem.

(* ------------------------------------------------------------------ *)
(** ** Rows, keys and uniqueness

    What every Django model provides: a primary key, the unique and
    [unique_together] constraints of its [Meta], and the fields the ORM fills
    in by itself ([auto_now_add] on insert, [auto_now] on every save). *)

Class Model (T : Type) : Type := {
  pk : T -> nat;
  with_pk : nat -> T -> T;
  (** two rows agree on a unique field or on a [unique_together] tuple *)
  clashes : T -> T -> bool;
  auto_now_add : Z -> T -> T;
  auto_now : Z -> T -> T
}.

#[export] Instance Course_Model : Model Course.t := {|
  pk := Course.id;
  with_pk := fun i c => Course.mk i (Course.slug c) (Course.price c);
  clashes := fun a b => String.eqb (Course.slug a) (Course.slug b);
  auto_now_add := fun _ c => c;
  auto_now := fun _ c => c
|}.

#[export] Instance CourseSection_Model : Model CourseSection.t := {|
  pk := CourseSection.id;
  with_pk := fun i s => CourseSection.mk i (CourseSection.course s);
  clashes := fun _ _ => false;
  auto_now_add := fun _ s => s;
  auto_now := fun _ s => s
|}.

#[export] Instance Lesson_Model : Model Lesson.t := {|
  pk := Lesson.id;
  with_pk := fun i l => Lesson.mk i (Lesson.section l) (Lesson.is_preview l);
  clashes := fun _ _ => false;
  auto_now_add := fun _ l => l;
  auto_now := fun _ l => l
|}.

#[export] Instance LessonProgress_Model : Model LessonProgress.t := {|
  pk := LessonProgress.id;
  with_pk := fun i p =>
    LessonProgress.mk i (LessonProgress.student p) (LessonProgress.lesson p)
      (LessonProgress.completed p) (LessonProgress.completed_at p)
      (LessonProgress.last_viewed p);
  clashes := fun a b =>
    (LessonProgress.student a =? LessonProgress.student b)%nat
    && (LessonProgress.lesson a =? LessonProgress.lesson b)%nat;
  auto_now_add := fun _ p => p;
  auto_now := fun now p =>
    LessonProgress.mk (LessonProgress.id p) (LessonProgress.student p)
      (LessonProgress.lesson p) (LessonProgress.completed p)
      (LessonProgress.completed_at p) now
|}.

#[export] Instance Enrollment_Model : Model Enrollment.t := {|
  pk := Enrollment.id;
  with_pk := fun i e =>
    Enrollment.mk i (Enrollment.student e) (Enrollment.course e)
      (Enrollment.enrolled_at e) (Enrollment.completed e)
      (Enrollment.completed_at e) (Enrollment.progress_percentage e);
  clashes := fun a b =>
    (Enrollment.student a =? Enrollment.student b)%nat
    && (Enrollment.course a =? Enrollment.course b)%nat;
  auto_now_add := fun now e =>
    Enrollment.mk (Enrollment.id e) (Enrollment.student e)
      (Enrollment.course e) now (Enrollment.completed e)
      (Enrollment.completed_at e) (Enrollment.progress_percentage e);
  auto_now := fun _ e => e
|}.

#[export] Instance Certificate_Model : Model Certificate.t := {|
  pk := Certificate.id;
  with_pk := fun i c =>
    Certificate.mk i (Certificate.student c) (Certificate.course c)
      (Certificate.certificate_id c) (Certificate.issued_at c)
      (Certificate.pdf_file c);
  clashes := fun a b =>
    String.eqb (Certificate.certificate_id a) (Certificate.certificate_id b)
    || ((Certificate.student a =? Certificate.student b)%nat
        && (Certificate.course a =? Certificate.course b)%nat);
  auto_now_add := fun now c =>
    Certificate.mk (Certificate.id c) (Certificate.student c)
      (Certificate.course c) (Certificate.certificate_id c) now
      (Certificate.pdf_file c);
  auto_now := fun _ c => c
|}.

#[export] Instance Cart_Model : Model Cart.t := {|
  pk := Cart.id;
  with_pk := fun i c => Cart.mk i (Cart.user c);
  clashes := fun a b => (Cart.user a =? Cart.user b)%nat;
  auto_now_add := fun _ c => c;
  auto_now := fun _ c => c
|}.

#[export] Instance CartItem_Model : Model CartItem.t := {|
  pk := CartItem.id;
  with_pk := fun i c => CartItem.mk i (CartItem.cart c) (CartItem.course c);
  clashes := fun a b =>
    (CartItem.cart a =? CartItem.cart b)%nat
    && (CartItem.course a =? CartItem.course b)%nat;
  auto_now_add := fun _ c => c;
  auto_now := fun _ c => c
|}.

#[export] Instance Order_Model : Model Order.t := {|
  pk := Order.id;
  with_pk := fun i o =>
    Order.mk i (Order.user o) (Order.order_id o) (Order.total_amount o)
      (Order.currency o) (Order.status o) (Order.payment_reference o)
      (Order.payment_method o) (Order.created_at o) (Order.updated_at o)
      (Order.completed_at o);
  clashes := fun a b => String.eqb (Order.order_id a) (Order.order_id b);
  auto_now_add := fun now o =>
    Order.mk (Order.id o) (Order.user o) (Order.order_id o)
      (Order.total_amount o) (Order.currency o) (Order.status o)
      (Order.payment_reference o) (Order.payment_method o) now
      (Order.updated_at o) (Order.completed_at o);
  auto_now := fun now o =>
    Order.mk (Order.id o) (Order.user o) (Order.order_id o)
      (Order.total_amount o) (Order.currency o) (Order.status o)
      (Order.payment_reference o) (Order.payment_method o)
      (Order.created_at o) now (Order.completed_at o)
|}.

#[export] Instance OrderItem_Model : Model OrderItem.t := {|
  pk := OrderItem.id;
  with_pk := fun i o =>
    OrderItem.mk i (OrderItem.order o) (OrderItem.course o)
      (OrderItem.price o);
  clashes := fun _ _ => false;
  auto_now_add := fun _ o => o;
  auto_now := fun _ o => o
|}.

(* ------------------------------------------------------------------ *)
(** ** The database *)

Record DB : Type := mkDB {
  courses : list Course.t;
  sections : list CourseSection.t;
  lessons : list Lesson.t;
  lesson_progress : list LessonProgress.t;
  enrollments : list Enrollment.t;
  certificates : list Certificate.t;
  carts : list Cart.t;
  cart_items : list CartItem.t;
  orders : list Order.t;
  order_items : list OrderItem.t
}.

(** A table of the database: its name, how to read it, how to replace it. *)
Record Table (T : Type) : Type := mkTable {
  name : string;
  rows : DB -> list T;
  put_rows : list T -> DB -> DB
}.

Definition Courses : Table Course.t :=
  mkTable "Course" courses
    (fun l d => mkDB l (sections d) (lessons d) (lesson_progress d)
       (enrollments d) (certificates d) (carts d) (cart_items d) (orders d)
       (order_items d)).
Definition Sections : Table CourseSection.t :=
  mkTable "Section" sections
    (fun l d => mkDB (courses d) l (lessons d) (lesson_progress d)
       (enrollments d) (certificates d) (carts d) (cart_items d) (orders d)
       (order_items d)).
Definition Lessons : Table Lesson.t :=
  mkTable "Lesson" lessons
    (fun l d => mkDB (courses d) (sections d) l (lesson_progress d)
       (enrollments d) (certificates d) (carts d) (cart_items d) (orders d)
       (order_items d)).
Definition LessonProgresses : Table LessonProgress.t :=
  mkTable "LessonProgress" lesson_progress
    (fun l d => mkDB (courses d) (sections d) (lessons d) l
       (enrollments d) (certificates d) (carts d) (cart_items d) (orders d)
       (order_items d)).
Definition Enrollments : Table Enrollment.t :=
  mkTable "Enrollment" enrollments
    (fun l d => mkDB (courses d) (sections d) (lessons d) (lesson_progress d)
       l (certificates d) (carts d) (cart_items d) (orders d)
       (order_items d)).
Definition Certificates : Table Certificate.t :=
  mkTable "Certificate" certificates
    (fun l d => mkDB (courses d) (sections d) (lessons d) (lesson_progress d)
       (enrollments d) l (carts d) (cart_items d) (orders d)
       (order_items d)).
Definition Carts : Table Cart.t :=
  mkTable "Cart" carts
    (fun l d => mkDB (courses d) (sections d) (lessons d) (lesson_progress d)
       (enrollments d) (certificates d) l (cart_items d) (orders d)
       (order_items d)).
Definition CartItems : Table CartItem.t :=
  mkTable "CartItem" cart_items
    (fun l d => mkDB (courses d) (sections d) (lessons d) (lesson_progress d)
       (enrollments d) (certificates d) (carts d) l (orders d)
       (order_items d)).
Definition Orders : Table Order.t :=
  mkTable "Order" orders
    (fun l d => mkDB (courses d) (sections d) (lessons d) (lesson_progress d)
       (enrollments d) (certificates d) (carts d) (cart_items d) l
       (order_items d)).
Definition OrderItems : Table OrderItem.t :=
  mkTable "OrderItem" order_items
    (fun l d => mkDB (courses d) (sections d) (lessons d) (lesson_progress d)
       (enrollments d) (certificates d) (carts d) (cart_items d) (orders d)
       l).

(* ------------------------------------------------------------------ *)
(** ** The ORM: queries and writes on one table *)

Section Rows.
Context {T : Type} `{Model T}.

(** The key an insert receives: above every key in use. *)
Definition next_pk (l : list T) : nat := S (list_max (map pk l)).

(** Would writing [x] break a uniqueness constraint against another row? *)
Definition violates (x : T) (l : list T) : bool :=
  existsb (fun r => negb (pk r =? pk x)%nat && clashes r x) l.

Definition has_pk (i : nat) (l : list T) : bool :=
  existsb (fun r => (pk r =? i)%nat) l.

(** UPDATE ... WHERE id = pk *)
Definition update_row (x : T) (l : list T) : list T :=
  map (fun r => if (pk r =? pk x)%nat then x else r) l.

(** [Model.save()] of a row that has a key: update, else insert. *)
Definition upsert (x : T) (l : list T) : list T :=
  if has_pk (pk x) l then update_row x l else l ++ [x].

Definition lookup_pk (i : nat) (l : list T) : option T :=
  find (fun r => (pk r =? i)%nat) l.

(** [.first()]: the row with the least key among [l]. *)
Fixpoint first (l : list T) : option T :=
  match l with
  | [] => None
  | x :: l' =>
      match first l' with
      | None => Some x
      | Some y => if (pk y <? pk x)%nat then Some y else Some x
      end
  end.
End Rows.

Section Orm.
Context {T : Type} `{Model T} (tbl : Table T).

(** [objects.filter(p)] *)
Definition objects_filter (p : T -> bool) : M DB (list T) :=
  gets (fun db => filter p (rows tbl db)).

(** [objects.filter(p).exists()] *)
Definition objects_exists (p : T -> bool) : M DB bool :=
  gets (fun db => existsb p (rows tbl db)).

(** [objects.filter(p).first()] *)
Definition objects_first (p : T -> bool) : M DB (option T) :=
  gets (fun db => first (filter p (rows tbl db))).

(** [objects.get(p)] *)
Definition objects_get (p : T -> bool) : M DB T :=
  fun db =>
    match filter p (rows tbl db) with
    | [] => (db, Raise (DoesNotExist (name tbl)))
    | [x] => (db, Ok x)
    | _ :: _ :: _ => (db, Raise (MultipleObjectsReturned (name tbl)))
    end.

(** [get_object_or_404(Model, p)] *)
Definition get_object_or_404 (p : T -> bool) : M DB T :=
  fun db =>
    match filter p (rows tbl db) with
    | [] => (db, Raise Http404)
    | [x] => (db, Ok x)
    | _ :: _ :: _ => (db, Raise (MultipleObjectsReturned (name tbl)))
    end.

(** [objects.create(...)], and [save()] of an instance without a key:
    INSERT with a new key and the automatic dates. *)
Definition objects_create (now : Z) (x : T) : M DB T :=
  fun db =>
    let x' := with_pk (next_pk (rows tbl db))
                (auto_now now (auto_now_add now x)) in
    if violates x' (rows tbl db) then (db, Raise IntegrityError)
    else (put_rows tbl (rows tbl db ++ [x']) db, Ok x').

(** [objects.get_or_create(p, defaults)]: the boolean is [created]. *)
Definition objects_get_or_create (now : Z) (p : T -> bool) (x : T)
  : M DB (T * bool) :=
  fun db =>
    match filter p (rows tbl db) with
    | [] => (x' <- objects_create now x ;; ret (x', true)) db
    | [r] => (db, Ok (r, false))
    | _ :: _ :: _ => (db, Raise (MultipleObjectsReturned (name tbl)))
    end.

(** [instance.save()] of an instance that has a key; the instance comes
    back with its [auto_now] fields refreshed. *)
Definition save (now : Z) (x : T) : M DB T :=
  fun db =>
    let x' := auto_now now x in
    if violates x' (rows tbl db) then (db, Raise IntegrityError)
    else (put_rows tbl (upsert x' (rows tbl db)) db, Ok x').

End Orm.

(** A method runs on the database and on [self]. *)
Definition on_db {X A} (m : M DB A) : M (DB * X) A :=
  fun s =>
    let '(db', r) := m (fst s) in ((db', snd s), r).

Definition self {X} : M (DB * X) X := gets snd.

Definition set_self {X} (f : X -> X) : M (DB * X) unit :=
  modify (fun s => (fst s, f (snd s))).

(* ------------------------------------------------------------------ *)
(** ** What a request reads from outside the database

    The clock ([timezone.now()], [datetime.now()] and its [strftime]
    renderings) and the random [uuid.uuid4()] are inputs of a call. *)

Record Env : Type := mkEnv {
  now : Z;
  strftime_Ym : string;        (* datetime.now().strftime('%Y%m') *)
  strftime_YmdHMS : string;    (* datetime.now().strftime('%Y%m%d%H%M%S') *)
  uuid4 : string               (* str(uuid.uuid4()) *)
}.

Definition upper_ascii (c : ascii) : ascii :=
  let n := nat_of_ascii c in
  if ((97 <=? n) && (n <=? 122))%nat then ascii_of_nat (n - 32) else c.

(** [str.upper()] on the ASCII range. *)
Fixpoint upper (s : string) : string :=
  match s with
  | EmptyString => EmptyString
  | String c s' => String (upper_ascii c) (upper s')
  end.

(** [Certificate.generate_certificate_id_static] *)
Definition generate_certificate_id_static (env : Env) : string :=
  let timestamp := strftime_Ym env in
  let unique_id := upper (substring 0 8 (uuid4 env)) in
  ("CERT-" ++ timestamp ++ "-" ++ unique_id)%string.

(** [Order.generate_order_id] *)
Definition generate_order_id (env : Env) : string :=
  let timestamp := strftime_YmdHMS env in
  let unique_id := upper (substring 0 8 (uuid4 env)) in
  ("ORD-" ++ timestamp ++ "-" ++ unique_id)%string.

(* ------------------------------------------------------------------ *)
(** ** Queries that span relations *)

(** [lesson.section.course], when the section row is there. *)
Definition lesson_course (db : DB) (l : Lesson.t) : option nat :=
  option_map CourseSection.course (lookup_pk (Lesson.section l) (sections db)).

(** [Lesson.objects.filter(section__course=c)] as a predicate on lessons. *)
Definition lesson_in_course (db : DB) (c : nat) (l : Lesson.t) : bool :=
  match lesson_course db l with
  | Some c' => (c' =? c)%nat
  | None => false
  end.

(** [LessonProgress.objects.filter(student=s, lesson__section__course=c,
    completed=True)] as a predicate on progress rows. *)
Definition completed_in_course (db : DB) (s c : nat) (p : LessonProgress.t)
  : bool :=
  (LessonProgress.student p =? s)%nat
  && match lookup_pk (LessonProgress.lesson p) (lessons db) with
     | Some l => lesson_in_course db c l
     | None => false
     end
  && LessonProgress.completed p.

Definition total_lessons (db : DB) (c : nat) : Z :=
  Z.of_nat (List.length (filter (lesson_in_course db c) (lessons db))).

Definition completed_lessons (db : DB) (s c : nat) : Z :=
  Z.of_nat (List.length (filter (completed_in_course db s c) (lesson_progress db))).

Definition same_pair (s c : nat) (e : Enrollment.t) : bool :=
  (Enrollment.student e =? s)%nat && (Enrollment.course e =? c)%nat.

Definition cert_for (s c : nat) (x : Certificate.t) : bool :=
  (Certificate.student x =? s)%nat && (Certificate.course x =? c)%nat.

(* ------------------------------------------------------------------ *)
(** ** [Enrollment] methods *)

(** [Enrollment.issue_certificate] *)
Definition issue_certificate (env : Env)
  : M (DB * Enrollment.t) (option Certificate.t) :=
  this <- self ;;
  already <- on_db (objects_exists Certificates
                      (cert_for (Enrollment.student this)
                                (Enrollment.course this))) ;;
  if Enrollment.completed this && negb already then
    certificate <- on_db (objects_create Certificates (now env)
                     (Certificate.mk 0 (Enrollment.student this)
                        (Enrollment.course this)
                        (generate_certificate_id_static env) 0 None)) ;;
    ret (Some certificate)
  else ret None.

(** [self.save()] inside a method of [Enrollment]. *)
Definition save_self (env : Env) : M (DB * Enrollment.t) unit :=
  this <- self ;;
  saved <- on_db (save Enrollments (now env) this) ;;
  set_self (fun _ => saved).

(** [Enrollment.calculate_progress] *)
Definition calculate_progress (env : Env) : M (DB * Enrollment.t) Z :=
  this <- self ;;
  total_lessons <- on_db (gets (fun db =>
                     total_lessons db (Enrollment.course this))) ;;
  if (total_lessons =? 0)%Z then ret 0%Z
  else
    completed_lessons <- on_db (gets (fun db =>
                           completed_lessons db (Enrollment.student this)
                             (Enrollment.course this))) ;;
    pct <- lift_option OverflowError
             (percentage completed_lessons total_lessons) ;;
    set_self (Enrollment.set_progress_percentage pct) ;;;
    this <- self ;;
    (if (Enrollment.progress_percentage this =? 100)%Z
        && negb (Enrollment.completed this)
     then
       set_self (Enrollment.set_completed true) ;;;
       set_self (Enrollment.set_completed_at (Some (now env))) ;;;
       save_self env ;;;
       issue_certificate env ;;;
       ret tt
     else save_self env) ;;;
    this <- self ;;
    ret (Enrollment.progress_percentage this).

(** Calling a method on an object a view holds; the view sees the object
    as the method left it. *)
Definition call {X A} (m : M (DB * X) A) (x : X) : M DB (A * X) :=
  fun db =>
    let '((db', x'), r) := m (db, x) in
    match r with
    | Ok a => (db', Ok (a, x'))
    | Raise e => (db', Raise e)
    end.

(* ------------------------------------------------------------------ *)
(** ** Views of [courses/views.py] *)

Inductive HttpResponse : Type :=
| Render (template : string)
| Redirect (to : string)
| JsonResponse (status : nat).

Definition is_some {A} (o : option A) : bool :=
  match o with Some _ => true | None => false end.

Definition progress_for (s l : nat) (p : LessonProgress.t) : bool :=
  (LessonProgress.student p =? s)%nat && (LessonProgress.lesson p =? l)%nat.

(** [course_content]: shows a course to an enrolled student and
    recalculates the enrollment's progress on the way. *)
Definition course_content (env : Env) (user : nat) (slug : string)
  : M DB HttpResponse :=
  course <- get_object_or_404 Courses
              (fun c => String.eqb (Course.slug c) slug) ;;
  enrollment <- objects_first Enrollments (same_pair user (Course.id course)) ;;
  match enrollment with
  | None => ret (Redirect "courses:course_detail")
  | Some enrollment =>
      call (calculate_progress env) enrollment ;;;
      ret (Render "courses/course_content.html")
  end.

(** [lesson_view] *)
Definition lesson_view (env : Env) (user : nat) (course_slug : string)
           (lesson_id : nat) : M DB HttpResponse :=
  course <- get_object_or_404 Courses
              (fun c => String.eqb (Course.slug c) course_slug) ;;
  lesson <- get_object_or_404 Lessons
              (fun l => (Lesson.id l =? lesson_id)%nat) ;;
  enrollment <- objects_first Enrollments (same_pair user (Course.id course)) ;;
  if negb (is_some enrollment) && negb (Lesson.is_preview lesson) then
    ret (Redirect "courses:course_detail")
  else
    (if is_some enrollment then
       objects_get_or_create LessonProgresses (now env)
         (progress_for user (Lesson.id lesson))
         (LessonProgress.mk 0 user (Lesson.id lesson) false None 0) ;;;
       ret tt
     else ret tt) ;;;
    ret (Render "courses/lesson_detail.html").

(** [mark_lesson_complete] *)
Definition mark_lesson_complete (env : Env) (user : nat) (lesson_id : nat)
  : M DB HttpResponse :=
  lesson <- get_object_or_404 Lessons
              (fun l => (Lesson.id l =? lesson_id)%nat) ;;
  section <- objects_get Sections
               (fun s => (CourseSection.id s =? Lesson.section lesson)%nat) ;;
  enrollment <- objects_first Enrollments
                  (same_pair user (CourseSection.course section)) ;;
  match enrollment with
  | Some enrollment =>
      created <- objects_get_or_create LessonProgresses (now env)
                   (progress_for user (Lesson.id lesson))
                   (LessonProgress.mk 0 user (Lesson.id lesson) false None 0) ;;
      let progress := fst created in
      let progress := LessonProgress.set_completed true progress in
      let progress := LessonProgress.set_completed_at (Some (now env)) progress in
      save LessonProgresses (now env) progress ;;;
      call (calculate_progress env) enrollment ;;;
      ret (Redirect "courses:lesson_view")
  | None => ret (Redirect "courses:home")
  end.

(** [Cart.objects.filter(user=u).delete()]: the carts go, and with them
    (on_delete=CASCADE) their items. *)
Definition delete_carts_of (u : nat) : M DB unit :=
  modify (fun db =>
    let gone := filter (fun c => (Cart.user c =? u)%nat) (carts db) in
    let db := put_rows CartItems
                (filter (fun i => negb (has_pk (CartItem.cart i) gone))
                        (cart_items db)) db in
    put_rows Carts (filter (fun c => negb (Cart.user c =? u)%nat) (carts db)) db).

(** [utils.send_enrollment_email]: reads the order, writes no table, and
    catches whatever goes wrong inside it. *)
Definition send_enrollment_email (user : nat) (order : Order.t) : M DB unit :=
  ret tt.

Definition new_enrollment (s c : nat) : Enrollment.t :=
  Enrollment.mk 0 s c 0 false None 0.

(** The loop both payment paths run:
    [for order_item in order.items.all(): Enrollment.objects.get_or_create(...)] *)
Definition enroll_in_items (env : Env) (order : Order.t) : M DB unit :=
  items <- objects_filter OrderItems
             (fun i => (OrderItem.order i =? Order.id order)%nat) ;;
  for_each items (fun order_item =>
    objects_get_or_create Enrollments (now env)
      (same_pair (Order.user order) (OrderItem.course order_item))
      (new_enrollment (Order.user order) (OrderItem.course order_item)) ;;;
    ret tt).

(** The webhook's JSON body, for a body that has the keys the view reads. *)
Record Payload : Type := mkPayload {
  event : string;
  data_reference : string;
  data_id : string;
  data_channel : string
}.

Definition is_order_does_not_exist (e : Exn) : bool :=
  match e with
  | DoesNotExist m => String.eqb m "Order"
  | _ => false
  end.

(** [paystack_webhook] *)
Definition paystack_webhook (env : Env) (method : string) (payload : Payload)
  : M DB HttpResponse :=
  if String.eqb method "POST" then
    (if String.eqb (event payload) "charge.success" then
       let reference := data_reference payload in
       try_except
         (order <- objects_get Orders
                     (fun o => String.eqb (Order.order_id o) reference) ;;
          let order := Order.set_status Status.completed order in
          let order := Order.set_payment_reference (data_id payload) order in
          let order := Order.set_payment_method (data_channel payload) order in
          let order := Order.set_completed_at (Some (now env)) order in
          order <- save Orders (now env) order ;;
          enroll_in_items env order ;;;
          delete_carts_of (Order.user order) ;;;
          send_enrollment_email (Order.user order) order)
         is_order_does_not_exist
         (fun _ => ret tt)
     else ret tt) ;;;
    ret (JsonResponse 200)
  else ret (JsonResponse 400).

(** What the gateway answers to a verification call. *)
Record VerifyData : Type := mkVerifyData {
  verify_status : string;
  verify_id : string;
  verify_channel : string
}.

Record VerifyResult : Type := mkVerifyResult {
  result_status : bool;
  result_data : option VerifyData
}.

(** [payment_verify].  [gateway] is the decoded answer of the gateway, or
    [None] when the HTTP call or its decoding raised. *)
Definition payment_verify (env : Env) (user : nat) (reference : option string)
           (gateway : option VerifyResult) : M DB HttpResponse :=
  match reference with
  | None | Some EmptyString => ret (Redirect "courses:cart")
  | Some reference =>
      try_except
        (order <- objects_get Orders
                    (fun o => String.eqb (Order.order_id o) reference
                              && (Order.user o =? user)%nat) ;;
         result <- lift_option RequestException gateway ;;
         paid <- (if result_status result then
                    data <- lift_option KeyError (result_data result) ;;
                    ret (String.eqb (verify_status data) "success",
                         verify_id data, verify_channel data)
                  else ret (false, EmptyString, EmptyString)) ;;
         let '(success, id, channel) := paid in
         if success then
           let order := Order.set_status Status.completed order in
           let order := Order.set_payment_reference id order in
           let order := Order.set_payment_method channel order in
           let order := Order.set_completed_at (Some (now env)) order in
           order <- save Orders (now env) order ;;
           enroll_in_items env order ;;;
           delete_carts_of (Order.user order) ;;;
           send_enrollment_email (Order.user order) order ;;;
           ret (Redirect "courses:dashboard")
         else
           let order := Order.set_status Status.failed order in
           save Orders (now env) order ;;;
           ret (Redirect "courses:cart"))
        (fun _ => true)
        (fun _ => ret (Redirect "courses:cart"))
  end.

(** [cart.get_total()]: [sum(item.course.price for item in self.items.all())] *)
Definition get_total (cart : Cart.t) : M DB Z :=
  items <- objects_filter CartItems
             (fun i => (CartItem.cart i =? Cart.id cart)%nat) ;;
  (fix sum (l : list CartItem.t) : M DB Z :=
     match l with
     | [] => ret 0%Z
     | item :: l' =>
         course <- objects_get Courses
                     (fun c => (Course.id c =? CartItem.course item)%nat) ;;
         rest <- sum l' ;;
         ret (Course.price course + rest)%Z
     end) items.

(** [initiate_payment].  [gateway] is the [status] of the gateway's answer
    to the initialisation call, or [None] when the call raised. *)
Definition initiate_payment (env : Env) (user : nat) (gateway : option bool)
  : M DB HttpResponse :=
  cart <- get_object_or_404 Carts (fun c => (Cart.user c =? user)%nat) ;;
  has_items <- objects_exists CartItems
                 (fun i => (CartItem.cart i =? Cart.id cart)%nat) ;;
  if negb has_items then ret (JsonResponse 400)
  else
    total <- get_total cart ;;
    order <- objects_create Orders (now env)
               (Order.mk 0 user (generate_order_id env) total "GHS"
                  Status.pending EmptyString EmptyString 0 0 None) ;;
    items <- objects_filter CartItems
               (fun i => (CartItem.cart i =? Cart.id cart)%nat) ;;
    for_each items (fun cart_item =>
      course <- objects_get Courses
                  (fun c => (Course.id c =? CartItem.course cart_item)%nat) ;;
      objects_create OrderItems (now env)
        (OrderItem.mk 0 (Order.id order) (CartItem.course cart_item)
           (Course.price course)) ;;;
      ret tt) ;;;
    match gateway with
    | Some true => ret (JsonResponse 200)
    | Some false =>
        save Orders (now env) (Order.set_status Status.failed order) ;;;
        ret (JsonResponse 400)
    | None =>
        save Orders (now env) (Order.set_status Status.failed order) ;;;
        ret (JsonResponse 500)
    end.

(* ------------------------------------------------------------------ *)
(** ** The back office: [courses/admin_views.py] and [courses/admin.py] *)

(** [admin_update_order_status], for a superuser.  [new_status] is
    [request.POST.get('status')]. *)
Definition admin_update_order_status (env : Env) (method : string)
           (order_id : string) (new_status : option string)
  : M DB HttpResponse :=
  (if String.eqb method "POST" then
     order <- get_object_or_404 Orders
                (fun o => String.eqb (Order.order_id o) order_id) ;;
     match new_status with
     | Some s =>
         match Status.of_string s with
         | Some st => save Orders (now env) (Order.set_status st order) ;;; ret tt
         | None => ret tt
         end
     | None => ret tt
     end
   else ret tt) ;;;
  ret (Redirect "courses:admin_order_detail").

(** [Section.objects.filter(course=c).delete()]: the sections go, and with
    them (on_delete=CASCADE) their lessons and those lessons' progress rows. *)
Definition delete_sections_of (c : nat) : M DB unit :=
  modify (fun db =>
    let gone_sections :=
      filter (fun s => (CourseSection.course s =? c)%nat) (sections db) in
    let gone_lessons :=
      filter (fun l => has_pk (Lesson.section l) gone_sections) (lessons db) in
    let db := put_rows LessonProgresses
                (filter (fun p => negb (has_pk (LessonProgress.lesson p) gone_lessons))
                        (lesson_progress db)) db in
    let db := put_rows Lessons
                (filter (fun l => negb (has_pk (Lesson.section l) gone_sections))
                        (lessons db)) db in
    put_rows Sections
      (filter (fun s => negb (CourseSection.course s =? c)%nat) (sections db)) db).

(** The part of [admin_edit_course] that rewrites a course's content, for a
    valid form: every section of the course is deleted and the posted
    sections are created anew.  A posted section is the list of its
    lessons' [is_preview] flags. *)
Definition admin_edit_course (env : Env) (course_id : nat)
           (sections_data : list (list bool)) : M DB HttpResponse :=
  course <- get_object_or_404 Courses
              (fun c => (Course.id c =? course_id)%nat) ;;
  delete_sections_of (Course.id course) ;;;
  for_each sections_data (fun section_data =>
    section <- objects_create Sections (now env)
                 (CourseSection.mk 0 (Course.id course)) ;;
    for_each section_data (fun is_preview =>
      objects_create Lessons (now env)
        (Lesson.mk 0 (CourseSection.id section) is_preview) ;;;
      ret tt)) ;;;
  ret (Redirect "courses:admin_course_detail").

(** The add form of [LessonAdmin] (registered in [courses/admin.py]):
    one new lesson under an existing section. *)
Definition admin_add_lesson (env : Env) (section : nat) (is_preview : bool)
  : M DB Lesson.t :=
  section <- objects_get Sections
               (fun s => (CourseSection.id s =? section)%nat) ;;
  objects_create Lessons (now env)
    (Lesson.mk 0 (CourseSection.id section) is_preview).


(* ------------------------------------------------------------------ *)
(** ** The cart views of [courses/views.py] *)

(** [CartItem.objects.filter(cart__user=u)] as a predicate on cart items. *)
Definition in_cart_of (db : DB) (u : nat) (i : CartItem.t) : bool :=
  match lookup_pk (CartItem.cart i) (carts db) with
  | Some c => (Cart.user c =? u)%nat
  | None => false
  end.

Definition cart_of (u : nat) (c : Cart.t) : bool := (Cart.user c =? u)%nat.

Definition cart_item_for (cart course : nat) (i : CartItem.t) : bool :=
  (CartItem.cart i =? cart)%nat && (CartItem.course i =? course)%nat.

(** [cart_view] *)
Definition cart_view (env : Env) (user : nat) : M DB HttpResponse :=
  cart <- objects_get_or_create Carts (now env) (cart_of user)
            (Cart.mk 0 user) ;;
  get_total (fst cart) ;;;
  ret (Render "cart/cart.html").

(** [add_to_cart] *)
Definition add_to_cart (env : Env) (user : nat) (course_id : nat)
  : M DB HttpResponse :=
  course <- get_object_or_404 Courses
              (fun c => (Course.id c =? course_id)%nat) ;;
  enrolled <- objects_exists Enrollments (same_pair user (Course.id course)) ;;
  if enrolled then ret (Redirect "courses:course_detail")
  else
    cart <- objects_get_or_create Carts (now env) (cart_of user)
              (Cart.mk 0 user) ;;
    let cart := fst cart in
    objects_get_or_create CartItems (now env)
      (cart_item_for (Cart.id cart) (Course.id course))
      (CartItem.mk 0 (Cart.id cart) (Course.id course)) ;;;
    ret (Redirect "courses:cart").

(** [cart_item.delete()] *)
Definition delete_cart_item (i : CartItem.t) : M DB unit :=
  modify (fun db =>
    put_rows CartItems
      (filter (fun r => negb (CartItem.id r =? CartItem.id i)%nat)
              (cart_items db)) db).

(** [remove_from_cart] *)
Definition remove_from_cart (user : nat) (item_id : nat) : M DB HttpResponse :=
  cart_item <- (fun db =>
                  get_object_or_404 CartItems
                    (fun i => (CartItem.id i =? item_id)%nat
                              && in_cart_of db user i) db) ;;
  (* course_title = cart_item.course.title *)
  objects_get Courses (fun c => (Course.id c =? CartItem.course cart_item)%nat) ;;;
  delete_cart_item cart_item ;;;
  ret (Redirect "courses:cart").

(** [checkout] *)
Definition checkout (user : nat) : M DB HttpResponse :=
  cart <- get_object_or_404 Carts (cart_of user) ;;
  has_items <- objects_exists CartItems
                 (fun i => (CartItem.cart i =? Cart.id cart)%nat) ;;
  if negb has_items then ret (Redirect "courses:courses_list")
  else
    get_total cart ;;;
    ret (Render "cart/checkout.html").

(* ------------------------------------------------------------------ *)
(** ** The dashboard *)

Section OrderBy.
Context {T : Type}.

Fixpoint insert_desc (key : T -> Z) (x : T) (l : list T) : list T :=
  match l with
  | [] => [x]
  | y :: l' =>
      if (key y <=? key x)%Z then x :: y :: l' else y :: insert_desc key x l'
  end.

(** [.order_by('-key')]; rows with equal keys stay in the order of the
    table. *)
Definition order_by_desc (key : T -> Z) (l : list T) : list T :=
  fold_right (insert_desc key) [] l.
End OrderBy.

(** [dashboard]: every enrollment of the user is recalculated; what follows
    in the view only reads. *)
Definition dashboard (env : Env) (user : nat) : M DB HttpResponse :=
  enrollments <- objects_filter Enrollments
                   (fun e => (Enrollment.student e =? user)%nat) ;;
  let enrollments := order_by_desc Enrollment.enrolled_at enrollments in
  for_each enrollments (fun enrollment =>
    call (calculate_progress env) enrollment ;;; ret tt) ;;;
  ret (Render "dashboard.html").

(* ------------------------------------------------------------------ *)
(** ** [Lesson.get_youtube_embed_url]

    The strings of Python as [string]; [None] stands for the [IndexError]
    of an index past the end of a list. *)

Fixpoint drop (n : nat) (s : string) : string :=
  match n, s with
  | S n', String _ s' => drop n' s'
  | _, _ => s
  end.

(** [s.partition(sep)], when [sep] occurs in [s]: the text before its
    first occurrence and the text after it. *)
Fixpoint partition (sep s : string) : option (string * string) :=
  if prefix sep s then Some (EmptyString, drop (String.length sep) s)
  else
    match s with
    | EmptyString => None
    | String c s' =>
        match partition sep s' with
        | Some (before, rest) => Some (String c before, rest)
        | None => None
        end
    end.

(** [sep in s] *)
Definition contains (sep s : string) : bool :=
  match partition sep s with Some _ => true | None => false end.

(** [s.split(sep)] for a non-empty [sep]; the fuel covers every
    occurrence, since each takes at least one character. *)
Fixpoint split_fuel (fuel : nat) (sep s : string) : list string :=
  match fuel with
  | 0 => [s]
  | S fuel' =>
      match partition sep s with
      | Some (before, rest) => before :: split_fuel fuel' sep rest
      | None => [s]
      end
  end.

Definition split (sep s : string) : list string :=
  split_fuel (String.length s) sep s.

Definition get_youtube_embed_url (video_url : string) : option string :=
  if contains "youtube.com/watch?v=" video_url then
    match nth_error (split "watch?v=" video_url) 1 with
    | Some rest =>
        match nth_error (split "&" rest) 0 with
        | Some video_id =>
            Some ("https://www.youtube.com/embed/" ++ video_id)%string
        | None => None
        end
    | None => None
    end
  else if contains "youtu.be/" video_url then
    match nth_error (split "youtu.be/" video_url) 1 with
    | Some rest =>
        match nth_error (split "?" rest) 0 with
        | Some video_id =>
            Some ("https://www.youtube.com/embed/" ++ video_id)%string
        | None => None
        end
    | None => None
    end
  else Some video_url.

(* ------------------------------------------------------------------ *)
(** ** Certificates on request *)

(** [bool(certificate.pdf_file)]: a file field is true when it has a
    name. *)
Definition has_file (c : Certificate.t) : bool :=
  match Certificate.pdf_file c with
  | None | Some EmptyString => false
  | Some _ => true
  end.

Definition owned_certificate (certificate_id : string) (user : nat)
           (c : Certificate.t) : bool :=
  String.eqb (Certificate.certificate_id c) certificate_id
  && (Certificate.student c =? user)%nat.

(** What a request to [download_certificate] comes to: a response, an
    exception of the framework, or Python's [NameError] for a name that
    the module does not bind. *)
Inductive Outcome (A : Type) : Type :=
| Returned (a : A)
| Raised (e : Exn)
| NameError (name : string).

Arguments Returned {A} a.
Arguments Raised {A} e.
Arguments NameError {A} name.

(** [download_certificate].  [generate_certificate_pdf] draws the document
    in memory and is taken to return.  The value is the name of the stored
    file that the response streams; the storage is taken to hold every
    file a certificate names.

    For a certificate without a document the view goes on to
    [certificate.pdf_file.save(filename, File(pdf_buffer))].  views.py
    imports [FileResponse] from [django.http] and [generate_certificate_pdf]
    from [.utils], but never [File] (only utils.py imports it), so
    evaluating the argument [File(pdf_buffer)] raises [NameError] before
    [save] is called: nothing is stored and nothing is served. *)
Definition download_certificate
           (generate_certificate_pdf : Certificate.t -> string)
           (user : nat) (certificate_id : string) (db : DB)
  : DB * Outcome (option string) :=
  match get_object_or_404 Certificates
          (owned_certificate certificate_id user) db with
  | (db, Raise e) => (db, Raised e)
  | (db, Ok certificate) =>
      if negb (has_file certificate) then
        let pdf_buffer := generate_certificate_pdf certificate in
        let filename :=
          ("certificate_" ++ Certificate.certificate_id certificate
                          ++ ".pdf")%string in
        (db, NameError "File")
      else (db, Returned (Certificate.pdf_file certificate))
  end.
(* ------------------------------------------------------------------ *)
(** ** Auxiliary definitions used by the statements *)

(** What [save_self] writes for an enrollment [e]. *)
Definition saved (e : Enrollment.t) (db : DB) : DB :=
  put_rows Enrollments (upsert e (enrollments db)) db.


(** A Hoare triple for a view: from a database satisfying [P] the view
    ends in one satisfying [Q] with its value, or raises in one satisfying
    [E]. *)
Definition hoare {A : Type} (P : DB -> Prop) (m : M DB A)
           (Q : A -> DB -> Prop) (E : DB -> Prop) : Prop :=
  forall db, P db ->
    match m db with
    | (db', Ok a) => Q a db'
    | (db', Raise _) => E db'
    end.

(** [P] does not look at table [tbl]. *)
Definition ignores {T : Type} (P : DB -> Prop) (tbl : Table T) : Prop :=
  forall l db, P db -> P (put_rows tbl l db).

(** The requests that touch an enrollment's progress or the content of its
    course. *)
Inductive request : Type :=
| CourseContent (user : nat) (slug : string)
| LessonView (user : nat) (course_slug : string) (lesson_id : nat)
| MarkLessonComplete (user : nat) (lesson_id : nat)
| AdminAddLesson (section : nat) (is_preview : bool)
| AdminEditCourse (course_id : nat) (sections_data : list (list bool)).

(** The database after a request has been served (also when the view
    raised: what it wrote before stays). *)
Definition handle (env : Env) (r : request) (db : DB) : DB :=
  match r with
  | CourseContent user slug => fst (course_content env user slug db)
  | LessonView user slug lesson_id => fst (lesson_view env user slug lesson_id db)
  | MarkLessonComplete user lesson_id => fst (mark_lesson_complete env user lesson_id db)
  | AdminAddLesson section is_preview => fst (admin_add_lesson env section is_preview db)
  | AdminEditCourse course_id data => fst (admin_edit_course env course_id data db)
  end.

Definition serve (history : list (Env * request)) (db : DB) : DB :=
  fold_left (fun d x => handle (fst x) (snd x) d) history db.

(** The enrollment with key [i] is stored as completed since [t]. *)
Definition stored_completed (i : nat) (t : option Z) (db : DB) : Prop :=
  has_pk i (enrollments db) = true
  /\ forall r, In r (enrollments db) -> Enrollment.id r = i ->
       Enrollment.completed r = true /\ Enrollment.completed_at r = t.

(* ------------------------------------------------------------------ *)
(** ** A small campus, for the examples

    One course with one section and one lesson, and student 7 enrolled. *)

Definition env_at (t : Z) (uuid : string) : Env :=
  mkEnv t "202611" "20261104120000" uuid.

Definition campus : DB :=
  mkDB [Course.mk 1 "mining-101" 100]
       [CourseSection.mk 1 1]
       [Lesson.mk 1 1 false]
       []
       [Enrollment.mk 1 7 1 0 false None 0]
       [] [] [] [] [].

(** Student 7 completes the only lesson: the enrollment is completed at
    instant 2000 and the certificate is issued. *)
Definition campus_completed : DB :=
  Eval vm_compute in
  handle (env_at 2000 "7b2a9c1e-52d1-4c0a-9d3e-0123456789ab")
         (MarkLessonComplete 7 1) campus.

(** The stored enrollment of student 7 in [campus_completed]. *)
Definition enrollment_completed : Enrollment.t :=
  Enrollment.mk 1 7 1 0 true (Some 2000%Z) 100.

(** The course is then edited in the back office and loses all its
    sections. *)
Definition campus_emptied : DB :=
  Eval vm_compute in
  handle (env_at 3000 "00000000-0000-4000-8000-000000000000")
         (AdminEditCourse 1 []) campus_completed.

(** Or one more lesson is added to its section. *)
Definition campus_extended : DB :=
  Eval vm_compute in
  handle (env_at 3000 "00000000-0000-4000-8000-000000000000")
         (AdminAddLesson 1 false) campus_completed.

(** [I] is an invariant of the view [m]: it holds afterwards, also when
    the view raises. *)
Definition keeps {A : Type} (I : DB -> Prop) (m : M DB A) : Prop :=
  hoare I m (fun _ => I) I.

(** The specification's reading of a recalculation for a course without
    lessons: it answers 0, and the stored row then has percentage 0 and is
    not completed. *)
Definition zero_lessons_as_specified (env : Env) (db : DB) (e : Enrollment.t)
  : Prop :=
  total_lessons db (Enrollment.course e) = 0%Z ->
  let s := calculate_progress env (db, e) in
  snd s = Ok 0%Z
  /\ exists row,
       lookup_pk (Enrollment.id e) (enrollments (fst (fst s))) = Some row
       /\ Enrollment.progress_percentage row = 0%Z
       /\ Enrollment.completed row = false.

(** The completion columns of the enrollment table. *)
Definition completion_columns (db : DB) : list (nat * bool * option Z) :=
  map (fun r => (Enrollment.id r, Enrollment.completed r,
                 Enrollment.completed_at r)) (enrollments db).

(** A course of [n] lessons in one section, of which student 7 has
    completed the first [k]. *)
Definition classroom (n k : nat) : DB :=
  mkDB [Course.mk 1 "mining-101" 100]
       [CourseSection.mk 1 1]
       (map (fun i => Lesson.mk i 1 false) (seq 1 n))
       (map (fun i => LessonProgress.mk i 7 i true (Some 0%Z) 0) (seq 1 k))
       [Enrollment.mk 1 7 1 0 false None 0]
       [] [] [] [] [].

Definition classroom_enrollment : Enrollment.t :=
  Enrollment.mk 1 7 1 0 false None 0.

(** The small campus as [calculate_progress] has it between [self.save()]
    and [self.issue_certificate()], when student 7 completes the lesson. *)
Definition campus_before_certificate : DB :=
  Eval vm_compute in
  saved enrollment_completed
    (put_rows LessonProgresses
       [LessonProgress.mk 1 7 1 true (Some 2000%Z) 2000] campus).

(** The small campus with a second lesson, open to preview. *)
Definition campus_with_preview : DB :=
  Eval vm_compute in
  handle (env_at 1000 "0c0ffee0-0000-4000-8000-000000000000")
         (AdminAddLesson 1 true) campus.

Definition lesson_detail : HttpResponse := Render "courses/lesson_detail.html".

(** The specification's reading of a first lesson view: the student is
    enrolled in the lesson's course or the lesson is a preview, no progress
    row exists yet, and the view leaves exactly one. *)
Definition first_view_as_specified (env : Env) (user : nat) (slug : string)
           (lesson_id : nat) (db : DB) : Prop :=
  forall course lesson,
    filter (fun c => String.eqb (Course.slug c) slug) (courses db) = [course] ->
    filter (fun l => (Lesson.id l =? lesson_id)%nat) (lessons db) = [lesson] ->
    lesson_course db lesson = Some (Course.id course) ->
    existsb (same_pair user (Course.id course)) (enrollments db) = true
    \/ Lesson.is_preview lesson = true ->
    filter (progress_for user lesson_id) (lesson_progress db) = [] ->
    List.length
      (filter (progress_for user lesson_id)
         (lesson_progress (fst (lesson_view env user slug lesson_id db)))) = 1.

(* ------------------------------------------------------------------ *)
(** ** Fulfilling an order *)

(** What triggers a fulfilment: the gateway's webhook announcing a
    successful charge, or the buyer coming back to the verification page
    while the gateway reports success.  Either brings the gateway's
    transaction id and channel. *)
Inductive trigger : Type :=
| ViaWebhook (id channel : string)
| ViaVerify (user : nat) (id channel : string).

Definition trigger_id (tr : trigger) : string :=
  match tr with ViaWebhook id _ => id | ViaVerify _ id _ => id end.

Definition trigger_channel (tr : trigger) : string :=
  match tr with ViaWebhook _ ch => ch | ViaVerify _ _ ch => ch end.

(** The request a trigger makes for the order with the given reference. *)
Definition fulfil (env : Env) (reference : string) (tr : trigger)
  : M DB HttpResponse :=
  match tr with
  | ViaWebhook id channel =>
      paystack_webhook env "POST"
        (mkPayload "charge.success" reference id channel)
  | ViaVerify user id channel =>
      payment_verify env user (Some reference)
        (Some (mkVerifyResult true (Some (mkVerifyData "success" id channel))))
  end.

Definition fulfilled_response (tr : trigger) : HttpResponse :=
  match tr with
  | ViaWebhook _ _ => JsonResponse 200
  | ViaVerify _ _ _ => Redirect "courses:dashboard"
  end.

(** The trigger can reach the order: the verification page looks the order
    up under the logged-in user and needs a non-empty reference. *)
Definition reaches (tr : trigger) (reference : string) (order : Order.t) : Prop :=
  match tr with
  | ViaWebhook _ _ => True
  | ViaVerify user _ _ => user = Order.user order /\ reference <> EmptyString
  end.

(** The order row a fulfilment writes. *)
Definition paid (now : Z) (id channel : string) (o : Order.t) : Order.t :=
  Order.mk (Order.id o) (Order.user o) (Order.order_id o)
    (Order.total_amount o) (Order.currency o) Status.completed id channel
    (Order.created_at o) now (Some now).

Definition has_reference (reference : string) (o : Order.t) : bool :=
  String.eqb (Order.order_id o) reference.

(** The specification's guard: fulfilling an order that is already
    completed changes nothing. *)
Definition guard_as_specified (env : Env) (reference : string) (tr : trigger)
           (db : DB) : Prop :=
  forall order,
    filter (has_reference reference) (orders db) = [order] ->
    Order.status order = Status.completed ->
    fst (fulfil env reference tr db) = db.

(** A shop: two courses at 100 and 200, and buyer 7 with both in the cart. *)
Definition shop : DB :=
  mkDB [Course.mk 1 "mining-101" 100; Course.mk 2 "blasting-201" 200]
       [] [] [] [] []
       [Cart.mk 1 7]
       [CartItem.mk 1 1 1; CartItem.mk 2 1 2]
       [] [].

Definition checkout_env : Env :=
  mkEnv 1000 "202611" "20261104120000" "9f1b2c3d-aaaa-4bbb-8ccc-0123456789ab".

Definition shop_reference : string := "ORD-20261104120000-9F1B2C3D".

(** The buyer starts the payment ... *)
Definition shop_ordered : DB :=
  Eval vm_compute in
  fst (initiate_payment checkout_env 7 (Some true) shop).

(** ... and the gateway's webhook reports the charge. *)
Definition shop_paid : DB :=
  Eval vm_compute in
  fst (fulfil (env_at 2000 "") shop_reference (ViaWebhook "4099" "card")
              shop_ordered).

(** Or the buyer returns before paying and the gateway reports the
    transaction as abandoned. *)
Definition shop_abandoned : DB :=
  Eval vm_compute in
  fst (payment_verify (env_at 1500 "") 7 (Some shop_reference)
         (Some (mkVerifyResult true
                  (Some (mkVerifyData "abandoned" "4099" "card"))))
         shop_ordered).

(** The status of the order with key [i], as stored. *)
Definition stored_status (i : nat) (db : DB) : option Status.t :=
  option_map Order.status (lookup_pk i (orders db)).

(** The transitions the specification's state machine allows. *)
Definition allowed (a b : Status.t) : bool :=
  match a, b with
  | Status.pending, Status.processing
  | Status.processing, Status.completed
  | Status.processing, Status.failed
  | Status.completed, Status.refunded => true
  | _, _ => false
  end.

(** The specification's state machine, for a fulfilment: the order's
    status stays, or moves along an allowed transition. *)
Definition transitions_as_specified (env : Env) (reference : string)
           (tr : trigger) (db : DB) : Prop :=
  forall order,
    filter (has_reference reference) (orders db) = [order] ->
    exists s',
      stored_status (Order.id order) (fst (fulfil env reference tr db)) = Some s'
      /\ (s' = Order.status order \/ allowed (Order.status order) s' = true).

(** The gateway answered the verification call, and not with a success. *)
Definition declined (g : VerifyResult) : bool :=
  match result_status g, result_data g with
  | false, _ => true
  | true, Some d => negb (String.eqb (verify_status d) "success")
  | true, None => false
  end.

(** The paid order of the shop. *)
Definition shop_order_paid : Order.t :=
  Order.mk 1 7 shop_reference 300 "GHS" Status.completed "4099" "card"
           1000 2000 (Some 2000%Z).

(** The abandoned order of the shop. *)
Definition shop_order_abandoned : Order.t :=
  Order.mk 1 7 shop_reference 300 "GHS" Status.failed "" ""
           1000 1500 None.

(** [unique_together = ['student', 'course']] holds of a list of
    enrollments. *)
Fixpoint distinct_pairs (l : list Enrollment.t) : bool :=
  match l with
  | [] => true
  | e :: l' =>
      negb (existsb (same_pair (Enrollment.student e) (Enrollment.course e)) l')
      && distinct_pairs l'
  end.

(** The number of enrollments of student [s] in course [c]. *)
Definition enrollment_count (db : DB) (s c : nat) : nat :=
  List.length (filter (same_pair s c) (enrollments db)).

(** The courses of an order's items. *)
Definition ordered_courses (db : DB) (order : Order.t) : list nat :=
  map OrderItem.course
      (filter (fun i => (OrderItem.order i =? Order.id order)%nat)
              (order_items db)).

(** The result of the final normalisation of a mantissa in [2^52, 2^53]
    at exponent [e1], in binary64. *)
Definition renormalised (m1 e1 : Z) : spec_float :=
  if (m1 <? 2 ^ 53)%Z then S754_finite false (Z.to_pos m1) e1
  else S754_finite false (Z.to_pos (2 ^ 52)) (e1 + 1)%Z.

(** In the small campus: the student completes the course, a lesson is
    added to it, and the student opens the course page again. *)
Definition completion_then_new_lesson : list (Env * request) :=
  [(env_at 2000 "7b2a9c1e-52d1-4c0a-9d3e-0123456789ab", MarkLessonComplete 7 1);
   (env_at 3000 "00000000-0000-4000-8000-000000000000", AdminAddLesson 1 false);
   (env_at 4000 "2c0ffee0-0000-4000-8000-000000000000",
    CourseContent 7 "mining-101")].

(* ------------------------------------------------------------------ *)
(** ** Notions used to state further properties *)

(** The price of the course with key [c], as [item.course.price] reads it. *)
Definition course_price (db : DB) (c : nat) : Z :=
  match lookup_pk c (courses db) with
  | Some x => Course.price x
  | None => 0%Z
  end.

(** [sum(...)] over integers. *)
Definition sum_Z (l : list Z) : Z := fold_right Z.add 0%Z l.

(** The items of the cart with key [c]. *)
Definition items_of (db : DB) (c : nat) : list CartItem.t :=
  filter (fun i => (CartItem.cart i =? c)%nat) (cart_items db).

(** The columns of an order item that the code fills in. *)
Definition item_columns (i : OrderItem.t) : nat * nat * Z :=
  (OrderItem.order i, OrderItem.course i, OrderItem.price i).

(** Each item of a list points to exactly one stored course. *)
Definition courses_found (db : DB) (items : list CartItem.t) : Prop :=
  forall i, In i items ->
    exists c, filter (fun c => (Course.id c =? CartItem.course i)%nat)
                     (courses db) = [c].

(** The small campus when student 7 has opened the cart page and put
    nothing into the cart. *)
Definition campus_with_cart : DB :=
  Eval vm_compute in fst (cart_view checkout_env 7 campus).

(** An ASCII lowercase letter. *)
Definition lowercase (c : ascii) : bool :=
  ((97 <=? nat_of_ascii c) && (nat_of_ascii c <=? 122))%nat.

Fixpoint string_forallb (p : ascii -> bool) (s : string) : bool :=
  match s with
  | EmptyString => true
  | String c s' => p c && string_forallb p s'
  end.

(** The foreign keys of lessons and of progress rows point to stored rows. *)
Definition lessons_have_sections (db : DB) : bool :=
  forallb (fun l => has_pk (Lesson.section l) (sections db)) (lessons db).

Definition progress_has_lessons (db : DB) : bool :=
  forallb (fun p => has_pk (LessonProgress.lesson p) (lessons db))
          (lesson_progress db).

(** The small campus with a certificate of another student that happens
    to carry the identifier generated next, and student 7 having completed
    the only lesson. *)
Definition campus_identifier_taken : DB :=
  mkDB [Course.mk 1 "mining-101" 100]
       [CourseSection.mk 1 1]
       [Lesson.mk 1 1 false]
       [LessonProgress.mk 1 7 1 true (Some 2000%Z) 2000]
       [Enrollment.mk 1 7 1 0 false None 0]
       [Certificate.mk 1 9 1 "CERT-202611-7B2A9C1E" 1500 None]
       [] [] [] [].

(* ------------------------------------------------------------------ *)
(** ** Histories of requests *)

(** Every request to a modelled view. *)
Inductive action : Type :=
| Learn (r : request)
| Dashboard (user : nat)
| CartView (user : nat)
| AddToCart (user course_id : nat)
| RemoveFromCart (user item_id : nat)
| Checkout (user : nat)
| InitiatePayment (user : nat) (gateway : option bool)
| PaystackWebhook (method : string) (payload : Payload)
| PaymentVerify (user : nat) (reference : option string)
                (gateway : option VerifyResult)
| AdminUpdateOrderStatus (method order_id : string)
                         (new_status : option string).

(** The database after an action (what a view wrote before raising
    stays). *)
Definition perform (env : Env) (a : action) (db : DB) : DB :=
  match a with
  | Learn r => handle env r db
  | Dashboard user => fst (dashboard env user db)
  | CartView user => fst (cart_view env user db)
  | AddToCart user course_id => fst (add_to_cart env user course_id db)
  | RemoveFromCart user item_id => fst (remove_from_cart user item_id db)
  | Checkout user => fst (checkout user db)
  | InitiatePayment user gateway => fst (initiate_payment env user gateway db)
  | PaystackWebhook method payload =>
      fst (paystack_webhook env method payload db)
  | PaymentVerify user reference gateway =>
      fst (payment_verify env user reference gateway db)
  | AdminUpdateOrderStatus method order_id new_status =>
      fst (admin_update_order_status env method order_id new_status db)
  end.

Definition run (history : list (Env * action)) (db : DB) : DB :=
  fold_left (fun d x => perform (fst x) (snd x) d) history db.

(** No key occurs twice. *)
Fixpoint distinct_keys (l : list nat) : bool :=
  match l with
  | [] => true
  | k :: l' => negb (existsb (Nat.eqb k) l') && distinct_keys l'
  end.

(** A completed enrollment of the certificate's student in its course. *)
Definition backs (c : Certificate.t) (e : Enrollment.t) : bool :=
  same_pair (Certificate.student c) (Certificate.course c) e
  && Enrollment.completed e.

(** Certificates are sound: every certificate is backed by a stored
    completed enrollment, and no (student, course) pair has two
    certificates; the enrollment keys are distinct. *)
Definition certificates_sound (db : DB) : Prop :=
  distinct_keys (map Enrollment.id (enrollments db)) = true
  /\ (forall c, In c (certificates db) ->
                existsb (backs c) (enrollments db) = true)
  /\ (forall s c, List.length (filter (cert_for s c) (certificates db)) <= 1).

(** An item of an order of student [s] for course [c]. *)
Definition ordered_by (db : DB) (s c : nat) : Prop :=
  exists o i,
    In o (orders db) /\ In i (order_items db)
    /\ OrderItem.order i = Order.id o
    /\ Order.user o = s /\ OrderItem.course i = c.

(** Every enrollment goes back to an item of an order of its student;
    the keys of enrollments and of orders are distinct. *)
Definition enrollments_ordered (db : DB) : Prop :=
  distinct_keys (map Enrollment.id (enrollments db)) = true
  /\ distinct_keys (map Order.id (orders db)) = true
  /\ forall e, In e (enrollments db) ->
               ordered_by db (Enrollment.student e) (Enrollment.course e).

(** The enrollment with key [i] is stored as completed since [t], in a
    table with distinct keys. *)
Definition settled (i : nat) (t : option Z) (db : DB) : Prop :=
  distinct_keys (map Enrollment.id (enrollments db)) = true
  /\ stored_completed i t db.

(** No certificate has a document, in a database whose enrollment keys
    are distinct. *)
Definition undocumented (db : DB) : Prop :=
  distinct_keys (map Enrollment.id (enrollments db)) = true
  /\ forallb (fun c => negb (has_file c)) (certificates db) = true.

(* ------------------------------------------------------------------ *)
(** ** Video identifiers *)

(** The characters of a YouTube video identifier: letters, digits, [-]
    and [_]. *)
Definition id_char (c : ascii) : bool :=
  let n := nat_of_ascii c in
  (((48 <=? n) && (n <=? 57)) || ((65 <=? n) && (n <=? 90))
   || ((97 <=? n) && (n <=? 122)) || (n =? 45) || (n =? 95))%nat.

Definition video_id (s : string) : bool := string_forallb id_char s.

(** Reading [p] from its start, the first character that is not an
    identifier character exists and is not [q]. *)
Fixpoint blocked (q : ascii) (p : string) : bool :=
  match p with
  | EmptyString => false
  | String a p' => if id_char a then blocked q p' else negb (Ascii.eqb a q)
  end.

(** The text is empty or starts with [q]. *)
Definition starts_with_or_empty (q : ascii) (s : string) : Prop :=
  s = EmptyString \/ exists r, s = String q r.

(** Two courses with one lesson each; student 7 is enrolled in the first
    course only. *)
Definition two_courses : DB :=
  mkDB [Course.mk 1 "mining-101" 100; Course.mk 2 "blasting-201" 200]
       [CourseSection.mk 1 1; CourseSection.mk 2 2]
       [Lesson.mk 1 1 false; Lesson.mk 2 2 false]
       []
       [Enrollment.mk 1 7 1 0 false None 0]
       [] [] [] [] [].
(* ================================================================== *)
(** * Properties *)

(** ** Tables *)

Section RowsFacts.
Context {T : Type} `{Model T}.

Lemma violates_app (x : T) (l l' : list T) :
  violates x (l ++ l') = violates x l || violates x l'.
Proof. unfold violates. apply existsb_app. Qed.

Lemma violates_self (x : T) : violates x [x] = false.
Proof. unfold violates. simpl. now rewrite Nat.eqb_refl. Qed.

Lemma violates_update_row (x : T) (l : list T) :
  violates x (update_row x l) = violates x l.
Proof.
  induction l as [|a l IH]; simpl; [reflexivity|].
  unfold violates in *. simpl.
  destruct (pk a =? pk x)%nat eqn:E; simpl.
  - rewrite Nat.eqb_refl. simpl. exact IH.
  - rewrite E. simpl. now rewrite IH.
Qed.

Lemma violates_upsert (x : T) (l : list T) :
  violates x (upsert x l) = violates x l.
Proof.
  unfold upsert. destruct (has_pk (pk x) l).
  - apply violates_update_row.
  - rewrite violates_app, violates_self. apply orb_false_r.
Qed.

Lemma update_row_absent (x : T) (l : list T) :
  has_pk (pk x) l = false -> update_row x l = l.
Proof.
  induction l as [|a l IH]; simpl; intros Hl; [reflexivity|].
  apply orb_false_iff in Hl. destruct Hl as [Ha Hl].
  rewrite Ha. now rewrite IH.
Qed.

Lemma update_row_idem (x : T) (l : list T) :
  update_row x (update_row x l) = update_row x l.
Proof.
  induction l as [|a l IH]; simpl; [reflexivity|].
  destruct (pk a =? pk x)%nat eqn:E.
  - now rewrite Nat.eqb_refl, IH.
  - now rewrite E, IH.
Qed.

Lemma has_pk_update_row (x : T) (i : nat) (l : list T) :
  has_pk i (update_row x l) = has_pk i l.
Proof.
  induction l as [|a l IH]; simpl; [reflexivity|].
  rewrite IH. destruct (pk a =? pk x)%nat eqn:E; [|reflexivity].
  apply Nat.eqb_eq in E. now rewrite E.
Qed.

Lemma has_pk_app (i : nat) (l l' : list T) :
  has_pk i (l ++ l') = has_pk i l || has_pk i l'.
Proof. unfold has_pk. apply existsb_app. Qed.

Lemma upsert_idem (x : T) (l : list T) :
  upsert x (upsert x l) = upsert x l.
Proof.
  unfold upsert. destruct (has_pk (pk x) l) eqn:E.
  - now rewrite has_pk_update_row, E, update_row_idem.
  - rewrite has_pk_app. simpl. rewrite Nat.eqb_refl, orb_true_r. simpl.
    unfold update_row. rewrite map_app. simpl. rewrite Nat.eqb_refl.
    f_equal. now apply update_row_absent.
Qed.

Lemma lookup_pk_app (i : nat) (l l' : list T) :
  lookup_pk i (l ++ l') =
  match lookup_pk i l with Some r => Some r | None => lookup_pk i l' end.
Proof.
  unfold lookup_pk. induction l as [|a l IH]; simpl; [reflexivity|].
  now destruct (pk a =? i)%nat.
Qed.

Lemma lookup_pk_none (i : nat) (l : list T) :
  has_pk i l = false -> lookup_pk i l = None.
Proof.
  unfold lookup_pk. induction l as [|a l IH]; simpl; [reflexivity|].
  intros Hl. apply orb_false_iff in Hl. destruct Hl as [Ha Hl].
  rewrite Ha. now apply IH.
Qed.

Lemma lookup_pk_update_row (x : T) (l : list T) :
  has_pk (pk x) l = true -> lookup_pk (pk x) (update_row x l) = Some x.
Proof.
  unfold lookup_pk. induction l as [|a l IH]; simpl; [discriminate|].
  destruct (pk a =? pk x)%nat eqn:E; simpl.
  - now rewrite Nat.eqb_refl.
  - rewrite E. exact IH.
Qed.

Lemma lookup_pk_upsert (x : T) (l : list T) :
  lookup_pk (pk x) (upsert x l) = Some x.
Proof.
  unfold upsert. destruct (has_pk (pk x) l) eqn:E.
  - now apply lookup_pk_update_row.
  - rewrite lookup_pk_app, (lookup_pk_none _ _ E). unfold lookup_pk. simpl.
    now rewrite Nat.eqb_refl.
Qed.

End RowsFacts.

(** ** [calculate_progress] and [issue_certificate], step by step *)

Lemma issue_certificate_eq (env : Env) (db : DB) (e : Enrollment.t) :
  issue_certificate env (db, e) =
  if Enrollment.completed e
     && negb (existsb (cert_for (Enrollment.student e) (Enrollment.course e))
                      (certificates db))
  then
    let c := Certificate.mk (next_pk (certificates db)) (Enrollment.student e)
               (Enrollment.course e) (generate_certificate_id_static env)
               (now env) None in
    if violates c (certificates db) then ((db, e), Raise IntegrityError)
    else ((put_rows Certificates (certificates db ++ [c]) db, e), Ok (Some c))
  else ((db, e), Ok None).
Proof.
  unfold issue_certificate, bind, self, gets, on_db, objects_exists,
    objects_create. simpl.
  destruct (Enrollment.completed e
            && negb (existsb (cert_for (Enrollment.student e)
                                (Enrollment.course e)) (certificates db)));
    [|reflexivity].
  unfold bind, on_db. simpl.
  destruct (violates _ (certificates db)); reflexivity.
Qed.

Lemma save_self_eq (env : Env) (db : DB) (e : Enrollment.t) :
  save_self env (db, e) =
  if violates e (enrollments db) then ((db, e), Raise IntegrityError)
  else ((saved e db, e), Ok tt).
Proof.
  unfold save_self, bind, self, gets, on_db, save, set_self, modify. simpl.
  destruct (violates e (enrollments db)); reflexivity.
Qed.

Lemma calculate_progress_eq (env : Env) (db : DB) (e : Enrollment.t) :
  calculate_progress env (db, e) =
  let n := total_lessons db (Enrollment.course e) in
  if (n =? 0)%Z then ((db, e), Ok 0%Z)
  else
    match percentage
            (completed_lessons db (Enrollment.student e) (Enrollment.course e))
            n with
    | None => ((db, e), Raise OverflowError)
    | Some p =>
        let e1 := Enrollment.set_progress_percentage p e in
        if (p =? 100)%Z && negb (Enrollment.completed e) then
          let e2 := Enrollment.set_completed_at (Some (now env))
                      (Enrollment.set_completed true e1) in
          if violates e2 (enrollments db) then ((db, e2), Raise IntegrityError)
          else
            match issue_certificate env (saved e2 db, e2) with
            | (s, Ok _) => (s, Ok p)
            | (s, Raise x) => (s, Raise x)
            end
        else
          if violates e1 (enrollments db) then ((db, e1), Raise IntegrityError)
          else ((saved e1 db, e1), Ok p)
    end.
Proof.
  unfold calculate_progress.
  unfold bind at 1. unfold self at 1, gets at 1. cbn [snd fst].
  unfold bind at 1. unfold on_db at 1, gets at 1. cbn [snd fst].
  cbv zeta.
  destruct (total_lessons db (Enrollment.course e) =? 0)%Z; [reflexivity|].
  unfold bind at 1. unfold on_db at 1, gets at 1. cbn [snd fst].
  unfold bind at 1.
  destruct (percentage _ _) as [p|]; [|reflexivity].
  cbn [lift_option ret].
  unfold bind at 1. unfold set_self at 1, modify at 1. cbn [snd fst].
  unfold bind at 1. unfold self at 1, gets at 1. cbn [snd fst].
  cbn [Enrollment.set_progress_percentage Enrollment.progress_percentage
       Enrollment.completed].
  destruct ((p =? 100)%Z && negb (Enrollment.completed e)).
  - unfold bind at 1. unfold bind at 1.
    unfold set_self at 1, modify at 1. cbn [snd fst].
    unfold bind at 1.
    unfold set_self at 1, modify at 1. cbn [snd fst].
    unfold bind at 1. rewrite save_self_eq.
    destruct (violates _ (enrollments db)); [reflexivity|].
    unfold bind at 1.
    destruct (issue_certificate env _) as [s [c|x]] eqn:Ei; [|reflexivity].
    cbn [ret]. unfold bind, self, gets. cbn [snd fst].
    rewrite issue_certificate_eq in Ei.
    repeat match type of Ei with
           | (if ?b then _ else _) = _ => destruct b
           | (let c := _ in _) = _ => cbv zeta in Ei
           end; inversion Ei; subst; reflexivity.
  - unfold bind at 1. unfold bind at 1. rewrite save_self_eq.
    destruct (violates _ (enrollments db)); reflexivity.
Qed.

Lemma enrollments_saved (e : Enrollment.t) (db : DB) :
  enrollments (saved e db) = upsert e (enrollments db).
Proof. reflexivity. Qed.

Lemma saved_idem (e : Enrollment.t) (db : DB) :
  saved e (saved e db) = saved e db.
Proof.
  unfold saved. cbn [rows put_rows Enrollments enrollments].
  now rewrite upsert_idem.
Qed.

Lemma violates_saved (e : Enrollment.t) (db : DB) :
  violates e (enrollments (saved e db)) = violates e (enrollments db).
Proof. rewrite enrollments_saved. apply violates_upsert. Qed.

Lemma set_progress_percentage_same (e : Enrollment.t) :
  Enrollment.set_progress_percentage (Enrollment.progress_percentage e) e = e.
Proof. now destruct e. Qed.

(** A recalculation that finds the percentage it would store already in the
    object, and no completion to record, only saves the object. *)
Lemma calculate_progress_settled (env : Env) (db : DB) (e : Enrollment.t) (p : Z) :
  (total_lessons db (Enrollment.course e) =? 0)%Z = false ->
  percentage (completed_lessons db (Enrollment.student e) (Enrollment.course e))
             (total_lessons db (Enrollment.course e)) = Some p ->
  Enrollment.progress_percentage e = p ->
  (p =? 100)%Z && negb (Enrollment.completed e) = false ->
  calculate_progress env (db, e) =
  if violates e (enrollments db) then ((db, e), Raise IntegrityError)
  else ((saved e db, e), Ok p).
Proof.
  intros Hn Hp He Hc. rewrite calculate_progress_eq. cbv zeta.
  rewrite Hn, Hp, Hc. subst p. now rewrite set_progress_percentage_same.
Qed.

(** ** Hoare rules for the monad and the ORM *)

Section HoareRules.
Context {A B : Type}.

Lemma hoare_ret (P : DB -> Prop) (a : A) (Q : A -> DB -> Prop) E :
  (forall db, P db -> Q a db) -> hoare P (ret a) Q E.
Proof. intros H db HP. now apply H. Qed.

Lemma hoare_raise (P : DB -> Prop) (x : Exn) (Q : A -> DB -> Prop)
      (E : DB -> Prop) :
  (forall db, P db -> E db) -> hoare P (raise x) Q E.
Proof. intros H db HP. now apply H. Qed.

Lemma hoare_bind (P : DB -> Prop) (m : M DB A) (Q : A -> DB -> Prop)
      (k : A -> M DB B) (R : B -> DB -> Prop) (E : DB -> Prop) :
  hoare P m Q E -> (forall a, hoare (Q a) (k a) R E) ->
  hoare P (bind m k) R E.
Proof.
  intros Hm Hk db HP. unfold bind. specialize (Hm db HP).
  destruct (m db) as [db' [a|x]]; [|exact Hm].
  now apply Hk.
Qed.

Lemma hoare_consequence (P P' : DB -> Prop) (m : M DB A)
      (Q Q' : A -> DB -> Prop) (E E' : DB -> Prop) :
  hoare P' m Q' E' ->
  (forall db, P db -> P' db) ->
  (forall a db, Q' a db -> Q a db) ->
  (forall db, E' db -> E db) ->
  hoare P m Q E.
Proof.
  intros Hm HP HQ HE db Hdb. specialize (Hm db (HP db Hdb)).
  destruct (m db) as [db' [a|x]]; auto.
Qed.

Lemma hoare_gets (P : DB -> Prop) (f : DB -> A) (Q : A -> DB -> Prop) E :
  (forall db, P db -> Q (f db) db) -> hoare P (gets f) Q E.
Proof. intros H db HP. now apply H. Qed.

Lemma hoare_lift_option (P : DB -> Prop) (x : Exn) (o : option A)
      (Q : A -> DB -> Prop) (E : DB -> Prop) :
  (forall a db, o = Some a -> P db -> Q a db) ->
  (forall db, o = None -> P db -> E db) ->
  hoare P (lift_option x o) Q E.
Proof. intros H1 H2 db HP. destruct o; cbn; auto. Qed.
End HoareRules.

Lemma hoare_for_each {A : Type} (I : DB -> Prop) (l : list A)
      (body : A -> M DB unit) (E : DB -> Prop) :
  (forall a, In a l -> hoare I (body a) (fun _ => I) E) ->
  hoare I (for_each l body) (fun _ => I) E.
Proof.
  induction l as [|a l IH]; intros Hb.
  - now apply hoare_ret.
  - cbn [for_each]. apply hoare_bind with (Q := fun _ => I).
    + apply Hb. now left.
    + intros _. apply IH. intros a' Ha'. apply Hb. now right.
Qed.

Section OrmRules.
Context {T : Type} `{Model T} (tbl : Table T).
Variable P : DB -> Prop.
Variable E : DB -> Prop.
Hypothesis PE : forall db, P db -> E db.

Lemma hoare_objects_first (p : T -> bool) :
  hoare P (objects_first tbl p)
        (fun o db => P db /\ o = first (filter p (rows tbl db))) E.
Proof. intros db HP. cbn. auto. Qed.

Lemma hoare_objects_get (p : T -> bool) :
  hoare P (objects_get tbl p)
        (fun x db => P db /\ filter p (rows tbl db) = [x]) E.
Proof.
  intros db HP. unfold objects_get.
  destruct (filter p (rows tbl db)) as [|x [|y l]] eqn:Hf; cbn; auto.
Qed.

Lemma hoare_get_object_or_404 (p : T -> bool) :
  hoare P (get_object_or_404 tbl p)
        (fun x db => P db /\ filter p (rows tbl db) = [x]) E.
Proof.
  intros db HP. unfold get_object_or_404.
  destruct (filter p (rows tbl db)) as [|x [|y l]] eqn:Hf; cbn; auto.
Qed.

Hypothesis Pframe : ignores P tbl.

Lemma hoare_objects_create (now : Z) (x : T) :
  hoare P (objects_create tbl now x) (fun _ => P) E.
Proof.
  intros db HP. unfold objects_create.
  destruct (violates _ _); cbn; auto.
Qed.

Lemma hoare_objects_get_or_create (now : Z) (p : T -> bool) (x : T) :
  hoare P (objects_get_or_create tbl now p x) (fun _ => P) E.
Proof.
  intros db HP. unfold objects_get_or_create.
  destruct (filter p (rows tbl db)) as [|r [|y l]]; cbn; auto.
  unfold bind. pose proof (hoare_objects_create now x HP) as Hc.
  destruct (objects_create tbl now x db) as [db' [a|e]]; cbn; auto.
Qed.

Lemma hoare_save (now : Z) (x : T) :
  hoare P (save tbl now x) (fun _ => P) E.
Proof.
  intros db HP. unfold save. destruct (violates _ _); cbn; auto.
Qed.

End OrmRules.

(** ** The stored completion of an enrollment *)

Lemma in_upsert {T : Type} `{Model T} (x r : T) (l : list T) :
  In r (upsert x l) -> r = x \/ In r l.
Proof.
  unfold upsert. destruct (has_pk (pk x) l).
  - unfold update_row. rewrite in_map_iff. intros [a [Ha Hin]].
    destruct (pk a =? pk x)%nat; subst; auto.
  - rewrite in_app_iff. simpl. intuition.
Qed.

Lemma has_pk_upsert {T : Type} `{Model T} (x : T) (i : nat) (l : list T) :
  has_pk i l = true -> has_pk i (upsert x l) = true.
Proof.
  unfold upsert. intros Hi. destruct (has_pk (pk x) l).
  - now rewrite has_pk_update_row.
  - rewrite has_pk_app, Hi. reflexivity.
Qed.

Lemma first_in {T : Type} `{Model T} (l : list T) (x : T) :
  first l = Some x -> In x l.
Proof.
  revert x. induction l as [|a l IH]; simpl; [discriminate|].
  intros x. destruct (first l) as [y|].
  - destruct (pk y <? pk a)%nat; intros [= <-]; auto.
  - intros [= <-]. auto.
Qed.

Lemma stored_completed_ext (i : nat) (t : option Z) (db db' : DB) :
  enrollments db' = enrollments db ->
  stored_completed i t db -> stored_completed i t db'.
Proof. unfold stored_completed. now intros ->. Qed.

Lemma stored_completed_saved (i : nat) (t : option Z) (e : Enrollment.t)
      (db : DB) :
  (Enrollment.id e = i ->
   Enrollment.completed e = true /\ Enrollment.completed_at e = t) ->
  stored_completed i t db -> stored_completed i t (saved e db).
Proof.
  intros He [Hi Hr]. split.
  - rewrite enrollments_saved. now apply has_pk_upsert.
  - intros r Hin Hid. rewrite enrollments_saved in Hin.
    apply in_upsert in Hin. destruct Hin as [->|Hin]; auto.
Qed.

Lemma calculate_progress_keeps_completed (env : Env) (db : DB)
      (e : Enrollment.t) (i : nat) (t : option Z) :
  stored_completed i t db ->
  (Enrollment.id e = i ->
   Enrollment.completed e = true /\ Enrollment.completed_at e = t) ->
  stored_completed i t (fst (fst (calculate_progress env (db, e)))).
Proof.
  intros Hdb He. rewrite calculate_progress_eq. cbv zeta.
  destruct (_ =? 0)%Z; [exact Hdb|].
  destruct (percentage _ _) as [p|]; [|exact Hdb].
  destruct ((p =? 100)%Z && negb (Enrollment.completed e)) eqn:Hc.
  - apply andb_true_iff in Hc. destruct Hc as [_ Hc].
    apply negb_true_iff in Hc.
    set (e2 := Enrollment.set_completed_at _ _).
    assert (He2 : Enrollment.id e2 = i ->
                  Enrollment.completed e2 = true
                  /\ Enrollment.completed_at e2 = t).
    { intros Hi. destruct (He Hi) as [Hcompl _]. congruence. }
    destruct (violates e2 (enrollments db)); [exact Hdb|].
    rewrite issue_certificate_eq. cbv zeta.
    destruct (Enrollment.completed e2 && negb _);
      [destruct (violates _ (certificates (saved e2 db)))|]; cbn [fst];
      (eapply stored_completed_ext;
       [|apply (stored_completed_saved e2 He2 Hdb)]; reflexivity).
  - set (e1 := Enrollment.set_progress_percentage p e).
    destruct (violates e1 (enrollments db)); [exact Hdb|]. cbn [fst].
    apply stored_completed_saved; [|exact Hdb].
    intros Hi. destruct (He Hi). now split.
Qed.

Lemma calculate_progress_object_completed (env : Env) (db : DB)
      (e : Enrollment.t) :
  Enrollment.completed e = true ->
  let e' := snd (fst (calculate_progress env (db, e))) in
  Enrollment.completed e' = true
  /\ Enrollment.completed_at e' = Enrollment.completed_at e.
Proof.
  intros Hc. rewrite calculate_progress_eq. cbv zeta.
  destruct (_ =? 0)%Z; [now split|].
  destruct (percentage _ _) as [p|]; [|now split].
  rewrite Hc, andb_false_r.
  destruct (violates _ (enrollments db)); now split.
Qed.

(** ** Invariants of views *)

Create HintDb keeps.

Section Keeps.
Variable I : DB -> Prop.

Lemma keeps_ret {A} (a : A) : keeps I (ret a).
Proof. now apply hoare_ret. Qed.

Lemma keeps_raise {A} (x : Exn) : keeps I (raise (A := A) x).
Proof. now apply hoare_raise. Qed.

Lemma keeps_bind {A B} (m : M DB A) (k : A -> M DB B) :
  keeps I m -> (forall a, keeps I (k a)) -> keeps I (bind m k).
Proof. intros Hm Hk. eapply hoare_bind; [exact Hm|exact Hk]. Qed.

Lemma keeps_gets {A} (f : DB -> A) : keeps I (gets f).
Proof. now apply hoare_gets. Qed.

Lemma keeps_lift_option {A} (x : Exn) (o : option A) :
  keeps I (lift_option x o).
Proof. apply hoare_lift_option; auto. Qed.

Lemma keeps_for_each {A} (l : list A) (body : A -> M DB unit) :
  (forall a, keeps I (body a)) -> keeps I (for_each l body).
Proof. intros Hb. apply hoare_for_each. intros a _. apply Hb. Qed.

Section OnTable.
Context {T : Type} `{Model T} (tbl : Table T).

Lemma keeps_objects_filter (p : T -> bool) : keeps I (objects_filter tbl p).
Proof. intros db HI. exact HI. Qed.

Lemma keeps_objects_exists (p : T -> bool) : keeps I (objects_exists tbl p).
Proof. intros db HI. exact HI. Qed.

Lemma keeps_objects_first (p : T -> bool) : keeps I (objects_first tbl p).
Proof. intros db HI. exact HI. Qed.

Lemma keeps_objects_get (p : T -> bool) : keeps I (objects_get tbl p).
Proof.
  eapply hoare_consequence;
    [eapply hoare_objects_get with (P := I) (E := I); auto|..]; auto.
  now intros a db [HI _].
Qed.

Lemma keeps_get_object_or_404 (p : T -> bool) :
  keeps I (get_object_or_404 tbl p).
Proof.
  eapply hoare_consequence;
    [eapply hoare_get_object_or_404 with (P := I) (E := I); auto|..]; auto.
  now intros a db [HI _].
Qed.

Hypothesis Iframe : ignores I tbl.

Lemma keeps_objects_create (now : Z) (x : T) :
  keeps I (objects_create tbl now x).
Proof. apply hoare_objects_create; auto. Qed.

Lemma keeps_objects_get_or_create (now : Z) (p : T -> bool) (x : T) :
  keeps I (objects_get_or_create tbl now p x).
Proof. apply hoare_objects_get_or_create; auto. Qed.

End OnTable.
End Keeps.

#[export] Hint Resolve keeps_ret keeps_raise keeps_gets keeps_lift_option
  keeps_objects_filter keeps_objects_exists keeps_objects_first
  keeps_objects_get keeps_get_object_or_404 : keeps.

(** One step of a view: split a bind, or close a read-only leaf. *)
Ltac keeps_step :=
  first [ apply keeps_bind; [|intros ?]
        | apply keeps_for_each; intros ?
        | solve [auto with keeps] ].

(* ------------------------------------------------------------------ *)
(** ** Binary64 arithmetic of the percentage *)

Module FloatFacts.
Import PyFloat.
Local Open Scope Z_scope.

(** *** Digits *)

Lemma digits2_pos_bounds (p : positive) :
  2 ^ (Zpos (digits2_pos p) - 1) <= Zpos p < 2 ^ Zpos (digits2_pos p).
Proof.
  induction p as [p IH|p IH|]; cbn [digits2_pos].
  - rewrite Pos2Z.inj_succ.
    replace (Z.succ (Zpos (digits2_pos p)) - 1) with (Z.succ (Zpos (digits2_pos p) - 1)) by lia.
    rewrite !Z.pow_succ_r by lia. lia.
  - rewrite Pos2Z.inj_succ.
    replace (Z.succ (Zpos (digits2_pos p)) - 1) with (Z.succ (Zpos (digits2_pos p) - 1)) by lia.
    rewrite !Z.pow_succ_r by lia. lia.
  - cbn. lia.
Qed.

Lemma digits2_pos_unique (p : positive) (d : Z) :
  2 ^ (d - 1) <= Zpos p < 2 ^ d -> Zpos (digits2_pos p) = d.
Proof.
  intros [Hlo Hhi]. pose proof (digits2_pos_bounds p) as [Hlo' Hhi'].
  assert (Hd : 0 < d).
  { destruct (Z.ltb_spec 0 d) as [H|H]; [exact H|].
    exfalso. destruct (Z.eq_dec d 0) as [->|Hne]; [cbn in Hhi; lia|].
    rewrite Z.pow_neg_r in Hhi by lia. lia. }
  destruct (Z.lt_trichotomy (Zpos (digits2_pos p)) d) as [H|[H|H]];
    [exfalso|exact H|exfalso].
  - assert (2 ^ Zpos (digits2_pos p) <= 2 ^ (d - 1))
      by (apply Z.pow_le_mono_r; lia). lia.
  - assert (2 ^ d <= 2 ^ (Zpos (digits2_pos p) - 1))
      by (apply Z.pow_le_mono_r; lia). lia.
Qed.

(** *** Shifting right with a round and a sticky bit *)

Lemma iter_pos_nat {A : Type} (f : A -> A) (p : positive) (x : A) :
  iter_pos f p x = Nat.iter (Pos.to_nat p) f x.
Proof.
  revert x. induction p as [p IH|p IH|]; intros x; cbn [iter_pos].
  - rewrite !IH, Pos2Nat.inj_xI.
    replace (S (2 * Pos.to_nat p))%nat
      with (Pos.to_nat p + (Pos.to_nat p + 1))%nat by lia.
    rewrite !Nat.iter_add. reflexivity.
  - rewrite !IH, Pos2Nat.inj_xO.
    replace (2 * Pos.to_nat p)%nat
      with (Pos.to_nat p + Pos.to_nat p)%nat by lia.
    rewrite Nat.iter_add. reflexivity.
  - reflexivity.
Qed.

Lemma shr_1_spec (mrs : shr_record) :
  0 <= shr_m mrs ->
  shr_m (shr_1 mrs) = shr_m mrs / 2
  /\ shr_r (shr_1 mrs) = Z.odd (shr_m mrs).
Proof.
  destruct mrs as [m r s]. cbn [shr_m]. intros Hm.
  destruct m as [|[p|p|]|p]; cbn [shr_1 shr_m shr_r]; try lia.
  - split; reflexivity.
  - split; [|reflexivity].
    apply Z.div_unique with (r := 1); lia.
  - split; [|reflexivity].
    apply Z.div_unique with (r := 0); lia.
  - split; reflexivity.
Qed.

Lemma shr_iter_nonneg (j : nat) (mrs : shr_record) :
  0 <= shr_m mrs -> 0 <= shr_m (Nat.iter j shr_1 mrs).
Proof.
  intros Hm. induction j as [|j IH]; [exact Hm|].
  rewrite Nat.iter_succ, (proj1 (shr_1_spec _ IH)). now apply Z.div_pos.
Qed.

Lemma shr_iter_m (j : nat) (mrs : shr_record) :
  0 <= shr_m mrs ->
  shr_m (Nat.iter j shr_1 mrs) = shr_m mrs / 2 ^ Z.of_nat j.
Proof.
  intros Hm. induction j as [|j IH].
  - cbn. now rewrite Z.div_1_r.
  - rewrite Nat.iter_succ.
    rewrite (proj1 (shr_1_spec _ (shr_iter_nonneg j _ Hm))), IH.
    rewrite Nat2Z.inj_succ, Z.pow_succ_r by lia.
    rewrite Z.div_div by lia. f_equal. lia.
Qed.

Lemma shr_iter_r (j : nat) (mrs : shr_record) :
  0 <= shr_m mrs ->
  shr_r (Nat.iter (S j) shr_1 mrs) = Z.odd (shr_m mrs / 2 ^ Z.of_nat j).
Proof.
  intros Hm. rewrite Nat.iter_succ.
  rewrite (proj2 (shr_1_spec _ (shr_iter_nonneg j _ Hm))).
  now rewrite shr_iter_m.
Qed.

(** [shr] by [n > 0] bits, from a record without round and sticky bits
    or with them: the mantissa is divided by [2^n] and the round bit is
    the highest bit shifted out. *)
Lemma shr_spec (mrs : shr_record) (e n : Z) :
  0 <= shr_m mrs -> 0 < n ->
  let res := shr mrs e n in
  snd res = e + n
  /\ shr_m (fst res) = shr_m mrs / 2 ^ n
  /\ shr_r (fst res) = Z.odd (shr_m mrs / 2 ^ (n - 1)).
Proof.
  intros Hm Hn. destruct n as [|p|p]; try lia.
  cbn [shr fst snd]. rewrite iter_pos_nat.
  split; [reflexivity|].
  pose proof (Pos2Nat.is_pos p) as Hp.
  destruct (Pos.to_nat p) as [|j] eqn:Ej; [lia|].
  assert (HZ : Z.pos p = Z.of_nat (S j))
    by (rewrite <- Ej; now rewrite positive_nat_Z).
  rewrite HZ. split.
  - now apply shr_iter_m.
  - rewrite shr_iter_r by exact Hm.
    replace (Z.of_nat (S j) - 1) with (Z.of_nat j) by lia. reflexivity.
Qed.

(** *** Rounding to 53 bits *)

Lemma fexp_normal (x : Z) : -1021 <= x -> fexp prec emax x = x - 53.
Proof. unfold fexp, emin, prec, emax. lia. Qed.

Lemma shr_m_of_loc (m : Z) (l : location) : shr_m (shr_record_of_loc m l) = m.
Proof. now destruct l as [|[]]. Qed.

Lemma rne_bounds (m : Z) (l : location) :
  m <= round_nearest_even m l <= m + 1.
Proof.
  destruct l as [|[]]; cbn [round_nearest_even]; try lia.
  destruct (Z.even m); lia.
Qed.

Lemma rne_round_bit_clear (mrs : shr_record) :
  shr_r mrs = false ->
  round_nearest_even (shr_m mrs) (loc_of_shr_record mrs) = shr_m mrs.
Proof. destruct mrs as [m r s]. cbn. intros ->. now destruct s. Qed.

Lemma pow2_split (a b : Z) : 0 <= a -> 0 <= b -> 2 ^ (a + b) = 2 ^ a * 2 ^ b.
Proof. intros. now apply Z.pow_add_r. Qed.

Lemma shr_fexp_renormalise (m1 e1 : Z) :
  2 ^ 52 <= m1 <= 2 ^ 53 -> -1021 <= 53 + e1 -> e1 + 1 <= 971 ->
  (let '(mrs, e2) := shr_fexp prec emax m1 e1 loc_Exact in
   match shr_m mrs with
   | Z0 => S754_zero false
   | Zpos m => if e2 <=? emax - prec then S754_finite false m e2
               else S754_infinity false
   | Zneg _ => S754_nan
   end) = renormalised m1 e1.
Proof.
  intros [Hlo Hhi] He Hmax. unfold renormalised.
  assert (Hpos : 0 < m1) by (assert (0 < 2 ^ 52) by (now apply Z.pow_pos_nonneg); lia).
  destruct m1 as [|p1|p1]; try lia.
  unfold shr_fexp. cbn [Zdigits2].
  destruct (Z.ltb_spec (Zpos p1) (2 ^ 53)) as [Hlt|Hge].
  - rewrite (@digits2_pos_unique p1 53) by (split; [exact Hlo|exact Hlt]).
    rewrite fexp_normal by lia.
    replace (53 + e1 - 53 - e1) with 0 by lia.
    cbn [shr shr_record_of_loc shr_m].
    destruct (Z.leb_spec e1 (emax - prec)) as [_|H]; [reflexivity|].
    unfold emax, prec in H. lia.
  - assert (Heq : Zpos p1 = 2 ^ 53) by lia.
    rewrite (@digits2_pos_unique p1 54) by (rewrite Heq; cbn; lia).
    rewrite fexp_normal by lia.
    replace (54 + e1 - 53 - e1) with 1 by lia.
    injection Heq as ->.
    cbn [shr iter_pos shr_record_of_loc shr_1 shr_m].
    destruct (Z.leb_spec (e1 + 1) (emax - prec)) as [_|H]; [reflexivity|].
    unfold emax, prec in H. lia.
Qed.

Lemma binary_round_aux_spec (m e : Z) (l : location) (sh : Z) :
  0 <= sh -> 2 ^ (52 + sh) <= m < 2 ^ (53 + sh) ->
  -1021 <= 53 + sh + e -> e + sh + 1 <= 971 ->
  exists m1,
    2 ^ 52 <= m1 <= 2 ^ 53
    /\ m / 2 ^ sh <= m1 <= m / 2 ^ sh + 1
    /\ (0 < sh -> 2 * m1 <= m / 2 ^ (sh - 1) + 1)
    /\ binary_round_aux prec emax false m e l = renormalised m1 (e + sh).
Proof.
  intros Hsh [Hlo Hhi] He Hmax.
  assert (H2sh : 0 < 2 ^ sh) by (now apply Z.pow_pos_nonneg).
  assert (Hpos : 0 < m)
    by (assert (0 < 2 ^ (52 + sh)) by (apply Z.pow_pos_nonneg; lia); lia).
  assert (Hq : 2 ^ 52 <= m / 2 ^ sh < 2 ^ 53).
  { rewrite pow2_split in Hlo, Hhi by lia. split.
    - apply Z.div_le_lower_bound; lia.
    - apply Z.div_lt_upper_bound; lia. }
  destruct m as [|mp|mp]; try lia.
  unfold binary_round_aux.
  destruct (shr_fexp prec emax (Zpos mp) e l) as [mrs' e'] eqn:E1.
  unfold shr_fexp in E1. cbn [Zdigits2] in E1.
  rewrite (@digits2_pos_unique mp (53 + sh)) in E1
    by (replace (53 + sh - 1) with (52 + sh) by lia; now split).
  rewrite fexp_normal in E1 by lia.
  replace (53 + sh + e - 53 - e) with sh in E1 by lia.
  assert (Hres : e' = e + sh
                 /\ shr_m mrs' = Zpos mp / 2 ^ sh
                 /\ (0 < sh ->
                     shr_r mrs' = Z.odd (Zpos mp / 2 ^ (sh - 1)))).
  { destruct (Z.eq_dec sh 0) as [->|Hne].
    - cbn [shr] in E1. injection E1 as <- <-.
      rewrite shr_m_of_loc, Z.div_1_r. repeat split; lia.
    - assert (Hsh' : 0 < sh) by lia.
      pose proof (@shr_spec (shr_record_of_loc (Zpos mp) l) e sh) as Hs.
      rewrite shr_m_of_loc in Hs. specialize (Hs ltac:(lia) Hsh').
      cbv zeta in Hs. rewrite E1 in Hs. cbn [fst snd] in Hs.
      destruct Hs as [Hs1 [Hs2 Hs3]]. repeat split; auto. }
  destruct Hres as [-> [Hm' Hr']].
  set (m1 := round_nearest_even (shr_m mrs') (loc_of_shr_record mrs')).
  pose proof (rne_bounds (shr_m mrs') (loc_of_shr_record mrs')) as Hb.
  fold m1 in Hb. rewrite Hm' in Hb.
  exists m1. split; [lia|]. split; [exact Hb|]. split.
  - intros Hsh'. specialize (Hr' Hsh').
    set (a := Zpos mp / 2 ^ (sh - 1)) in *.
    assert (Ha : Zpos mp / 2 ^ sh = a / 2).
    { unfold a. rewrite Z.div_div by (try apply Z.pow_pos_nonneg; lia).
      f_equal. replace sh with (sh - 1 + 1) at 1 by lia.
      rewrite pow2_split by lia. reflexivity. }
    pose proof (Z.div_mod a 2 ltac:(lia)) as Hdm.
    pose proof (Z.mod_pos_bound a 2 ltac:(lia)) as Hmb.
    destruct (Z.odd a) eqn:Hodd.
    + pose proof (Zmod_odd a) as Ho. rewrite Hodd in Ho. lia.
    + unfold m1. rewrite rne_round_bit_clear by exact Hr'. lia.
  - apply shr_fexp_renormalise; lia.
Qed.

(** *** The quotient of two counts *)

Lemma div_eucl_eq (a b : Z) : Z.div_eucl a b = (a / b, a mod b).
Proof. unfold Z.div, Z.modulo. now destruct (Z.div_eucl a b). Qed.

Lemma SFdiv_core_binary_counts (kp np : positive) :
  let d1 := Zpos (digits2_pos kp) in
  let d2 := Zpos (digits2_pos np) in
  let s := 53 + d2 - d1 in
  -1021 <= d1 - d2 -> 0 < s ->
  SFdiv_core_binary prec emax (Zpos kp) 0 (Zpos np) 0
  = (Zpos kp * 2 ^ s / Zpos np, - s,
     new_location (Zpos np) ((Zpos kp * 2 ^ s) mod Zpos np)).
Proof.
  intros d1 d2 s Hd Hs. unfold SFdiv_core_binary. cbn [Zdigits2].
  fold d1 d2.
  replace (d1 + 0 - (d2 + 0)) with (d1 - d2) by lia.
  rewrite fexp_normal by exact Hd.
  replace (Z.min (d1 - d2 - 53) (0 - 0)) with (- s) by (unfold s; lia).
  replace (0 - 0 - - s) with s by lia.
  assert (Hm : match s with
               | Z0 => Zpos kp
               | Zpos _ => Z.shiftl (Zpos kp) s
               | Zneg _ => 0
               end = Zpos kp * 2 ^ s).
  { destruct s as [|sp|sp] eqn:Es; try lia.
    rewrite Z.shiftl_mul_pow2 by lia. reflexivity. }
  rewrite Hm, div_eucl_eq. reflexivity.
Qed.

Lemma pow2_lt_inv (a b : Z) : 0 <= b -> 2 ^ a < 2 ^ b -> a < b.
Proof. intros Hb H. apply (Z.pow_lt_mono_r_iff 2); [lia|exact Hb|exact H]. Qed.

Lemma pow2_pos (a : Z) : 0 <= a -> 0 < 2 ^ a.
Proof. intros. now apply Z.pow_pos_nonneg. Qed.

(** A quotient of counts [0 < k < n < 2^53] is a normal double below 1. *)
Lemma int_truediv_below_one (k n : Z) :
  0 < k < n -> n < 2 ^ 53 ->
  exists mx ex,
    int_truediv k n = S754_finite false mx ex
    /\ 2 ^ 52 <= Zpos mx < 2 ^ 53
    /\ Zpos mx < 2 ^ (- ex)
    /\ -105 <= ex <= -53.
Proof.
  intros [Hk Hkn] Hn.
  destruct k as [|kp|kp]; try lia. destruct n as [|np|np]; try lia.
  unfold int_truediv, of_int_exact, SFdiv.
  pose proof (digits2_pos_bounds kp) as [Hk1 Hk2].
  pose proof (digits2_pos_bounds np) as [Hn1 Hn2].
  set (d1 := Zpos (digits2_pos kp)) in *.
  set (d2 := Zpos (digits2_pos np)) in *.
  assert (Hd1 : 1 <= d1) by (unfold d1; lia).
  assert (Hd12 : d1 <= d2).
  { assert (H : d1 - 1 < d2) by (apply pow2_lt_inv; lia). lia. }
  assert (Hd2 : d2 <= 53).
  { assert (H : d2 - 1 < 53) by (apply pow2_lt_inv; lia). lia. }
  set (s := 53 + d2 - d1).
  assert (Hs : 53 <= s <= 105) by (unfold s; lia).
  rewrite (@SFdiv_core_binary_counts kp np) by (fold d1 d2; lia).
  fold d1 d2 s.
  set (q := Zpos kp * 2 ^ s / Zpos np).
  set (l := new_location _ _).
  (* the integer quotient has 53 or 54 bits and stays two below 2^s *)
  assert (H2s : 2 ^ s = 2 ^ (53 - d1) * 2 ^ d2 * 1
                /\ 2 ^ s = 2 ^ (54 - d1) * 2 ^ (d2 - 1)).
  { unfold s. split.
    - rewrite <- pow2_split by lia. rewrite Z.mul_1_r. f_equal. lia.
    - rewrite <- pow2_split by lia. f_equal. lia. }
  assert (Hk1' : 2 ^ 52 = 2 ^ (53 - d1) * 2 ^ (d1 - 1)).
  { rewrite <- pow2_split by lia. f_equal. lia. }
  assert (Hk2' : 2 ^ 54 = 2 ^ (54 - d1) * 2 ^ d1).
  { rewrite <- pow2_split by lia. f_equal. lia. }
  assert (Hpa : 0 < 2 ^ (53 - d1)) by (apply pow2_pos; lia).
  assert (Hpb : 0 < 2 ^ (54 - d1)) by (apply pow2_pos; lia).
  assert (Hps : 2 ^ 53 <= 2 ^ s) by (apply Z.pow_le_mono_r; lia).
  assert (Hq1 : 2 ^ 52 <= q).
  { apply Z.div_le_lower_bound; [lia|].
    destruct H2s as [-> _]. rewrite Hk1'.
    assert (H1 : Zpos np * 2 ^ (d1 - 1) <= Zpos kp * 2 ^ d2) by nia.
    replace (Zpos np * (2 ^ (53 - d1) * 2 ^ (d1 - 1)))
      with (2 ^ (53 - d1) * (Zpos np * 2 ^ (d1 - 1))) by ring.
    replace (Zpos kp * (2 ^ (53 - d1) * 2 ^ d2 * 1))
      with (2 ^ (53 - d1) * (Zpos kp * 2 ^ d2)) by ring.
    apply Z.mul_le_mono_nonneg_l; lia. }
  assert (Hq2 : q < 2 ^ 54).
  { apply Z.div_lt_upper_bound; [lia|].
    destruct H2s as [_ ->]. rewrite Hk2'.
    assert (H1 : Zpos kp * 2 ^ (d2 - 1) < Zpos np * 2 ^ d1) by nia.
    replace (Zpos kp * (2 ^ (54 - d1) * 2 ^ (d2 - 1)))
      with (2 ^ (54 - d1) * (Zpos kp * 2 ^ (d2 - 1))) by ring.
    replace (Zpos np * (2 ^ (54 - d1) * 2 ^ d1))
      with (2 ^ (54 - d1) * (Zpos np * 2 ^ d1)) by ring.
    apply Z.mul_lt_mono_pos_l; lia. }
  assert (Hq3 : q <= 2 ^ s - 2).
  { assert (q < 2 ^ s - 1); [|lia].
    apply Z.div_lt_upper_bound; [lia|].
    assert (H1 : Zpos kp * 2 ^ s <= (Zpos np - 1) * 2 ^ s)
      by (apply Z.mul_le_mono_nonneg_r; lia).
    lia. }
  (* rounding *)
  set (sh := if q <? 2 ^ 53 then 0 else 1).
  assert (Hsh : (sh = 0 /\ q < 2 ^ 53) \/ (sh = 1 /\ 2 ^ 53 <= q)).
  { unfold sh. destruct (Z.ltb_spec q (2 ^ 53)); [left|right]; lia. }
  assert (Hqb : 2 ^ (52 + sh) <= q < 2 ^ (53 + sh)).
  { destruct Hsh as [[-> H]|[-> H]]; cbn [Z.add]; lia. }
  destruct (@binary_round_aux_spec q (- s) l sh
              ltac:(lia) Hqb ltac:(lia) ltac:(lia))
    as [m1 [Hm1 [Hm1q [Hm1r Hres]]]].
  cbn [xorb]. rewrite Hres.
  assert (Hbound : m1 < 2 ^ (s - sh)).
  { destruct Hsh as [[-> H]|[-> H]].
    - rewrite Z.div_1_r in Hm1q. rewrite Z.sub_0_r. lia.
    - specialize (Hm1r ltac:(lia)). cbn [Z.sub Z.pow] in Hm1r.
      change (2 ^ (1 - 1)) with 1 in Hm1r. rewrite Z.div_1_r in Hm1r.
      assert (H2 : 2 ^ s = 2 * 2 ^ (s - 1)).
      { replace s with (Z.succ (s - 1)) at 1 by lia.
        rewrite Z.pow_succ_r by lia. reflexivity. }
      lia. }
  assert (Hsh01 : 0 <= sh <= 1) by (destruct Hsh as [[-> _]|[-> _]]; lia).
  assert (H52 : 52 < s - sh).
  { apply pow2_lt_inv; lia. }
  unfold renormalised.
  destruct (Z.ltb_spec m1 (2 ^ 53)) as [Hlt|Hge].
  - exists (Z.to_pos m1), (- s + sh).
    rewrite Z2Pos.id by lia.
    replace (- (- s + sh)) with (s - sh) by lia.
    repeat split; try lia.
  - assert (Hm1eq : m1 = 2 ^ 53) by lia.
    assert (H53 : 53 < s - sh) by (apply pow2_lt_inv; lia).
    exists (Z.to_pos (2 ^ 52)), (- s + sh + 1).
    replace (- (- s + sh + 1)) with (s - sh - 1) by lia.
    assert (Hp : 2 ^ 52 < 2 ^ (s - sh - 1))
      by (apply Z.pow_lt_mono_r; lia).
    repeat split; try lia; try (cbn; lia).
Qed.

(** *** Times one hundred *)

Lemma float_of_int_100 :
  float_of_int 100 = S754_finite false 7036874417766400 (-46).
Proof. reflexivity. Qed.

(** A normal double below 1, times 100, is a double below 100. *)
Lemma mul_100_below (mx : positive) (ex : Z) :
  2 ^ 52 <= Zpos mx < 2 ^ 53 -> Zpos mx < 2 ^ (- ex) -> -105 <= ex <= -53 ->
  exists my ey,
    mul_int (S754_finite false mx ex) 100 = S754_finite false my ey
    /\ ey < 0
    /\ Zpos my < 100 * 2 ^ (- ey).
Proof.
  intros Hmx Hlt Hex. unfold mul_int. rewrite float_of_int_100.
  cbn [SFmul xorb]. rewrite Pos2Z.inj_mul.
  set (M := Zpos 7036874417766400).
  set (P := Zpos mx * M).
  (* 2^(-ex) is 2^53 times a power of two *)
  set (X := 2 ^ (- ex - 53)).
  assert (HX : 1 <= X) by (assert (0 < X) by (apply pow2_pos; lia); lia).
  assert (H2ex : 2 ^ (- ex) = 2 ^ 53 * X).
  { unfold X. rewrite <- pow2_split by lia. f_equal. lia. }
  assert (HM : M = 100 * 2 ^ 46) by reflexivity.
  set (sh := if P <? 2 ^ 105 then 52 else 53).
  assert (Hsh : (sh = 52 /\ P < 2 ^ 105) \/ (sh = 53 /\ 2 ^ 105 <= P)).
  { unfold sh. destruct (Z.ltb_spec P (2 ^ 105)); [left|right]; lia. }
  assert (HPb : 2 ^ (52 + sh) <= P < 2 ^ (53 + sh)).
  { unfold P. destruct Hsh as [[-> H]|[-> H]]; cbn [Z.add]; unfold P in H;
      rewrite HM in *; lia. }
  destruct (@binary_round_aux_spec P (ex + -46) loc_Exact sh
              ltac:(destruct Hsh as [[-> _]|[-> _]]; lia) HPb
              ltac:(destruct Hsh as [[-> _]|[-> _]]; lia)
              ltac:(destruct Hsh as [[-> _]|[-> _]]; lia))
    as [m1 [Hm1 [_ [Hm1r Hres]]]].
  rewrite Hres.
  (* the rounded mantissa stays below 100 at its exponent *)
  assert (Hbound : m1 < 100 * 2 ^ (- (ex + -46 + sh))).
  { assert (HPle : P <= M * (2 ^ 53 * X - 1)) by (unfold P; nia).
    destruct Hsh as [[-> H]|[-> H]]; specialize (Hm1r ltac:(lia)).
    - replace (- (ex + -46 + 52)) with (- ex - 53 + 47) by lia.
      rewrite pow2_split by lia. fold X.
      change (52 - 1) with 51 in Hm1r. rewrite HM in HPle.
      assert (Hd : P / 2 ^ 51 < 2 * (100 * (X * 2 ^ 47)) - 1).
      { apply Z.div_lt_upper_bound; lia. }
      lia.
    - replace (- (ex + -46 + 53)) with (- ex - 53 + 46) by lia.
      rewrite pow2_split by lia. fold X.
      change (53 - 1) with 52 in Hm1r. rewrite HM in HPle.
      assert (Hd : P / 2 ^ 52 < 2 * (100 * (X * 2 ^ 46)) - 1).
      { apply Z.div_lt_upper_bound; lia. }
      lia. }
  assert (HE : ex + -46 + sh <= -46)
    by (destruct Hsh as [[-> _]|[-> _]]; lia).
  unfold renormalised.
  destruct (Z.ltb_spec m1 (2 ^ 53)) as [Hl|Hge].
  - exists (Z.to_pos m1), (ex + -46 + sh).
    rewrite Z2Pos.id by lia. repeat split; lia.
  - exists (Z.to_pos (2 ^ 52)), (ex + -46 + sh + 1).
    split; [reflexivity|]. split; [lia|].
    assert (H2 : 2 ^ (- (ex + -46 + sh))
                 = 2 * 2 ^ (- (ex + -46 + sh + 1))).
    { replace (- (ex + -46 + sh)) with (Z.succ (- (ex + -46 + sh + 1))) by lia.
      rewrite Z.pow_succ_r by lia. reflexivity. }
    change (Zpos (Z.to_pos (2 ^ 52))) with (2 ^ 52). lia.
Qed.

Lemma to_int_below (my : positive) (ey c : Z) :
  ey < 0 -> Zpos my < c * 2 ^ (- ey) ->
  exists p, to_int (S754_finite false my ey) = Some p /\ 0 <= p < c.
Proof.
  intros Hey Hlt. unfold to_int.
  destruct (Z.leb_spec 0 ey) as [H|_]; [lia|].
  rewrite Z.shiftr_div_pow2 by lia.
  eexists. split; [reflexivity|]. split.
  - apply Z.div_pos; [lia|apply pow2_pos; lia].
  - apply Z.div_lt_upper_bound; [apply pow2_pos; lia|lia].
Qed.

(** *** All lessons completed *)

Lemma new_location_zero (n : Z) : new_location n 0 = loc_Exact.
Proof. unfold new_location. now destruct (Z.even n). Qed.

Lemma int_truediv_same (n : Z) :
  0 < n -> int_truediv n n = S754_finite false 4503599627370496 (-52).
Proof.
  intros Hn. destruct n as [|np|np]; try lia.
  unfold int_truediv, of_int_exact, SFdiv.
  rewrite (@SFdiv_core_binary_counts np np) by lia.
  replace (53 + Zpos (digits2_pos np) - Zpos (digits2_pos np)) with 53 by lia.
  rewrite (Z.mul_comm (Zpos np)), Z.div_mul, Z.mod_mul by lia.
  rewrite new_location_zero. reflexivity.
Qed.
End FloatFacts.

(** The stored percentage of [k] completed lessons out of [n], for counts
    a database can hold: it is computed without error, lies between 0 and
    100, and is 100 exactly when all lessons are completed. *)
Lemma percentage_bounds (k n : Z) :
  (0 <= k <= n)%Z -> (0 < n < 2 ^ 53)%Z ->
  exists p, percentage k n = Some p
            /\ (0 <= p <= 100)%Z
            /\ (p = 100%Z <-> k = n).
Proof.
  intros [Hk Hkn] [Hn Hn53]. unfold percentage.
  destruct (Z.eq_dec k n) as [->|Hne].
  - rewrite FloatFacts.int_truediv_same by exact Hn.
    exists 100%Z. split; [reflexivity|]. split; [lia|tauto].
  - destruct (Z.eq_dec k 0) as [->|Hk0].
    + exists 0%Z. destruct n; try lia. split; [reflexivity|].
      split; lia.
    + destruct (@FloatFacts.int_truediv_below_one k n) as
        [mx [ex [-> [Hmx [Hlt Hex]]]]]; try lia.
      destruct (@FloatFacts.mul_100_below mx ex Hmx Hlt Hex)
        as [my [ey [-> [Hey Hmy]]]].
      destruct (@FloatFacts.to_int_below my ey 100 Hey Hmy)
        as [p [-> Hp]].
      exists p. split; [reflexivity|]. split; lia.
Qed.

(* ------------------------------------------------------------------ *)
(** ** Recalculating an enrollment's progress *)

(** C6.  Recalculation is idempotent.  Whatever the first call did (stored
    a percentage, recorded the completion and issued the certificate, or
    raised half-way), a second call made right after it, on the object and
    the database the first one left, changes neither: progress percentage,
    completed flag and completed-at of the stored row, and every other row,
    are as after the first call. *)
Theorem calculate_progress_idempotent (env1 env2 : Env) (db : DB)
        (e : Enrollment.t) :
  let after_first := fst (calculate_progress env1 (db, e)) in
  fst (calculate_progress env2 after_first) = after_first.
Proof.
  cbv zeta. rewrite (calculate_progress_eq env1). cbv zeta.
  destruct (total_lessons db (Enrollment.course e) =? 0)%Z eqn:Hn.
  { cbn [fst]. rewrite calculate_progress_eq. cbv zeta. now rewrite Hn. }
  destruct (percentage _ _) as [p|] eqn:Hp.
  2:{ cbn [fst]. rewrite calculate_progress_eq. cbv zeta. now rewrite Hn, Hp. }
  destruct ((p =? 100)%Z && negb (Enrollment.completed e)) eqn:Hc.
  - (* the completion is recorded by the first call *)
    set (e2 := Enrollment.set_completed_at (Some (now env1))
                 (Enrollment.set_completed true
                    (Enrollment.set_progress_percentage p e))).
    assert (Hsettled : forall db1,
               total_lessons db1 (Enrollment.course e)
               = total_lessons db (Enrollment.course e) ->
               completed_lessons db1 (Enrollment.student e) (Enrollment.course e)
               = completed_lessons db (Enrollment.student e) (Enrollment.course e) ->
               calculate_progress env2 (db1, e2) =
               if violates e2 (enrollments db1)
               then ((db1, e2), Raise IntegrityError)
               else ((saved e2 db1, e2), Ok p)).
    { intros db1 H1 H2. apply calculate_progress_settled; cbn.
      - now rewrite H1.
      - now rewrite H1, H2.
      - reflexivity.
      - apply andb_false_r. }
    destruct (violates e2 (enrollments db)) eqn:Hv.
    + cbn [fst]. rewrite Hsettled by reflexivity. now rewrite Hv.
    + rewrite issue_certificate_eq. cbv zeta.
      assert (Hv' : violates e2 (enrollments (saved e2 db)) = false)
        by now rewrite violates_saved.
      destruct (Enrollment.completed e2 && negb _).
      * destruct (violates _ (certificates (saved e2 db))); cbn [fst].
        -- rewrite Hsettled by reflexivity. rewrite Hv'.
           now rewrite saved_idem.
        -- rewrite Hsettled by reflexivity.
           cbn [enrollments put_rows Certificates saved Enrollments rows] in *.
           rewrite Hv'. cbn [fst]. unfold saved.
           cbn [put_rows Certificates Enrollments rows enrollments].
           now rewrite upsert_idem.
      * cbn [fst]. rewrite Hsettled by reflexivity. rewrite Hv'.
        now rewrite saved_idem.
  - (* the first call only stores the percentage *)
    set (e1 := Enrollment.set_progress_percentage p e).
    assert (Hsettled : forall db1,
               total_lessons db1 (Enrollment.course e)
               = total_lessons db (Enrollment.course e) ->
               completed_lessons db1 (Enrollment.student e) (Enrollment.course e)
               = completed_lessons db (Enrollment.student e) (Enrollment.course e) ->
               calculate_progress env2 (db1, e1) =
               if violates e1 (enrollments db1)
               then ((db1, e1), Raise IntegrityError)
               else ((saved e1 db1, e1), Ok p)).
    { intros db1 H1 H2. apply calculate_progress_settled; cbn.
      - now rewrite H1.
      - now rewrite H1, H2.
      - reflexivity.
      - exact Hc. }
    destruct (violates e1 (enrollments db)) eqn:Hv; cbn [fst].
    + rewrite Hsettled by reflexivity. now rewrite Hv.
    + rewrite Hsettled by reflexivity. rewrite violates_saved, Hv.
      now rewrite saved_idem.
Qed.

Section OneWayCompletion.
Variable i : nat.
Variable t : option Z.

Lemma call_calculate_progress_keeps (env : Env) (e : Enrollment.t) :
  hoare (fun db => stored_completed i t db /\ In e (enrollments db))
        (call (calculate_progress env) e)
        (fun _ => stored_completed i t) (stored_completed i t).
Proof.
  intros db [HI Hin]. unfold call.
  assert (He : Enrollment.id e = i ->
               Enrollment.completed e = true /\ Enrollment.completed_at e = t)
    by (intros Hi; now apply (proj2 HI)).
  pose proof (calculate_progress_keeps_completed env e HI He) as Hk.
  destruct (calculate_progress env (db, e)) as [[db' e'] [a|x]]; exact Hk.
Qed.

(** The views recalculate the enrollment they have just fetched. *)
Lemma recalculate_fetched_keeps {A} (p : Enrollment.t -> bool)
      (k_none : M DB A) (k_some : Enrollment.t -> M DB A) :
  keeps (stored_completed i t) k_none ->
  (forall e, hoare (fun db => stored_completed i t db /\ In e (enrollments db))
                   (k_some e)
                   (fun _ => stored_completed i t) (stored_completed i t)) ->
  keeps (stored_completed i t) (bind (objects_first Enrollments p)
                (fun o => match o with
                          | Some e => k_some e
                          | None => k_none
                          end)).
Proof.
  intros Hn Hs. eapply hoare_bind.
  - eapply hoare_objects_first with (P := stored_completed i t)
                                    (E := stored_completed i t); auto.
  - intros [e|].
    + eapply hoare_consequence; [apply (Hs e)|..]; auto.
      intros db [HI Ho]. split; [exact HI|].
      symmetry in Ho. apply first_in in Ho. apply filter_In in Ho.
      apply Ho.
    + eapply hoare_consequence; [apply Hn|..]; auto. now intros db [HI _].
Qed.

Lemma course_content_keeps (env : Env) (user : nat) (slug : string) :
  keeps (stored_completed i t) (course_content env user slug).
Proof.
  unfold course_content. keeps_step; [keeps_step|].
  apply recalculate_fetched_keeps; [keeps_step|]. intros e.
  eapply hoare_bind; [apply call_calculate_progress_keeps|].
  intros ?. apply keeps_ret.
Qed.

Lemma lesson_view_keeps (env : Env) (user : nat) (slug : string)
      (lesson_id : nat) :
  keeps (stored_completed i t) (lesson_view env user slug lesson_id).
Proof.
  unfold lesson_view. do 3 (keeps_step; [keeps_step|]).
  destruct (negb (is_some _) && negb _); [keeps_step|].
  keeps_step; [|keeps_step].
  destruct (is_some _); [|keeps_step].
  keeps_step; [|keeps_step].
  apply keeps_objects_get_or_create. intros l db H. exact H.
Qed.

Lemma mark_lesson_complete_keeps (env : Env) (user lesson_id : nat) :
  keeps (stored_completed i t) (mark_lesson_complete env user lesson_id).
Proof.
  unfold mark_lesson_complete. do 2 (keeps_step; [keeps_step|]).
  apply recalculate_fetched_keeps; [keeps_step|]. intros e.
  eapply hoare_bind with
    (Q := fun _ db => stored_completed i t db /\ In e (enrollments db)).
  { intros db [HI Hin].
    pose proof (@hoare_objects_get_or_create _ _ LessonProgresses
                  (fun d => stored_completed i t d /\ In e (enrollments d))
                  (fun d => stored_completed i t d) (fun d H => proj1 H)
                  (fun l d H => H) (now env)
                  (progress_for user (Lesson.id a))
                  (LessonProgress.mk 0 user (Lesson.id a) false None 0)
                  db (conj HI Hin)) as Hg.
    destruct (objects_get_or_create _ _ _ _ db) as [db' [r|x]]; exact Hg. }
  intros created.
  eapply hoare_bind with
    (Q := fun _ db => stored_completed i t db /\ In e (enrollments db)).
  { intros db [HI Hin].
    pose proof (@hoare_save _ _ LessonProgresses
                  (fun d => stored_completed i t d /\ In e (enrollments d))
                  (fun d => stored_completed i t d) (fun d H => proj1 H)
                  (fun l d H => H) (now env)
                  (LessonProgress.set_completed_at (Some (now env))
                     (LessonProgress.set_completed true (fst created)))
                  db (conj HI Hin)) as Hg.
    destruct (save _ _ _ db) as [db' [r|x]]; exact Hg. }
  intros ?.
  eapply hoare_bind; [apply call_calculate_progress_keeps|].
  intros ?. apply keeps_ret.
Qed.

Lemma admin_add_lesson_keeps (env : Env) (section : nat) (is_preview : bool) :
  keeps (stored_completed i t) (admin_add_lesson env section is_preview).
Proof.
  unfold admin_add_lesson. keeps_step; [keeps_step|].
  apply keeps_objects_create. intros l db H. exact H.
Qed.

Lemma admin_edit_course_keeps (env : Env) (course_id : nat)
      (sections_data : list (list bool)) :
  keeps (stored_completed i t) (admin_edit_course env course_id sections_data).
Proof.
  unfold admin_edit_course. keeps_step; [keeps_step|].
  keeps_step; [intros db H; exact H|].
  keeps_step; [|keeps_step].
  keeps_step. keeps_step.
  { apply keeps_objects_create. intros l db H. exact H. }
  keeps_step. keeps_step; [|keeps_step].
  apply keeps_objects_create. intros l db H. exact H.
Qed.

Lemma handle_keeps (env : Env) (r : request) (db : DB) :
  stored_completed i t db -> stored_completed i t (handle env r db).
Proof.
  intros HI.
  assert (Hv : forall A (m : M DB A),
             keeps (stored_completed i t) m ->
             stored_completed i t (fst (m db))).
  { intros A m Hm. specialize (Hm db HI).
    now destruct (m db) as [db' [a|x]]. }
  destruct r; cbn [handle]; apply Hv.
  - apply course_content_keeps.
  - apply lesson_view_keeps.
  - apply mark_lesson_complete_keeps.
  - apply admin_add_lesson_keeps.
  - apply admin_edit_course_keeps.
Qed.

Lemma serve_keeps (history : list (Env * request)) (db : DB) :
  stored_completed i t db -> stored_completed i t (serve history db).
Proof.
  revert db. induction history as [|[env r] h IH]; intros db HI.
  - exact HI.
  - cbn [serve fold_left fst snd]. apply IH. now apply handle_keeps.
Qed.
End OneWayCompletion.

(** C3.  Completion is one-way.  Take an enrollment stored as completed
    since [t].  Whatever requests are served afterwards -- lessons added to
    its course, the course's sections replaced, lessons viewed or marked
    complete, the course page opened, each of the last two recalculating
    progress -- the stored row is still completed and its completed-at is
    still [t]; and a direct call of [calculate_progress] on the completed
    object leaves both fields of the object and of the stored row as they
    were, whatever percentage the changed lesson counts give. *)
Theorem completion_is_one_way (i : nat) (t : option Z) (db : DB) :
  stored_completed i t db ->
  (forall history, stored_completed i t (serve history db))
  /\ (forall env e,
        Enrollment.id e = i -> Enrollment.completed e = true ->
        Enrollment.completed_at e = t ->
        let s := fst (calculate_progress env (db, e)) in
        Enrollment.completed (snd s) = true
        /\ Enrollment.completed_at (snd s) = t
        /\ stored_completed i t (fst s)).
Proof.
  intros Hdb. split.
  - intros history. now apply serve_keeps.
  - intros env e Hi Hc Ht. cbv zeta.
    destruct (calculate_progress_object_completed env db e Hc) as [H1 H2].
    split; [exact H1|]. split; [now rewrite H2|].
    apply calculate_progress_keeps_completed; auto.
Qed.

(** Witness for [completion_is_one_way]: the completed enrollment of the
    small campus, through a lesson added to its course and a visit of the
    course page. *)
Lemma completion_is_one_way_witness :
  stored_completed 1 (Some 2000%Z) campus_completed
  /\ stored_completed 1 (Some 2000%Z)
       (serve [(env_at 3000 "1c0ffee0-0000-4000-8000-000000000000",
                AdminAddLesson 1 false);
               (env_at 4000 "2c0ffee0-0000-4000-8000-000000000000",
                CourseContent 7 "mining-101")] campus_completed).
Proof.
  assert (H : stored_completed 1 (Some 2000%Z) campus_completed).
  { split; [reflexivity|].
    intros r [<-|[]] _. split; reflexivity. }
  split; [exact H|].
  apply (proj1 (completion_is_one_way H)).
Defined.

(** C1 (as specified) fails: in the small campus the student completes the
    course, the course then loses its sections, and a recalculation answers
    0 while the stored row keeps percentage 100 and stays completed. *)
Lemma zero_lessons_counterexample :
  ~ zero_lessons_as_specified
      (env_at 4000 "2c0ffee0-0000-4000-8000-000000000000")
      campus_emptied enrollment_completed.
Proof.
  intros H. specialize (H eq_refl). cbv zeta in H.
  destruct H as [_ [row [Hrow [Hp _]]]].
  vm_compute in Hrow. injection Hrow as <-. discriminate Hp.
Qed.

(** C1 (amended).  For an enrollment whose course has no lessons,
    [calculate_progress] answers 0, triggers no completion and issues no
    certificate: the completed flag and completed-at of the object and of
    every stored enrollment are as before, and the certificate table is
    unchanged. *)
Theorem recalculate_without_lessons (env : Env) (db : DB) (e : Enrollment.t) :
  total_lessons db (Enrollment.course e) = 0%Z ->
  let s := calculate_progress env (db, e) in
  snd s = Ok 0%Z
  /\ Enrollment.completed (snd (fst s)) = Enrollment.completed e
  /\ Enrollment.completed_at (snd (fst s)) = Enrollment.completed_at e
  /\ completion_columns (fst (fst s)) = completion_columns db
  /\ certificates (fst (fst s)) = certificates db.
Proof.
  intros Hn. cbv zeta. rewrite calculate_progress_eq. cbv zeta.
  rewrite Hn. cbn. repeat split.
Qed.

Lemma recalculate_without_lessons_witness :
  total_lessons campus_emptied (Enrollment.course enrollment_completed) = 0%Z
  /\ let s := calculate_progress
                (env_at 4000 "2c0ffee0-0000-4000-8000-000000000000")
                (campus_emptied, enrollment_completed) in
     snd s = Ok 0%Z
     /\ Enrollment.completed (snd (fst s))
        = Enrollment.completed enrollment_completed
     /\ Enrollment.completed_at (snd (fst s))
        = Enrollment.completed_at enrollment_completed
     /\ completion_columns (fst (fst s)) = completion_columns campus_emptied
     /\ certificates (fst (fst s)) = certificates campus_emptied.
Proof.
  split; [reflexivity|].
  apply (@recalculate_without_lessons
           (env_at 4000 "2c0ffee0-0000-4000-8000-000000000000")
           campus_emptied enrollment_completed).
  reflexivity.
Defined.

(** ** The stored percentage *)

(** C7 (the code at the failing input).  In a course of 50 lessons of which
    the student has completed 29, the floor of 29/50 x 100 is 58, and
    [calculate_progress] answers and stores 57: the quotient 29/50 is
    rounded to a double before it is multiplied by 100, and the product
    57.99999999999999 is truncated. *)
Theorem percentage_29_of_50 :
  total_lessons (classroom 50 29) 1 = 50%Z
  /\ completed_lessons (classroom 50 29) 7 1 = 29%Z
  /\ floor_percentage 29 50 = 58%Z
  /\ let s := calculate_progress
                (env_at 5000 "3c0ffee0-0000-4000-8000-000000000000")
                (classroom 50 29, classroom_enrollment) in
     snd s = Ok 57%Z
     /\ option_map Enrollment.progress_percentage
          (lookup_pk 1 (enrollments (fst (fst s)))) = Some 57%Z.
Proof. vm_compute. repeat split. Qed.

(** The specification's scenario: 1 of 4 lessons gives 25, not completed. *)
Lemma percentage_1_of_4 :
  let s := calculate_progress
             (env_at 5000 "3c0ffee0-0000-4000-8000-000000000000")
             (classroom 4 1, classroom_enrollment) in
  snd s = Ok 25%Z
  /\ lookup_pk 1 (enrollments (fst (fst s)))
     = Some (Enrollment.mk 1 7 1 0 false None 25).
Proof. vm_compute. repeat split. Qed.



(* ------------------------------------------------------------------ *)
(** ** Issuing certificates *)

Lemma existsb_false_filter {A : Type} (p : A -> bool) (l : list A) :
  existsb p l = false -> filter p l = [].
Proof.
  induction l as [|a l IH]; simpl; [reflexivity|].
  intros H. apply orb_false_iff in H. destruct H as [Ha Hl].
  rewrite Ha. now apply IH.
Qed.

Lemma no_clash_no_violation (c : Certificate.t) (l : list Certificate.t) :
  existsb (cert_for (Certificate.student c) (Certificate.course c)) l = false ->
  existsb (fun r => String.eqb (Certificate.certificate_id r)
                               (Certificate.certificate_id c)) l = false ->
  violates c l = false.
Proof.
  unfold violates. induction l as [|r l IH]; cbn [existsb]; [reflexivity|].
  intros H1 H2.
  apply orb_false_iff in H1. destruct H1 as [H1 H1'].
  apply orb_false_iff in H2. destruct H2 as [H2 H2'].
  apply orb_false_iff. split; [|now apply IH].
  cbn [clashes Certificate_Model]. unfold cert_for in H1.
  rewrite H2, H1. apply andb_false_r.
Qed.

(** C4.  Issuing twice gives one certificate.  For a completed enrollment
    whose (student, course) pair has no certificate yet, and a generated
    identifier no stored certificate carries, the first call creates one
    row for the pair and returns it; a later call for the same pair -- on
    the same object or on any other enrollment object of that pair --
    returns [None] and writes nothing, so the pair has exactly one row. *)
Theorem certificate_issued_once (env env' : Env) (db : DB)
        (e e' : Enrollment.t) :
  Enrollment.completed e = true ->
  existsb (cert_for (Enrollment.student e) (Enrollment.course e))
          (certificates db) = false ->
  existsb (fun r => String.eqb (Certificate.certificate_id r)
                               (generate_certificate_id_static env))
          (certificates db) = false ->
  Enrollment.student e' = Enrollment.student e ->
  Enrollment.course e' = Enrollment.course e ->
  let first_call := issue_certificate env (db, e) in
  let db1 := fst (fst first_call) in
  let second_call := issue_certificate env' (db1, e') in
  exists cert,
    snd first_call = Ok (Some cert)
    /\ Certificate.student cert = Enrollment.student e
    /\ Certificate.course cert = Enrollment.course e
    /\ certificates db1 = certificates db ++ [cert]
    /\ snd second_call = Ok None
    /\ fst (fst second_call) = db1
    /\ filter (cert_for (Enrollment.student e) (Enrollment.course e))
              (certificates (fst (fst second_call))) = [cert].
Proof.
  intros Hc Hnone Hfresh Hs' Hc'. cbv zeta.
  rewrite (issue_certificate_eq env). rewrite Hc, Hnone. cbv zeta. cbn [andb negb].
  set (cert := Certificate.mk (next_pk (certificates db)) (Enrollment.student e)
                 (Enrollment.course e) (generate_certificate_id_static env)
                 (now env) None).
  rewrite (no_clash_no_violation cert (certificates db) Hnone Hfresh).
  cbn [fst snd]. exists cert.
  rewrite issue_certificate_eq.
  cbn [certificates put_rows Certificates].
  assert (Hm : cert_for (Enrollment.student e) (Enrollment.course e) cert
               = true)
    by (unfold cert_for, cert; cbn; now rewrite !Nat.eqb_refl).
  rewrite Hs', Hc', existsb_app. cbn [existsb]. rewrite Hm.
  cbn [orb]. rewrite orb_true_r. cbn [negb]. rewrite andb_false_r.
  cbn [fst snd certificates].
  repeat split.
  rewrite filter_app, (existsb_false_filter _ _ Hnone). cbn [filter app].
  now rewrite Hm.
Qed.

Lemma certificate_issued_once_witness :
  let env := env_at 2000 "7b2a9c1e-52d1-4c0a-9d3e-0123456789ab" in
  let env' := env_at 2500 "8b2a9c1e-52d1-4c0a-9d3e-0123456789ab" in
  let db := campus_before_certificate in
  let e := enrollment_completed in
  (Enrollment.completed e = true
   /\ existsb (cert_for (Enrollment.student e) (Enrollment.course e))
              (certificates db) = false
   /\ existsb (fun r => String.eqb (Certificate.certificate_id r)
                                   (generate_certificate_id_static env))
              (certificates db) = false)
  /\ let first_call := issue_certificate env (db, e) in
     let db1 := fst (fst first_call) in
     let second_call := issue_certificate env' (db1, e) in
     exists cert,
       snd first_call = Ok (Some cert)
       /\ Certificate.student cert = Enrollment.student e
       /\ Certificate.course cert = Enrollment.course e
       /\ certificates db1 = certificates db ++ [cert]
       /\ snd second_call = Ok None
       /\ fst (fst second_call) = db1
       /\ filter (cert_for (Enrollment.student e) (Enrollment.course e))
                 (certificates (fst (fst second_call))) = [cert].
Proof.
  split; [repeat split|].
  apply (@certificate_issued_once
           (env_at 2000 "7b2a9c1e-52d1-4c0a-9d3e-0123456789ab")
           (env_at 2500 "8b2a9c1e-52d1-4c0a-9d3e-0123456789ab")
           campus_before_certificate
           enrollment_completed enrollment_completed);
    reflexivity.
Defined.

(* ------------------------------------------------------------------ *)
(** ** Viewing lessons *)

Lemma is_some_first {T : Type} `{Model T} (p : T -> bool) (l : list T) :
  is_some (first (filter p l)) = existsb p l.
Proof.
  induction l as [|a l IH]; simpl; [reflexivity|].
  destruct (p a); simpl; [|exact IH].
  destruct (first (filter p l)) as [y|]; [|reflexivity].
  now destruct (pk y <? pk a)%nat.
Qed.

Lemma filter_singleton {A : Type} (p : A -> bool) (l : list A) (x : A) :
  filter p l = [x] -> p x = true /\ In x l.
Proof.
  intros H. assert (Hin : In x (filter p l)) by (rewrite H; now left).
  apply filter_In in Hin. tauto.
Qed.

Lemma filter_nil_no_violation {T : Type} `{Model T} (x : T) (l : list T) :
  filter (fun r => clashes r x) l = [] -> violates x l = false.
Proof.
  unfold violates. induction l as [|r l IH]; simpl; [reflexivity|].
  destruct (clashes r x); [discriminate|].
  intros Hl. now rewrite andb_false_r, IH.
Qed.

(** [lesson_view], for a request whose course and lesson exist. *)
Lemma lesson_view_eq (env : Env) (user : nat) (slug : string)
      (lesson_id : nat) (db : DB) (course : Course.t) (lesson : Lesson.t) :
  filter (fun c => String.eqb (Course.slug c) slug) (courses db) = [course] ->
  filter (fun l => (Lesson.id l =? lesson_id)%nat) (lessons db) = [lesson] ->
  lesson_view env user slug lesson_id db =
  if existsb (same_pair user (Course.id course)) (enrollments db) then
    match filter (progress_for user lesson_id) (lesson_progress db) with
    | [] =>
        (put_rows LessonProgresses
           (lesson_progress db
            ++ [LessonProgress.mk (next_pk (lesson_progress db)) user
                  lesson_id false None (now env)]) db,
         Ok lesson_detail)
    | [_] => (db, Ok lesson_detail)
    | _ :: _ :: _ => (db, Raise (MultipleObjectsReturned "LessonProgress"))
    end
  else if Lesson.is_preview lesson then (db, Ok lesson_detail)
       else (db, Ok (Redirect "courses:course_detail")).
Proof.
  intros Hc Hl.
  destruct (filter_singleton _ _ Hl) as [Hid _].
  apply Nat.eqb_eq in Hid.
  unfold lesson_view, bind, get_object_or_404, objects_first, gets.
  cbn [rows Courses Lessons Enrollments]. rewrite Hc, Hl.
  rewrite is_some_first, Hid.
  destruct (existsb _ (enrollments db)); cbn [negb andb].
  - unfold objects_get_or_create. cbn [rows LessonProgresses].
    destruct (filter (progress_for user lesson_id) (lesson_progress db))
      as [|r [|r' l]] eqn:Hf; try reflexivity.
    unfold bind, objects_create. cbn [rows LessonProgresses].
    rewrite filter_nil_no_violation; [reflexivity|exact Hf].
  - now destruct (Lesson.is_preview lesson).
Qed.

(** C9 (as specified) fails: student 8 is not enrolled and opens the
    preview lesson of the small campus; the page is rendered and no
    progress row is created. *)
Lemma first_view_counterexample :
  ~ first_view_as_specified
      (env_at 1500 "4c0ffee0-0000-4000-8000-000000000000")
      8 "mining-101" 2 campus_with_preview.
Proof.
  intros H.
  specialize (H (Course.mk 1 "mining-101" 100) (Lesson.mk 2 1 true)
                eq_refl eq_refl eq_refl (or_intror eq_refl) eq_refl).
  vm_compute in H. discriminate H.
Qed.

(** C9 (amended).  For a request whose course and lesson exist and a
    (student, lesson) pair with at most one progress row: if the student is
    enrolled in the requested course, the first view leaves exactly one row
    for the pair -- created with last-viewed set to the time of the view
    when there was none -- and a second view returns the page and writes
    nothing (the row, its last-viewed included, stays as it is); if the
    student is not enrolled, the view writes nothing, preview lesson or
    not. *)
Theorem lesson_view_tracks_enrolled (env env' : Env) (user : nat)
        (slug : string) (lesson_id : nat) (db : DB)
        (course : Course.t) (lesson : Lesson.t) :
  filter (fun c => String.eqb (Course.slug c) slug) (courses db) = [course] ->
  filter (fun l => (Lesson.id l =? lesson_id)%nat) (lessons db) = [lesson] ->
  List.length (filter (progress_for user lesson_id) (lesson_progress db)) <= 1 ->
  let first_view := lesson_view env user slug lesson_id db in
  let db1 := fst first_view in
  let second_view := lesson_view env' user slug lesson_id db1 in
  (existsb (same_pair user (Course.id course)) (enrollments db) = true ->
   snd first_view = Ok lesson_detail
   /\ List.length (filter (progress_for user lesson_id) (lesson_progress db1)) = 1
   /\ (filter (progress_for user lesson_id) (lesson_progress db) = [] ->
       lesson_progress db1 =
       lesson_progress db
       ++ [LessonProgress.mk (next_pk (lesson_progress db)) user lesson_id
             false None (now env)])
   /\ second_view = (db1, Ok lesson_detail))
  /\ (existsb (same_pair user (Course.id course)) (enrollments db) = false ->
      db1 = db).
Proof.
  intros Hc Hl Hu. cbv zeta.
  rewrite (@lesson_view_eq env user slug lesson_id db course lesson Hc Hl).
  split; intros He; rewrite He.
  - destruct (filter (progress_for user lesson_id) (lesson_progress db))
      as [|r [|r' l]] eqn:Hf; cbn [fst snd].
    + assert (Hf1 : filter (progress_for user lesson_id)
                      (lesson_progress db
                       ++ [LessonProgress.mk (next_pk (lesson_progress db))
                             user lesson_id false None (now env)])
                    = [LessonProgress.mk (next_pk (lesson_progress db))
                         user lesson_id false None (now env)]).
      { rewrite filter_app, Hf.
        cbn [filter app]. unfold progress_for.
        cbn [LessonProgress.student LessonProgress.lesson].
        now rewrite !Nat.eqb_refl. }
      rewrite (@lesson_view_eq env' user slug lesson_id _ course lesson);
        [|exact Hc|exact Hl].
      cbn [enrollments lesson_progress put_rows LessonProgresses].
      rewrite He, Hf1. repeat split.
    + rewrite (@lesson_view_eq env' user slug lesson_id db course lesson Hc Hl), He, Hf.
      split; [reflexivity|]. split; [reflexivity|]. split; [discriminate|reflexivity].
    + cbn in Hu. lia.
  - now destruct (Lesson.is_preview lesson).
Qed.

Lemma lesson_view_tracks_enrolled_witness :
  let env := env_at 1500 "4c0ffee0-0000-4000-8000-000000000000" in
  let env' := env_at 1600 "5c0ffee0-0000-4000-8000-000000000000" in
  let db := campus_with_preview in
  let first_view := lesson_view env 7 "mining-101" 2 db in
  let db1 := fst first_view in
  let second_view := lesson_view env' 7 "mining-101" 2 db1 in
  List.length (filter (progress_for 7 2) (lesson_progress db)) <= 1
  /\ snd first_view = Ok lesson_detail
  /\ List.length (filter (progress_for 7 2) (lesson_progress db1)) = 1
  /\ second_view = (db1, Ok lesson_detail).
Proof.
  cbv zeta.
  assert (Hu : List.length (filter (progress_for 7 2)
                              (lesson_progress campus_with_preview)) <= 1)
    by (vm_compute; lia).
  split; [exact Hu|].
  destruct (@lesson_view_tracks_enrolled
              (env_at 1500 "4c0ffee0-0000-4000-8000-000000000000")
              (env_at 1600 "5c0ffee0-0000-4000-8000-000000000000")
              7 "mining-101" 2 campus_with_preview
              (Course.mk 1 "mining-101" 100) (Lesson.mk 2 1 true)
              eq_refl eq_refl Hu) as [Henrolled _].
  destruct (Henrolled eq_refl) as [H1 [H2 [_ H3]]].
  split; [exact H1|]. split; [exact H2|exact H3].
Defined.

(* ------------------------------------------------------------------ *)
(** ** Orders *)

Lemma no_other_clash_no_violation {T : Type} `{Model T} (x : T) (l : list T) :
  (forall r, In r l -> clashes r x = true -> pk r = pk x) ->
  violates x l = false.
Proof.
  unfold violates. induction l as [|r l IH]; simpl; [reflexivity|].
  intros Hl. rewrite IH by (intros r' Hr'; apply Hl; now right).
  rewrite orb_false_r.
  destruct (clashes r x) eqn:Hc; [|apply andb_false_r].
  rewrite (Hl r (or_introl eq_refl) Hc), Nat.eqb_refl. reflexivity.
Qed.

Lemma in_has_pk {T : Type} `{Model T} (x : T) (l : list T) :
  In x l -> has_pk (pk x) l = true.
Proof.
  intros Hin. unfold has_pk. apply existsb_exists. exists x.
  split; [exact Hin|apply Nat.eqb_refl].
Qed.

(** Saving an order that was fetched by its reference. *)
Lemma save_fetched_order (now : Z) (reference : string) (order x : Order.t)
      (db : DB) :
  filter (has_reference reference) (orders db) = [order] ->
  Order.id x = Order.id order ->
  Order.order_id x = Order.order_id order ->
  save Orders now x db
  = (put_rows Orders (update_row (auto_now now x) (orders db)) db,
     Ok (auto_now now x)).
Proof.
  intros Hf Hid Href.
  destruct (filter_singleton _ _ Hf) as [Hp Hin].
  unfold has_reference in Hp. apply String.eqb_eq in Hp.
  unfold save. cbn [rows Orders].
  rewrite no_other_clash_no_violation.
  - unfold upsert.
    replace (pk (auto_now now x)) with (pk order) by (symmetry; exact Hid).
    now rewrite (in_has_pk order _ Hin).
  - intros r Hr Hc. cbn [clashes Order_Model auto_now Order.order_id] in Hc.
    apply String.eqb_eq in Hc.
    assert (Hr' : In r (filter (has_reference reference) (orders db))).
    { apply filter_In. split; [exact Hr|]. unfold has_reference.
      apply String.eqb_eq. congruence. }
    rewrite Hf in Hr'. destruct Hr' as [<-|[]].
    symmetry. exact Hid.
Qed.

(** What a fulfilment does to an order that its reference identifies. *)
Lemma fulfil_eq (env : Env) (reference : string) (tr : trigger) (db : DB)
      (order : Order.t) :
  filter (has_reference reference) (orders db) = [order] ->
  reaches tr reference order ->
  fulfil env reference tr db =
  let order' := paid (now env) (trigger_id tr) (trigger_channel tr) order in
  let db1 := put_rows Orders (update_row order' (orders db)) db in
  match enroll_in_items env order' db1 with
  | (db2, Ok _) =>
      (fst (delete_carts_of (Order.user order) db2), Ok (fulfilled_response tr))
  | (db2, Raise x) =>
      match tr with
      | ViaWebhook _ _ =>
          if is_order_does_not_exist x then (db2, Ok (JsonResponse 200))
          else (db2, Raise x)
      | ViaVerify _ _ _ => (db2, Ok (Redirect "courses:cart"))
      end
  end.
Proof.
  intros Hf Hreach. cbv zeta.
  assert (Hsave : forall id channel,
             save Orders (now env)
               (Order.set_completed_at (Some (now env))
                  (Order.set_payment_method channel
                     (Order.set_payment_reference id
                        (Order.set_status Status.completed order)))) db
             = (put_rows Orders
                  (update_row (paid (now env) id channel order) (orders db)) db,
                Ok (paid (now env) id channel order))).
  { intros id channel.
    exact (@save_fetched_order (now env) reference order
             (Order.set_completed_at (Some (now env))
                (Order.set_payment_method channel
                   (Order.set_payment_reference id
                      (Order.set_status Status.completed order))))
             db Hf eq_refl eq_refl). }
  destruct tr as [id channel|user id channel]; cbn [fulfil trigger_id
    trigger_channel fulfilled_response].
  - unfold paystack_webhook. cbn [String.eqb Ascii.eqb Bool.eqb event
      data_reference data_id data_channel].
    unfold bind at 1. unfold try_except.
    unfold bind at 1. unfold objects_get. cbn [rows Orders].
    fold (has_reference reference). rewrite Hf. cbv zeta.
    unfold bind at 1. rewrite Hsave.
    unfold bind at 1.
    destruct (enroll_in_items env _ _) as [db2 [[]|x]].
    + unfold bind at 1. unfold delete_carts_of at 1, modify at 1.
      unfold send_enrollment_email, ret. reflexivity.
    + destruct (is_order_does_not_exist x); reflexivity.
  - destruct Hreach as [-> Hne].
    unfold payment_verify.
    destruct reference as [|c reference]; [now contradiction Hne|].
    unfold try_except.
    unfold bind at 1. unfold objects_get. cbn [rows Orders].
    assert (Hf' : filter (fun o => String.eqb (Order.order_id o) (String c reference)
                                   && (Order.user o =? Order.user order)%nat)
                         (orders db) = [order]).
    { clear Hsave. revert Hf. unfold has_reference.
      induction (orders db) as [|r l IH]; cbn [filter]; [discriminate|].
      destruct (String.eqb (Order.order_id r) (String c reference)) eqn:Hr;
        cbn [andb].
      - intros [= -> Hl]. rewrite Nat.eqb_refl.
        f_equal. clear IH. induction l as [|r l IH]; [reflexivity|].
        cbn [filter] in *.
        destruct (String.eqb (Order.order_id r) (String c reference));
          [discriminate|]. cbn [andb]. now apply IH.
      - exact IH. }
    rewrite Hf'.
    unfold lift_option, bind, ret. cbv beta iota.
    cbn [result_status result_data verify_status verify_id verify_channel
         String.eqb Ascii.eqb Bool.eqb].
    cbv beta iota. rewrite Hsave.
    destruct (enroll_in_items env _ _) as [db2 [[]|x]]; [|reflexivity].
    unfold delete_carts_of, modify, send_enrollment_email. reflexivity.
Qed.

Lemma enroll_in_items_orders (env : Env) (o : Order.t) (db : DB) :
  orders (fst (enroll_in_items env o db)) = orders db.
Proof.
  assert (Hk : keeps (fun d => orders d = orders db) (enroll_in_items env o)).
  { unfold enroll_in_items. keeps_step; [keeps_step|].
    keeps_step. keeps_step; [|keeps_step].
    apply keeps_objects_get_or_create. intros l d H. exact H. }
  specialize (Hk db eq_refl).
  now destruct (enroll_in_items env o db) as [d [a|x]].
Qed.

Lemma orders_after_fulfil (env : Env) (reference : string) (tr : trigger)
      (db : DB) (order : Order.t) :
  filter (has_reference reference) (orders db) = [order] ->
  reaches tr reference order ->
  orders (fst (fulfil env reference tr db))
  = update_row (paid (now env) (trigger_id tr) (trigger_channel tr) order)
               (orders db).
Proof.
  intros Hf Hr. rewrite (@fulfil_eq env reference tr db order Hf Hr). cbv zeta.
  match goal with
  | |- context [enroll_in_items env ?o ?d] =>
      pose proof (enroll_in_items_orders env o d) as Ho;
      destruct (enroll_in_items env o d) as [db2 [[]|x]]
  end; cbn [fst] in *.
  - unfold delete_carts_of, modify. cbn [fst orders put_rows Carts CartItems].
    exact Ho.
  - destruct tr; [destruct (is_order_does_not_exist x)|]; exact Ho.
Qed.

Lemma stored_status_update_row (o' order : Order.t) (db db' : DB)
      (reference : string) :
  filter (has_reference reference) (orders db) = [order] ->
  Order.id o' = Order.id order ->
  orders db' = update_row o' (orders db) ->
  lookup_pk (Order.id order) (orders db') = Some o'.
Proof.
  intros Hf Hid ->. destruct (filter_singleton _ _ Hf) as [_ Hin].
  rewrite <- Hid. change (Order.id o') with (pk o').
  apply lookup_pk_update_row.
  change (pk o') with (Order.id o'). rewrite Hid.
  exact (in_has_pk order _ Hin).
Qed.

(** C2 (as specified) fails: the webhook for the paid order of the shop is
    delivered a second time, at instant 2500; the order row is rewritten
    (completed-at and updated-at move from 2000 to 2500). *)
Lemma guard_counterexample :
  ~ guard_as_specified (env_at 2500 "") shop_reference
      (ViaWebhook "4099" "card") shop_paid.
Proof.
  intros H. specialize (H shop_order_paid eq_refl eq_refl).
  apply (f_equal orders) in H. vm_compute in H. discriminate H.
Qed.

(** C2 (amended).  Fulfilment has no status guard.  For an order that its
    reference identifies, whatever its current status -- completed
    included -- the webhook and the verification path both rewrite the
    order row: status completed, the gateway's transaction id as payment
    reference, its channel as payment method, completed-at and updated-at
    set to the time of the call. *)
Theorem fulfilment_unguarded (env : Env) (reference : string) (tr : trigger)
        (db : DB) (order : Order.t) :
  filter (has_reference reference) (orders db) = [order] ->
  reaches tr reference order ->
  lookup_pk (Order.id order) (orders (fst (fulfil env reference tr db)))
  = Some (paid (now env) (trigger_id tr) (trigger_channel tr) order).
Proof.
  intros Hf Hr.
  destruct (filter_singleton _ _ Hf) as [_ Hin].
  rewrite (@orders_after_fulfil env reference tr db order Hf Hr).
  set (order' := paid (now env) (trigger_id tr) (trigger_channel tr) order).
  change (Order.id order) with (pk order').
  apply lookup_pk_update_row.
  exact (in_has_pk order _ Hin).
Qed.

Lemma fulfilment_unguarded_witness :
  (filter (has_reference shop_reference) (orders shop_paid) = [shop_order_paid]
   /\ reaches (ViaVerify 7 "4100" "mobile_money") shop_reference shop_order_paid)
  /\ lookup_pk 1
       (orders (fst (fulfil (env_at 2500 "") shop_reference
                            (ViaVerify 7 "4100" "mobile_money") shop_paid)))
     = Some (paid 2500 "4100" "mobile_money" shop_order_paid).
Proof.
  assert (Hr : reaches (ViaVerify 7 "4100" "mobile_money") shop_reference
                       shop_order_paid)
    by (split; [reflexivity|discriminate]).
  split; [split; [reflexivity|exact Hr]|].
  exact (@fulfilment_unguarded (env_at 2500 "") shop_reference
           (ViaVerify 7 "4100" "mobile_money") shop_paid shop_order_paid
           eq_refl Hr).
Defined.

(** [payment_verify] when the gateway declines. *)
Lemma payment_verify_declined (env : Env) (reference : string)
      (g : VerifyResult) (db : DB) (order : Order.t) :
  filter (has_reference reference) (orders db) = [order] ->
  reference <> EmptyString ->
  declined g = true ->
  payment_verify env (Order.user order) (Some reference) (Some g) db
  = (put_rows Orders
       (update_row (auto_now (now env) (Order.set_status Status.failed order))
                   (orders db)) db,
     Ok (Redirect "courses:cart")).
Proof.
  intros Hf Hne Hd.
  unfold payment_verify.
  destruct reference as [|c reference]; [now contradiction Hne|].
  assert (Hf' : filter (fun o => String.eqb (Order.order_id o) (String c reference)
                                 && (Order.user o =? Order.user order)%nat)
                       (orders db) = [order]).
  { revert Hf. unfold has_reference.
    induction (orders db) as [|r l IH]; cbn [filter]; [discriminate|].
    destruct (String.eqb (Order.order_id r) (String c reference)) eqn:Hr;
      cbn [andb].
    - intros [= -> Hl]. rewrite Nat.eqb_refl.
      f_equal. clear IH. induction l as [|r l IH]; [reflexivity|].
      cbn [filter] in *.
      destruct (String.eqb (Order.order_id r) (String c reference));
        [discriminate|]. cbn [andb]. now apply IH.
    - exact IH. }
  unfold try_except, objects_get. unfold bind at 1. cbn [rows Orders].
  rewrite Hf'.
  pose proof (@save_fetched_order (now env) (String c reference) order
                (Order.set_status Status.failed order) db Hf
                eq_refl eq_refl) as Hsave.
  unfold lift_option, bind, ret. cbv beta iota.
  unfold declined in Hd.
  destruct (result_status g).
  - destruct (result_data g) as [d|]; [|discriminate Hd].
    apply negb_true_iff in Hd. rewrite Hd. cbv beta iota.
    now rewrite Hsave.
  - cbv beta iota. now rewrite Hsave.
Qed.

Lemma of_string_to_string (st : Status.t) :
  Status.of_string (Status.to_string st) = Some st.
Proof. now destruct st. Qed.

(** [admin_update_order_status] with a valid status. *)
Lemma admin_update_order_status_eq (env : Env) (reference : string)
      (st : Status.t) (db : DB) (order : Order.t) :
  filter (has_reference reference) (orders db) = [order] ->
  admin_update_order_status env "POST" reference
    (Some (Status.to_string st)) db
  = (put_rows Orders
       (update_row (auto_now (now env) (Order.set_status st order))
                   (orders db)) db,
     Ok (Redirect "courses:admin_order_detail")).
Proof.
  intros Hf. unfold admin_update_order_status.
  cbn [String.eqb Ascii.eqb Bool.eqb]. rewrite of_string_to_string.
  unfold bind at 1. unfold bind at 1.
  unfold get_object_or_404. cbn [rows Orders].
  fold (has_reference reference). rewrite Hf.
  unfold bind at 1.
  rewrite (@save_fetched_order (now env) reference order
             (Order.set_status st order) db Hf eq_refl eq_refl).
  reflexivity.
Qed.

(** C5 (as specified) fails: the buyer of the shop came back before paying
    and the order was marked failed; the gateway's webhook then reports the
    charge and the order moves from failed to completed. *)
Lemma transitions_counterexample :
  ~ transitions_as_specified (env_at 2000 "") shop_reference
      (ViaWebhook "4099" "card") shop_abandoned.
Proof.
  intros H. destruct (H shop_order_abandoned eq_refl) as [s' [Hs Hor]].
  vm_compute in Hs. injection Hs as <-.
  destruct Hor as [Heq|Hal]; discriminate.
Qed.

(** C5 (amended).  None of [paystack_webhook], [payment_verify] and
    [admin_update_order_status] looks at an order's current status before
    it writes a new one.  For an order that its reference identifies, from
    any status: a fulfilment (the webhook, or a verification by the order's
    user with a successful charge) stores completed; a verification by the
    order's user that the gateway declines stores failed; the admin status
    update stores whichever of the five statuses the request names. *)
Theorem order_status_unchecked (env : Env) (reference : string) (db : DB)
        (order : Order.t) :
  filter (has_reference reference) (orders db) = [order] ->
  (forall tr, reaches tr reference order ->
     stored_status (Order.id order) (fst (fulfil env reference tr db))
     = Some Status.completed)
  /\ (forall g, reference <> EmptyString -> declined g = true ->
        stored_status (Order.id order)
          (fst (payment_verify env (Order.user order) (Some reference)
                               (Some g) db))
        = Some Status.failed)
  /\ (forall st,
        stored_status (Order.id order)
          (fst (admin_update_order_status env "POST" reference
                  (Some (Status.to_string st)) db))
        = Some st).
Proof.
  intros Hf. unfold stored_status. repeat split.
  - intros tr Hr.
    erewrite stored_status_update_row;
      [|exact Hf| |apply (@orders_after_fulfil env reference tr db order Hf Hr)];
      reflexivity.
  - intros g Hne Hd. rewrite (@payment_verify_declined env reference g db order Hf Hne Hd).
    cbn [fst].
    erewrite stored_status_update_row; [|exact Hf| |reflexivity]; reflexivity.
  - intros st. rewrite (@admin_update_order_status_eq env reference st db order Hf). cbn [fst].
    erewrite stored_status_update_row; [|exact Hf| |reflexivity]; reflexivity.
Qed.

(** *** Enrolling the buyer *)

Lemma same_pair_eq (s c : nat) (e : Enrollment.t) :
  same_pair s c e = true <->
  Enrollment.student e = s /\ Enrollment.course e = c.
Proof.
  unfold same_pair. rewrite andb_true_iff, !Nat.eqb_eq. tauto.
Qed.

Lemma distinct_pairs_count (l : list Enrollment.t) (s c : nat) :
  distinct_pairs l = true ->
  List.length (filter (same_pair s c) l) <= 1.
Proof.
  induction l as [|e l IH]; cbn [distinct_pairs filter]; [cbn; lia|].
  intros H. apply andb_true_iff in H. destruct H as [Hn Hd].
  apply negb_true_iff in Hn. specialize (IH Hd).
  destruct (same_pair s c e) eqn:He; [|exact IH].
  apply same_pair_eq in He. destruct He as [<- <-].
  rewrite (existsb_false_filter _ _ Hn). cbn. lia.
Qed.

Lemma distinct_pairs_app (l : list Enrollment.t) (x : Enrollment.t) :
  distinct_pairs l = true ->
  existsb (same_pair (Enrollment.student x) (Enrollment.course x)) l = false ->
  distinct_pairs (l ++ [x]) = true.
Proof.
  induction l as [|e l IH]; cbn [distinct_pairs existsb app]; [reflexivity|].
  intros H Hx. apply andb_true_iff in H. destruct H as [Hn Hd].
  apply negb_true_iff in Hn.
  apply orb_false_iff in Hx. destruct Hx as [Hxe Hxl].
  rewrite (IH Hd Hxl), andb_true_r, existsb_app, Hn. cbn [existsb orb].
  rewrite orb_false_r. apply negb_true_iff.
  unfold same_pair in *.
  rewrite (Nat.eqb_sym (Enrollment.student x)),
          (Nat.eqb_sym (Enrollment.course x)). exact Hxe.
Qed.

Lemma count_one (l : list Enrollment.t) (s c : nat) :
  distinct_pairs l = true -> existsb (same_pair s c) l = true ->
  List.length (filter (same_pair s c) l) = 1.
Proof.
  intros Hd He. pose proof (distinct_pairs_count l s c Hd) as Hle.
  destruct (filter (same_pair s c) l) as [|r l'] eqn:Hf; [|cbn in *; lia].
  exfalso. apply existsb_exists in He. destruct He as [r [Hin Hr]].
  assert (Hr' : In r (filter (same_pair s c) l))
    by (apply filter_In; now split).
  now rewrite Hf in Hr'.
Qed.

(** What [enroll_in_items] establishes on a table that respects the
    uniqueness of (student, course). *)
Definition enrolled_after (db db' : DB) (u : nat) (cs : list nat) : Prop :=
  distinct_pairs (enrollments db') = true
  /\ db' = put_rows Enrollments (enrollments db') db
  /\ (forall s c, existsb (same_pair s c) (enrollments db) = true ->
                  existsb (same_pair s c) (enrollments db') = true)
  /\ (forall c, In c cs -> existsb (same_pair u c) (enrollments db') = true).

Lemma get_or_create_enrollment (now : Z) (s c : nat) (db : DB) :
  distinct_pairs (enrollments db) = true ->
  exists db' r,
    objects_get_or_create Enrollments now (same_pair s c) (new_enrollment s c) db
    = (db', Ok r)
    /\ enrolled_after db db' s [c].
Proof.
  intros Hd. unfold objects_get_or_create. cbn [rows Enrollments].
  pose proof (distinct_pairs_count _ s c Hd) as Hle.
  destruct (filter (same_pair s c) (enrollments db)) as [|r [|r' l]] eqn:Hf.
  - unfold bind, objects_create. cbn [rows Enrollments].
    set (x := with_pk (next_pk (enrollments db))
                (auto_now now (auto_now_add now (new_enrollment s c)))).
    assert (Hno : existsb (same_pair s c) (enrollments db) = false).
    { destruct (existsb (same_pair s c) (enrollments db)) eqn:He;
        [|reflexivity].
      apply existsb_exists in He. destruct He as [r [Hin Hr]].
      assert (Hr' : In r (filter (same_pair s c) (enrollments db)))
        by (apply filter_In; now split).
      now rewrite Hf in Hr'. }
    rewrite (filter_nil_no_violation x); [|exact Hf].
    eexists. eexists. split; [reflexivity|].
    unfold enrolled_after. cbn [enrollments put_rows Enrollments].
    split; [|split; [|split]].
    + apply distinct_pairs_app; [exact Hd|exact Hno].
    + reflexivity.
    + intros s' c' He. rewrite existsb_app, He. reflexivity.
    + intros c' [<-|[]]. rewrite existsb_app. cbn [existsb].
      assert (Hx : same_pair s c x = true)
        by (unfold same_pair, x; cbn; now rewrite !Nat.eqb_refl).
      rewrite Hx. cbn. apply orb_true_r.
  - exists db, (r, false). split; [reflexivity|].
    split; [|split; [|split]].
    + exact Hd.
    + now destruct db.
    + auto.
    + intros c' [<-|[]]. apply existsb_exists. exists r.
      apply filter_singleton in Hf. tauto.
  - cbn in Hle. lia.
Qed.

Lemma enroll_loop (env : Env) (u : nat) (items : list OrderItem.t) (db : DB) :
  distinct_pairs (enrollments db) = true ->
  exists db',
    for_each items (fun order_item =>
      objects_get_or_create Enrollments (now env)
        (same_pair u (OrderItem.course order_item))
        (new_enrollment u (OrderItem.course order_item)) ;;;
      ret tt) db = (db', Ok tt)
    /\ enrolled_after db db' u (map OrderItem.course items).
Proof.
  revert db. induction items as [|i items IH]; intros db Hd.
  - exists db. split; [reflexivity|].
    split; [exact Hd|]. split; [now destruct db|]. split; [auto|].
    intros c [].
  - cbn [for_each map].
    destruct (@get_or_create_enrollment (now env) u (OrderItem.course i) db Hd)
      as [db1 [r [Hrun [Hd1 [Hput1 [Hkeep1 Hin1]]]]]].
    destruct (IH db1 Hd1) as [db2 [Hrun2 [Hd2 [Hput2 [Hkeep2 Hin2]]]]].
    exists db2. split.
    + unfold bind at 1. unfold bind at 1. rewrite Hrun. cbn [ret].
      exact Hrun2.
    + split; [|split; [|split]].
      * exact Hd2.
      * rewrite Hput2, Hput1. now destruct db.
      * auto.
      * intros c [<-|Hc]; [|now apply Hin2].
        apply Hkeep2, Hin1. now left.
Qed.

Lemma enroll_in_items_ok (env : Env) (order : Order.t) (db : DB) :
  distinct_pairs (enrollments db) = true ->
  exists db',
    enroll_in_items env order db = (db', Ok tt)
    /\ enrolled_after db db' (Order.user order) (ordered_courses db order).
Proof.
  intros Hd. unfold enroll_in_items, ordered_courses.
  unfold bind at 1. unfold objects_filter, gets. cbn [rows OrderItems].
  apply enroll_loop. exact Hd.
Qed.

Lemma filter_update_row_singleton {T : Type} `{Model T} (p : T -> bool)
      (x x' : T) (l : list T) :
  filter p l = [x] ->
  filter (fun r => (pk r =? pk x)%nat) l = [x] ->
  pk x' = pk x -> p x' = true ->
  filter p (update_row x' l) = [x']
  /\ filter (fun r => (pk r =? pk x')%nat) (update_row x' l) = [x'].
Proof.
  intros Hp Hk Hpk Hx'.
  assert (Hup : update_row x' l
                = map (fun r => if (pk r =? pk x)%nat then x' else r) l)
    by (unfold update_row; now rewrite Hpk).
  rewrite Hup, Hpk. clear Hup.
  destruct (filter_singleton _ _ Hp) as [Hpx _].
  revert Hp Hk. induction l as [|a l IH]; cbn [filter map]; [discriminate|].
  destruct (pk a =? pk x)%nat eqn:Ea.
  - intros Hp [= -> Hk]. rewrite Hpx in Hp. injection Hp as Hp.
    rewrite Hx', Hpk, Nat.eqb_refl.
    assert (Hmap : map (fun r => if (pk r =? pk x)%nat then x' else r) l = l).
    { clear -Hk. induction l as [|b l IHl]; cbn [map filter] in *;
        [reflexivity|].
      destruct (pk b =? pk x)%nat; [discriminate|]. now rewrite IHl. }
    rewrite Hmap, Hp, Hk. split; reflexivity.
  - intros Hp Hk. rewrite Ea. destruct (p a) eqn:Hpa.
    + injection Hp as -> _. now rewrite Nat.eqb_refl in Ea.
    + apply (IH Hp Hk).
Qed.

Lemma lookup_pk_filter {T : Type} `{Model T} (i : nat) (x : T) (l : list T) :
  filter (fun r => (pk r =? i)%nat) l = [x] -> lookup_pk i l = Some x.
Proof.
  unfold lookup_pk. induction l as [|a l IH]; cbn [filter find];
    [discriminate|].
  destruct (pk a =? i)%nat; [now intros [= ->]|exact IH].
Qed.

(** One fulfilment of an order that its reference and its key identify, on
    an enrollment table respecting (student, course) uniqueness. *)
Lemma fulfil_once (env : Env) (reference : string) (tr : trigger) (db : DB)
      (order : Order.t) :
  filter (has_reference reference) (orders db) = [order] ->
  filter (fun o => (Order.id o =? Order.id order)%nat) (orders db) = [order] ->
  reaches tr reference order ->
  distinct_pairs (enrollments db) = true ->
  let order' := paid (now env) (trigger_id tr) (trigger_channel tr) order in
  exists db',
    fulfil env reference tr db = (db', Ok (fulfilled_response tr))
    /\ filter (has_reference reference) (orders db') = [order']
    /\ filter (fun o => (Order.id o =? Order.id order)%nat) (orders db')
       = [order']
    /\ distinct_pairs (enrollments db') = true
    /\ order_items db' = order_items db
    /\ (forall s c, existsb (same_pair s c) (enrollments db) = true ->
                    existsb (same_pair s c) (enrollments db') = true)
    /\ (forall c, In c (ordered_courses db order) ->
                  existsb (same_pair (Order.user order) c) (enrollments db')
                  = true)
    /\ filter (fun c => (Cart.user c =? Order.user order)%nat) (carts db') = [].
Proof.
  intros Hf Hk Hr Hd order'.
  rewrite (@fulfil_eq env reference tr db order Hf Hr). cbv zeta.
  fold order'.
  set (db1 := put_rows Orders (update_row order' (orders db)) db).
  assert (Hd1 : distinct_pairs (enrollments db1) = true) by exact Hd.
  destruct (@enroll_in_items_ok env order' db1 Hd1)
    as [db2 [Hrun [Hd2 [Hput [Hkeep Hin]]]]].
  rewrite Hrun. eexists. split; [reflexivity|].
  destruct (filter_singleton _ _ Hf) as [Hpo _].
  destruct (@filter_update_row_singleton Order.t Order_Model (has_reference reference)
              order order' (orders db) Hf Hk eq_refl Hpo) as [Hf' Hk'].
  unfold delete_carts_of, modify.
  cbn [fst orders enrollments order_items carts put_rows Carts CartItems].
  rewrite Hput.
  cbn [orders enrollments order_items carts put_rows Enrollments db1 Orders].
  repeat split; auto.
  induction (carts db) as [|c l IH]; cbn [filter]; [reflexivity|].
  destruct (Cart.user c =? Order.user order)%nat eqn:Hc; cbn [negb filter];
    [exact IH|]. now rewrite Hc.
Qed.

(** C8.  Fulfilling an order twice.  Take an order that its reference and
    its key identify, and an enrollment table respecting the uniqueness of
    (student, course).  Two fulfilments in a row, each by the webhook or by
    the verification page, both answer normally; after each of them the
    buyer has exactly one enrollment per ordered course, and the order's
    status is completed. *)
Theorem double_fulfilment (env1 env2 : Env) (reference : string)
        (tr1 tr2 : trigger) (db : DB) (order : Order.t) :
  filter (has_reference reference) (orders db) = [order] ->
  filter (fun o => (Order.id o =? Order.id order)%nat) (orders db) = [order] ->
  reaches tr1 reference order ->
  reaches tr2 reference order ->
  distinct_pairs (enrollments db) = true ->
  let first_time := fulfil env1 reference tr1 db in
  let second_time := fulfil env2 reference tr2 (fst first_time) in
  snd first_time = Ok (fulfilled_response tr1)
  /\ snd second_time = Ok (fulfilled_response tr2)
  /\ stored_status (Order.id order) (fst first_time) = Some Status.completed
  /\ stored_status (Order.id order) (fst second_time) = Some Status.completed
  /\ forall c, In c (ordered_courses db order) ->
       enrollment_count (fst first_time) (Order.user order) c = 1
       /\ enrollment_count (fst second_time) (Order.user order) c = 1.
Proof.
  intros Hf Hk Hr1 Hr2 Hd. cbv zeta.
  destruct (@fulfil_once env1 reference tr1 db order Hf Hk Hr1 Hd)
    as [dbA [HrunA [HfA [HkA [HdA [HitemsA [HkeepA [HinA _]]]]]]]].
  rewrite HrunA. cbn [fst snd].
  set (orderA := paid (now env1) (trigger_id tr1) (trigger_channel tr1) order)
    in *.
  assert (Hr2' : reaches tr2 reference orderA) by (destruct tr2; exact Hr2).
  destruct (@fulfil_once env2 reference tr2 dbA orderA HfA HkA Hr2' HdA)
    as [dbB [HrunB [HfB [HkB [HdB [HitemsB [HkeepB [HinB _]]]]]]]].
  rewrite HrunB. cbn [fst snd].
  split; [reflexivity|]. split; [reflexivity|].
  unfold stored_status.
  rewrite (@lookup_pk_filter Order.t Order_Model (Order.id order) orderA
             (orders dbA) HkA).
  change (Order.id orderA) with (Order.id order) in HkB.
  rewrite (@lookup_pk_filter Order.t Order_Model (Order.id order) _
             (orders dbB) HkB).
  split; [reflexivity|]. split; [reflexivity|].
  intros c Hc. unfold enrollment_count. split.
  - apply count_one; [exact HdA|]. now apply HinA.
  - apply count_one; [exact HdB|]. apply HkeepB. now apply HinA.
Qed.

Lemma double_fulfilment_witness :
  let first_time :=
    fulfil (env_at 2000 "") shop_reference (ViaWebhook "4099" "card")
           shop_ordered in
  let second_time :=
    fulfil (env_at 2500 "") shop_reference (ViaVerify 7 "4099" "card")
           (fst first_time) in
  distinct_pairs (enrollments shop_ordered) = true
  /\ ordered_courses shop_ordered
       (Order.mk 1 7 shop_reference 300 "GHS" Status.pending "" "" 1000 1000
                 None) = [1; 2]
  /\ snd first_time = Ok (JsonResponse 200)
  /\ snd second_time = Ok (Redirect "courses:dashboard")
  /\ stored_status 1 (fst second_time) = Some Status.completed
  /\ enrollment_count (fst second_time) 7 1 = 1
  /\ enrollment_count (fst second_time) 7 2 = 1.
Proof.
  cbv zeta.
  assert (Hr : reaches (ViaVerify 7 "4099" "card") shop_reference
                 (Order.mk 1 7 shop_reference 300 "GHS" Status.pending "" ""
                           1000 1000 None))
    by (split; [reflexivity|discriminate]).
  destruct (@double_fulfilment (env_at 2000 "") (env_at 2500 "")
              shop_reference (ViaWebhook "4099" "card")
              (ViaVerify 7 "4099" "card") shop_ordered
              (Order.mk 1 7 shop_reference 300 "GHS" Status.pending "" ""
                        1000 1000 None)
              eq_refl eq_refl I Hr eq_refl)
    as [H1 [H2 [_ [H4 H5]]]].
  split; [reflexivity|]. split; [reflexivity|].
  split; [exact H1|]. split; [exact H2|]. split; [exact H4|].
  split.
  - exact (proj2 (H5 1 (or_introl eq_refl))).
  - exact (proj2 (H5 2 (or_intror (or_introl eq_refl)))).
Defined.

Lemma order_status_unchecked_witness :
  filter (has_reference shop_reference) (orders shop_abandoned)
  = [shop_order_abandoned]
  /\ stored_status 1
       (fst (fulfil (env_at 2000 "") shop_reference
                    (ViaWebhook "4099" "card") shop_abandoned))
     = Some Status.completed
  /\ stored_status 1
       (fst (admin_update_order_status (env_at 2600 "") "POST" shop_reference
               (Some "refunded"%string) shop_abandoned))
     = Some Status.refunded.
Proof.
  destruct (@order_status_unchecked (env_at 2000 "") shop_reference
              shop_abandoned shop_order_abandoned eq_refl)
    as [Hfulfil _].
  destruct (@order_status_unchecked (env_at 2600 "") shop_reference
              shop_abandoned shop_order_abandoned eq_refl)
    as [_ [_ Hadmin]].
  split; [reflexivity|]. split.
  - exact (Hfulfil (ViaWebhook "4099" "card") I).
  - exact (Hadmin Status.refunded).
Defined.

(* ================================================================== *)
(** * Further properties of the code *)

(** ** Keys and lookups *)

Section KeyFacts.
Context {T : Type} `{Model T}.

Lemma lookup_pk_some (i : nat) (x : T) (l : list T) :
  lookup_pk i l = Some x -> In x l /\ pk x = i.
Proof.
  unfold lookup_pk. intros Hf. apply find_some in Hf.
  destruct Hf as [Hin Hp]. apply Nat.eqb_eq in Hp. now split.
Qed.

Lemma has_pk_true (i : nat) (l : list T) :
  has_pk i l = true <-> exists x, In x l /\ pk x = i.
Proof.
  unfold has_pk. rewrite existsb_exists. split; intros [x [Hin Hp]];
    exists x; (split; [exact Hin|]); now apply Nat.eqb_eq.
Qed.

Lemma has_pk_lookup (i : nat) (l : list T) :
  has_pk i l = true -> exists x, lookup_pk i l = Some x.
Proof.
  intros Hh. destruct (lookup_pk i l) as [x|] eqn:Hl; [now exists x|].
  exfalso. unfold lookup_pk in Hl. apply has_pk_true in Hh.
  destruct Hh as [x [Hin Hp]].
  apply (find_none _ _ Hl) in Hin. apply Nat.eqb_neq in Hin. contradiction.
Qed.
End KeyFacts.

(** ** Completion happens exactly when every lesson is completed *)

Lemma calculate_progress_lesson_progress (env : Env) (db : DB)
      (e : Enrollment.t) :
  lesson_progress (fst (fst (calculate_progress env (db, e))))
  = lesson_progress db.
Proof.
  rewrite calculate_progress_eq. cbv zeta.
  destruct (_ =? 0)%Z; [reflexivity|].
  destruct (percentage _ _) as [p|]; [|reflexivity].
  destruct ((p =? 100)%Z && negb (Enrollment.completed e)).
  - destruct (violates _ (enrollments db)); [reflexivity|].
    rewrite issue_certificate_eq. cbv zeta.
    destruct (Enrollment.completed _ && negb _);
      [destruct (violates _ (certificates _))|]; reflexivity.
  - destruct (violates _ (enrollments db)); reflexivity.
Qed.

(** X1.  For an enrollment that is not yet completed and whose save meets
    no uniqueness conflict, in a course of [n] lessons ([0 < n < 2^53]) of
    which the student has completed [k <= n]: if [k < n] the recalculation
    stores a percentage below 100, leaves the enrollment not completed and
    creates no certificate; if [k = n] it stores 100, marks the enrollment
    completed at the time of the call, and -- when the generated
    identifier is not in use -- a certificate for the pair exists
    afterwards. *)
Theorem completed_exactly_when_all_lessons_done (env : Env) (db : DB)
        (e : Enrollment.t) :
  Enrollment.completed e = false ->
  violates e (enrollments db) = false ->
  let n := total_lessons db (Enrollment.course e) in
  let k := completed_lessons db (Enrollment.student e) (Enrollment.course e) in
  (0 < n < 2 ^ 53)%Z -> (k <= n)%Z ->
  let s := calculate_progress env (db, e) in
  exists row,
    lookup_pk (Enrollment.id e) (enrollments (fst (fst s))) = Some row
    /\ ((k < n)%Z ->
        Enrollment.completed row = false
        /\ Enrollment.completed_at row = Enrollment.completed_at e
        /\ (Enrollment.progress_percentage row < 100)%Z
        /\ snd s = Ok (Enrollment.progress_percentage row)
        /\ certificates (fst (fst s)) = certificates db)
    /\ (k = n ->
        Enrollment.completed row = true
        /\ Enrollment.completed_at row = Some (now env)
        /\ Enrollment.progress_percentage row = 100%Z
        /\ (existsb (fun r => String.eqb (Certificate.certificate_id r)
                                (generate_certificate_id_static env))
                    (certificates db) = false ->
            existsb (cert_for (Enrollment.student e) (Enrollment.course e))
                    (certificates (fst (fst s))) = true)).
Proof.
  intros Hc Hv n k Hn Hk. cbv zeta.
  assert (Hk0 : (0 <= k)%Z) by (unfold k, completed_lessons; lia).
  destruct (@percentage_bounds k n (conj Hk0 Hk) Hn) as [p [Hp [Hrange Hiff]]].
  rewrite calculate_progress_eq. cbv zeta. fold n k.
  destruct (Z.eqb_spec n 0) as [H0|_]; [lia|].
  rewrite Hp, Hc. cbn [negb]. rewrite andb_true_r.
  destruct (Z.eqb_spec p 100) as [Hp100|Hp100].
  - (* every lesson is completed *)
    assert (Hkn : k = n) by now apply Hiff.
    set (e2 := Enrollment.set_completed_at (Some (now env))
                 (Enrollment.set_completed true
                    (Enrollment.set_progress_percentage p e))).
    change (violates e2 (enrollments db)) with (violates e (enrollments db)).
    rewrite Hv.
    assert (Hrow : forall s' r,
               issue_certificate env (saved e2 db, e2) = (s', r) ->
               lookup_pk (Enrollment.id e) (enrollments (fst s')) = Some e2
               /\ (existsb (fun r => String.eqb (Certificate.certificate_id r)
                                       (generate_certificate_id_static env))
                           (certificates db) = false ->
                   existsb (cert_for (Enrollment.student e)
                                     (Enrollment.course e))
                           (certificates (fst s')) = true)).
    { intros s' r. rewrite issue_certificate_eq. cbv zeta.
      cbn [Enrollment.completed Enrollment.student Enrollment.course e2
           Enrollment.set_completed_at Enrollment.set_completed
           Enrollment.set_progress_percentage andb].
      change (certificates (saved e2 db)) with (certificates db).
      destruct (existsb (cert_for (Enrollment.student e) (Enrollment.course e))
                        (certificates db)) eqn:Hex; cbn [negb].
      - intros [= <- <-]. cbn [fst]. split; [|intros _; exact Hex].
        rewrite enrollments_saved.
        exact (lookup_pk_upsert e2 (enrollments db)).
      - match goal with
        | |- context [violates ?c (certificates db)] =>
            destruct (violates c (certificates db)) eqn:Hvc
        end.
        + intros [= <- <-]. cbn [fst]. split.
          * rewrite enrollments_saved.
            exact (lookup_pk_upsert e2 (enrollments db)).
          * intros Hfresh. exfalso.
            rewrite no_clash_no_violation in Hvc;
              [discriminate|exact Hex|exact Hfresh].
        + intros [= <- <-]. cbn [fst]. split.
          * change (lookup_pk (Enrollment.id e)
                              (upsert e2 (enrollments db)) = Some e2).
            exact (lookup_pk_upsert e2 (enrollments db)).
          * intros _. cbn [certificates put_rows Certificates].
            change (certificates (saved e2 db)) with (certificates db).
            rewrite existsb_app. cbn [existsb]. unfold cert_for at 2.
            cbn [Certificate.student Certificate.course e2
                 Enrollment.student Enrollment.course
                 Enrollment.set_completed_at Enrollment.set_completed
                 Enrollment.set_progress_percentage].
            rewrite !Nat.eqb_refl. cbn. apply orb_true_r. }
    destruct (issue_certificate env (saved e2 db, e2)) as [s' [c|x]] eqn:Hi;
      destruct (Hrow _ _ eq_refl) as [Hl Hcert]; cbn [fst] in *;
      (exists e2; split; [exact Hl|]; split; [intros Hlt; lia|];
       intros _; repeat split; auto; cbn; exact Hp100).
  - (* some lesson is missing *)
    assert (Hkn : k <> n) by (intros H; apply Hp100; now apply Hiff).
    set (e1 := Enrollment.set_progress_percentage p e).
    change (violates e1 (enrollments db)) with (violates e (enrollments db)).
    rewrite Hv. cbn [fst snd]. exists e1. split.
    + rewrite enrollments_saved. exact (lookup_pk_upsert e1 (enrollments db)).
    + split; [|intros H; contradiction].
      intros _. cbn. repeat split; auto. lia.
Qed.

Lemma completed_exactly_when_all_lessons_done_witness :
  let env := env_at 5000 "3c0ffee0-0000-4000-8000-000000000000" in
  (Enrollment.completed classroom_enrollment = false
   /\ violates classroom_enrollment (enrollments (classroom 4 4)) = false
   /\ total_lessons (classroom 4 4) 1 = 4%Z
   /\ completed_lessons (classroom 4 4) 7 1 = 4%Z)
  /\ exists row,
       lookup_pk 1 (enrollments (fst (fst (calculate_progress env
                                   (classroom 4 4, classroom_enrollment)))))
       = Some row
       /\ Enrollment.completed row = true
       /\ Enrollment.progress_percentage row = 100%Z.
Proof.
  cbv zeta. split; [repeat split|].
  destruct (@completed_exactly_when_all_lessons_done
              (env_at 5000 "3c0ffee0-0000-4000-8000-000000000000")
              (classroom 4 4) classroom_enrollment eq_refl eq_refl
              ltac:(vm_compute; split; reflexivity)
              ltac:(vm_compute; discriminate))
    as [row [Hl [_ Hall]]].
  exists row. split; [exact Hl|].
  destruct (Hall ltac:(vm_compute; reflexivity)) as [H1 [_ [H3 _]]].
  split; [exact H1|exact H3].
Defined.

(** ** Marking a lesson complete *)

Lemma next_pk_fresh {T : Type} `{Model T} (l : list T) :
  has_pk (next_pk l) l = false.
Proof.
  unfold has_pk, next_pk.
  assert (Hmax : Forall (fun k => k <= list_max (map pk l)) (map pk l))
    by now apply list_max_le.
  apply not_true_is_false. intros Hex.
  apply existsb_exists in Hex. destruct Hex as [r [Hin Heq]].
  apply Nat.eqb_eq in Heq.
  rewrite Forall_forall in Hmax.
  specialize (Hmax (pk r) (in_map pk l r Hin)). lia.
Qed.

Lemma call_calculate_progress_lesson_progress (env : Env) (e : Enrollment.t)
      (db : DB) :
  lesson_progress (fst (call (calculate_progress env) e db))
  = lesson_progress db.
Proof.
  unfold call.
  pose proof (calculate_progress_lesson_progress env db e) as Hl.
  destruct (calculate_progress env (db, e)) as [[db' e'] [a|x]]; exact Hl.
Qed.

Lemma save_then {T : Type} `{Model T} {B : Type} (tbl : Table T) (now : Z)
      (x : T) (k : M DB B) (db : DB) :
  violates (auto_now now x) (rows tbl db) = false ->
  (save tbl now x ;;; k) db
  = k (put_rows tbl (upsert (auto_now now x) (rows tbl db)) db).
Proof. intros Hv. unfold bind, save. now rewrite Hv. Qed.



(** ** Which course a lesson is checked against *)



(* ------------------------------------------------------------------ *)
(** ** The cart *)

(** What [get_or_create] leaves behind, for a lookup [p] that finds the row
    it would create and every row clashing with it. *)
Section GetOrCreate.
Context {T : Type} `{Model T} (tbl : Table T).
Hypothesis get_put : forall l db, rows tbl (put_rows tbl l db) = l.
Variables (now : Z) (p : T -> bool) (x : T).
Hypothesis p_new :
  forall i, p (with_pk i (auto_now now (auto_now_add now x))) = true.
Hypothesis clash_p :
  forall i r, clashes r (with_pk i (auto_now now (auto_now_add now x))) = true ->
              p r = true.

Lemma get_or_create_result (db : DB) :
  match objects_get_or_create tbl now p x db with
  | (db1, Ok (row, b)) =>
      filter p (rows tbl db1) = [row]
      /\ (db1 = db \/ db1 = put_rows tbl (rows tbl db ++ [row]) db)
  | (db1, Raise _) => db1 = db
  end.
Proof.
  unfold objects_get_or_create.
  destruct (filter p (rows tbl db)) as [|r [|r' l]] eqn:Hf.
  - unfold bind, objects_create.
    set (x' := with_pk (next_pk (rows tbl db))
                 (auto_now now (auto_now_add now x))).
    assert (Hv : violates x' (rows tbl db) = false).
    { unfold violates. apply not_true_is_false. intros Hex.
      apply existsb_exists in Hex. destruct Hex as [r [Hin Hr]].
      apply andb_prop in Hr. destruct Hr as [_ Hr].
      apply clash_p in Hr.
      assert (Hin' : In r (filter p (rows tbl db)))
        by (apply filter_In; now split).
      rewrite Hf in Hin'. exact Hin'. }
    rewrite Hv. unfold ret. split; [|now right].
    rewrite get_put, filter_app, Hf. cbn [filter app].
    unfold x'. now rewrite p_new.
  - split; [exact Hf|now left].
  - reflexivity.
Qed.

Lemma get_or_create_ok (db : DB) :
  List.length (filter p (rows tbl db)) <= 1 ->
  exists db1 row b,
    objects_get_or_create tbl now p x db = (db1, Ok (row, b))
    /\ filter p (rows tbl db1) = [row]
    /\ (db1 = db \/ db1 = put_rows tbl (rows tbl db ++ [row]) db).
Proof.
  intros Hlen. pose proof (get_or_create_result db) as Hres.
  destruct (objects_get_or_create tbl now p x db) as [db1 [[row b]|e]] eqn:E.
  - exists db1, row, b. destruct Hres as [Hf Hdb]. now repeat split.
  - exfalso. revert E. unfold objects_get_or_create.
    destruct (filter p (rows tbl db)) as [|r [|r' l]] eqn:Hf;
      [|discriminate|cbn in Hlen; lia].
    unfold bind, objects_create, ret.
    assert (Hv : violates (with_pk (next_pk (rows tbl db))
                             (auto_now now (auto_now_add now x)))
                          (rows tbl db) = false).
    { unfold violates. apply not_true_is_false. intros Hex.
      apply existsb_exists in Hex. destruct Hex as [r [Hin Hr]].
      apply andb_prop in Hr. destruct Hr as [_ Hr].
      apply clash_p in Hr.
      assert (Hin' : In r (filter p (rows tbl db)))
        by (apply filter_In; now split).
      rewrite Hf in Hin'. exact Hin'. }
    rewrite Hv. discriminate.
Qed.

Lemma get_or_create_again (now' : Z) (db : DB) (row : T) :
  filter p (rows tbl db) = [row] ->
  objects_get_or_create tbl now' p x db = (db, Ok (row, false)).
Proof. intros Hf. unfold objects_get_or_create. now rewrite Hf. Qed.
End GetOrCreate.

Lemma cart_get_or_create (now : Z) (user : nat) (db : DB) :
  match objects_get_or_create Carts now (cart_of user) (Cart.mk 0 user) db with
  | (db1, Ok (row, b)) =>
      filter (cart_of user) (carts db1) = [row]
      /\ (db1 = db \/ db1 = put_rows Carts (carts db ++ [row]) db)
  | (db1, Raise _) => db1 = db
  end.
Proof.
  apply (@get_or_create_result Cart.t Cart_Model Carts
           (fun _ _ => eq_refl) now (cart_of user) (Cart.mk 0 user)).
  - intros i. unfold cart_of. cbn. apply Nat.eqb_refl.
  - intros i r Hr. exact Hr.
Qed.

Lemma cart_item_get_or_create (now : Z) (cart course : nat) (db : DB) :
  match objects_get_or_create CartItems now (cart_item_for cart course)
          (CartItem.mk 0 cart course) db with
  | (db1, Ok (row, b)) =>
      filter (cart_item_for cart course) (cart_items db1) = [row]
      /\ (db1 = db \/ db1 = put_rows CartItems (cart_items db ++ [row]) db)
  | (db1, Raise _) => db1 = db
  end.
Proof.
  apply (@get_or_create_result CartItem.t CartItem_Model CartItems
           (fun _ _ => eq_refl) now (cart_item_for cart course)
           (CartItem.mk 0 cart course)).
  - intros i. unfold cart_item_for. cbn. now rewrite !Nat.eqb_refl.
  - intros i r Hr. exact Hr.
Qed.

Lemma cart_get_or_create_ok (now : Z) (user : nat) (db : DB) :
  List.length (filter (cart_of user) (carts db)) <= 1 ->
  exists db1 row b,
    objects_get_or_create Carts now (cart_of user) (Cart.mk 0 user) db
    = (db1, Ok (row, b))
    /\ filter (cart_of user) (carts db1) = [row]
    /\ (db1 = db \/ db1 = put_rows Carts (carts db ++ [row]) db).
Proof.
  apply (@get_or_create_ok Cart.t Cart_Model Carts
           (fun _ _ => eq_refl) now (cart_of user) (Cart.mk 0 user)).
  - intros i. unfold cart_of. cbn. apply Nat.eqb_refl.
  - intros i r Hr. exact Hr.
Qed.

Lemma cart_item_get_or_create_ok (now : Z) (cart course : nat) (db : DB) :
  List.length (filter (cart_item_for cart course) (cart_items db)) <= 1 ->
  exists db1 row b,
    objects_get_or_create CartItems now (cart_item_for cart course)
      (CartItem.mk 0 cart course) db = (db1, Ok (row, b))
    /\ filter (cart_item_for cart course) (cart_items db1) = [row]
    /\ (db1 = db \/ db1 = put_rows CartItems (cart_items db ++ [row]) db).
Proof.
  apply (@get_or_create_ok CartItem.t CartItem_Model CartItems
           (fun _ _ => eq_refl) now (cart_item_for cart course)
           (CartItem.mk 0 cart course)).
  - intros i. unfold cart_item_for. cbn. now rewrite !Nat.eqb_refl.
  - intros i r Hr. exact Hr.
Qed.

(** [add_to_cart] once the course is found and the user is not enrolled. *)
Lemma add_to_cart_eq (env : Env) (user course_id : nat) (db : DB)
      (course : Course.t) :
  filter (fun c => (Course.id c =? course_id)%nat) (courses db) = [course] ->
  existsb (same_pair user (Course.id course)) (enrollments db) = false ->
  add_to_cart env user course_id db
  = (cart <- objects_get_or_create Carts (now env) (cart_of user)
               (Cart.mk 0 user) ;;
     objects_get_or_create CartItems (now env)
       (cart_item_for (Cart.id (fst cart)) (Course.id course))
       (CartItem.mk 0 (Cart.id (fst cart)) (Course.id course)) ;;;
     ret (Redirect "courses:cart")) db.
Proof.
  intros Hc He. unfold add_to_cart.
  unfold bind at 1. unfold get_object_or_404 at 1. cbn [rows Courses].
  rewrite Hc.
  unfold bind at 1. unfold objects_exists at 1, gets. cbn [rows Enrollments].
  rewrite He. reflexivity.
Qed.

Lemma add_to_cart_env (env env' : Env) (user course_id : nat) (db : DB) :
  add_to_cart env' user course_id db = add_to_cart env user course_id db.
Proof. reflexivity. Qed.

Lemma add_to_cart_settled (env : Env) (user course_id : nat) (db : DB)
      (course : Course.t) (cart : Cart.t) (item : CartItem.t) :
  filter (fun c => (Course.id c =? course_id)%nat) (courses db) = [course] ->
  existsb (same_pair user (Course.id course)) (enrollments db) = false ->
  filter (cart_of user) (carts db) = [cart] ->
  filter (cart_item_for (Cart.id cart) (Course.id course)) (cart_items db)
  = [item] ->
  add_to_cart env user course_id db = (db, Ok (Redirect "courses:cart")).
Proof.
  intros Hc He Hcart Hitem. rewrite (add_to_cart_eq env user course_id db Hc He).
  unfold bind at 1.
  rewrite (@get_or_create_again Cart.t Cart_Model Carts (cart_of user)
             (Cart.mk 0 user) (now env) db cart Hcart).
  cbn [fst]. unfold bind.
  rewrite (@get_or_create_again CartItem.t CartItem_Model CartItems
             (cart_item_for (Cart.id cart) (Course.id course))
             (CartItem.mk 0 (Cart.id cart) (Course.id course)) (now env) db
             item Hitem).
  reflexivity.
Qed.

(** X3.  Adding a course to the cart a second time changes nothing:
    whatever the first [add_to_cart] left behind, a repeated request for
    the same user and course leaves the database as it is. *)
Theorem add_to_cart_idempotent (env env' : Env) (user course_id : nat)
        (db : DB) :
  fst (add_to_cart env' user course_id
         (fst (add_to_cart env user course_id db)))
  = fst (add_to_cart env user course_id db).
Proof.
  rewrite (add_to_cart_env env env').
  destruct (filter (fun c => (Course.id c =? course_id)%nat) (courses db))
    as [|course [|c' l]] eqn:Hc.
  1, 3: assert (H : fst (add_to_cart env user course_id db) = db)
      by (unfold add_to_cart, bind, get_object_or_404; cbn [rows Courses];
          now rewrite Hc);
    now rewrite !H.
  destruct (existsb (same_pair user (Course.id course)) (enrollments db))
    eqn:He.
  { assert (H : fst (add_to_cart env user course_id db) = db)
      by (unfold add_to_cart, bind, get_object_or_404, objects_exists, gets;
          cbn [rows Courses Enrollments]; now rewrite Hc, He).
    now rewrite !H. }
  pose proof (add_to_cart_eq env user course_id db Hc He) as Heq.
  pose proof (cart_get_or_create (now env) user db) as H1.
  unfold bind at 1 in Heq.
  destruct (objects_get_or_create Carts (now env) (cart_of user)
              (Cart.mk 0 user) db) as [db1 [[cart b]|x]].
  2: { subst db1. rewrite Heq. cbn [fst]. now rewrite Heq. }
  destruct H1 as [Hcart Hdb1]. cbn [fst] in Heq.
  assert (Hc1 : filter (fun c => (Course.id c =? course_id)%nat) (courses db1)
                = [course])
    by (destruct Hdb1 as [->| ->]; exact Hc).
  assert (He1 : existsb (same_pair user (Course.id course)) (enrollments db1)
                = false)
    by (destruct Hdb1 as [->| ->]; exact He).
  clear Hdb1.
  pose proof (cart_item_get_or_create (now env) (Cart.id cart)
                (Course.id course) db1) as H2.
  unfold bind in Heq.
  destruct (objects_get_or_create CartItems (now env)
              (cart_item_for (Cart.id cart) (Course.id course))
              (CartItem.mk 0 (Cart.id cart) (Course.id course)) db1)
    as [db2 [[item b2]|x]] eqn:E2.
  - destruct H2 as [Hitem Hdb2]. unfold ret in Heq. rewrite Heq. cbn [fst].
    rewrite (@add_to_cart_settled env user course_id db2 course cart item);
      [reflexivity| | | |exact Hitem];
      destruct Hdb2 as [->| ->]; assumption.
  - subst db2. rewrite Heq. cbn [fst].
    rewrite (add_to_cart_eq env user course_id db1 Hc1 He1).
    unfold bind at 1.
    rewrite (@get_or_create_again Cart.t Cart_Model Carts (cart_of user)
               (Cart.mk 0 user) (now env) db1 cart Hcart).
    cbn [fst]. unfold bind. now rewrite E2.
Qed.



Lemma filter_none {A : Type} (p : A -> bool) (l : list A) :
  (forall x, In x l -> p x = false) -> filter p l = [].
Proof.
  induction l as [|a l IH]; intros Hl; cbn [filter]; [reflexivity|].
  rewrite (Hl a (or_introl eq_refl)). apply IH.
  intros x Hx. apply Hl. now right.
Qed.



(** ** Totals *)

Lemma get_total_eq (cart : Cart.t) (db : DB) :
  courses_found db (items_of db (Cart.id cart)) ->
  get_total cart db
  = (db, Ok (sum_Z (map (fun i => course_price db (CartItem.course i))
                        (items_of db (Cart.id cart))))).
Proof.
  unfold get_total, items_of. unfold bind at 1. unfold objects_filter, gets.
  cbn [rows CartItems].
  induction (filter (fun i => (CartItem.cart i =? Cart.id cart)%nat)
                    (cart_items db)) as [|item l IH]; intros Hfound.
  - reflexivity.
  - destruct (Hfound item (or_introl eq_refl)) as [c Hc].
    cbv beta iota fix.
    unfold bind at 1. unfold objects_get at 1. cbn [rows Courses]. rewrite Hc.
    unfold bind at 1. rewrite IH by (intros i Hi; apply Hfound; now right).
    unfold ret. cbn [map sum_Z fold_right].
    assert (Hprice : course_price db (CartItem.course item) = Course.price c).
    { unfold course_price.
      now rewrite (@lookup_pk_filter Course.t Course_Model
                     (CartItem.course item) c (courses db) Hc). }
    rewrite Hprice. reflexivity.
Qed.

Lemma get_total_reads (cart : Cart.t) (db : DB) :
  fst (get_total cart db) = db.
Proof.
  unfold get_total. unfold bind at 1. unfold objects_filter, gets.
  cbn [rows CartItems].
  induction (filter (fun i => (CartItem.cart i =? Cart.id cart)%nat)
                    (cart_items db)) as [|item l IH].
  - reflexivity.
  - cbv beta iota fix.
    unfold bind at 1. unfold objects_get at 1. cbn [rows Courses].
    destruct (filter _ (courses db)) as [|c [|c' l']]; try reflexivity.
    unfold bind at 1.
    match goal with
    | |- fst (match ?m with _ => _ end) = _ => destruct m as [d [tot|x]] eqn:E
    end; cbn [fst] in IH; subst d; reflexivity.
Qed.

Lemma checkout_unchanged (user : nat) (db : DB) :
  fst (checkout user db) = db.
Proof.
  unfold checkout. unfold bind at 1. unfold get_object_or_404.
  cbn [rows Carts].
  destruct (filter (cart_of user) (carts db)) as [|cart [|c' l]];
    try reflexivity.
  unfold bind at 1. unfold objects_exists, gets. cbn [rows CartItems].
  destruct (negb _); [reflexivity|].
  unfold bind. pose proof (get_total_reads cart db) as Hr.
  destruct (get_total cart db) as [d [tot|x]]; exact Hr.
Qed.

(** X6.  [checkout] only reads: whatever it answers, the database is as
    before.  Without a cart the answer is a 404; with an empty cart the
    user is sent to the course list; with items whose courses are found the
    checkout page is rendered. *)
Theorem checkout_reads (user : nat) (db : DB) :
  fst (checkout user db) = db
  /\ (filter (cart_of user) (carts db) = [] ->
      snd (checkout user db) = Raise Http404)
  /\ (forall cart,
         filter (cart_of user) (carts db) = [cart] ->
         (items_of db (Cart.id cart) = [] ->
          snd (checkout user db) = Ok (Redirect "courses:courses_list"))
         /\ (items_of db (Cart.id cart) <> [] ->
             courses_found db (items_of db (Cart.id cart)) ->
             snd (checkout user db) = Ok (Render "cart/checkout.html"))).
Proof.
  assert (Hex : forall cart,
             existsb (fun i => (CartItem.cart i =? Cart.id cart)%nat)
                     (cart_items db)
             = negb (match items_of db (Cart.id cart) with
                     | [] => true | _ => false end)).
  { intros cart. unfold items_of. induction (cart_items db) as [|a l IH];
      cbn [existsb filter]; [reflexivity|].
    destruct (CartItem.cart a =? Cart.id cart)%nat; [reflexivity|exact IH]. }
  assert (Heq : forall cart,
             filter (cart_of user) (carts db) = [cart] ->
             checkout user db
             = (if match items_of db (Cart.id cart) with
                   | [] => true | _ => false end
                then ret (Redirect "courses:courses_list")
                else get_total cart ;;; ret (Render "cart/checkout.html")) db).
  { intros cart Hf. unfold checkout. unfold bind at 1.
    unfold get_object_or_404. cbn [rows Carts]. rewrite Hf.
    unfold bind at 1. unfold objects_exists, gets. cbn [rows CartItems].
    now rewrite Hex, negb_involutive. }
  split; [|split].
  - apply checkout_unchanged.
  - intros Hf. unfold checkout, bind, get_object_or_404. cbn [rows Carts].
    now rewrite Hf.
  - intros cart Hf. rewrite (Heq cart Hf). split.
    + intros ->. reflexivity.
    + intros Hne Hfound. pose proof (@get_total_eq cart db Hfound) as Ht.
      destruct (items_of db (Cart.id cart)); [contradiction|].
      unfold bind. now rewrite Ht.
Qed.

Lemma checkout_reads_witness :
  snd (checkout 8 shop) = Raise Http404
  /\ snd (checkout 7 shop) = Ok (Render "cart/checkout.html").
Proof.
  destruct (checkout_reads 8 shop) as [_ [H8 _]].
  destruct (checkout_reads 7 shop) as [_ [_ H7]].
  split; [exact (H8 eq_refl)|].
  destruct (H7 (Cart.mk 1 7) eq_refl) as [_ Hfull].
  apply Hfull; [discriminate|].
  intros i Hi. cbn in Hi. destruct Hi as [<-|[<-|[]]].
  - exists (Course.mk 1 "mining-101" 100). reflexivity.
  - exists (Course.mk 2 "blasting-201" 200). reflexivity.
Defined.

(* ------------------------------------------------------------------ *)
(** ** Starting a payment *)

Lemma violates_unconstrained {T : Type} `{Model T} (x : T) (l : list T) :
  (forall r, clashes r x = false) -> violates x l = false.
Proof.
  intros Hc. unfold violates. induction l as [|r l IH]; cbn [existsb];
    [reflexivity|].
  now rewrite Hc, andb_false_r, IH.
Qed.

Lemma put_rows_same (d : DB) : put_rows OrderItems (order_items d) d = d.
Proof. now destruct d. Qed.

(** The loop of [initiate_payment] over the cart's items. *)
Lemma order_items_loop (env : Env) (order_pk : nat) (db : DB)
      (items : list CartItem.t) :
  courses_found db items ->
  forall d, courses d = courses db ->
  exists news,
    for_each items (fun cart_item =>
      course <- objects_get Courses
                  (fun c => (Course.id c =? CartItem.course cart_item)%nat) ;;
      objects_create OrderItems (now env)
        (OrderItem.mk 0 order_pk (CartItem.course cart_item)
           (Course.price course)) ;;;
      ret tt) d
    = (put_rows OrderItems (order_items d ++ news) d, Ok tt)
    /\ map item_columns news
       = map (fun i => (order_pk, CartItem.course i,
                        course_price db (CartItem.course i))) items.
Proof.
  induction items as [|item items IH]; intros Hfound d Hd.
  - exists []. cbn [for_each map]. rewrite app_nil_r, put_rows_same.
    now split.
  - destruct (Hfound item (or_introl eq_refl)) as [c Hc].
    assert (Hprice : course_price db (CartItem.course item) = Course.price c).
    { unfold course_price.
      now rewrite (@lookup_pk_filter Course.t Course_Model
                     (CartItem.course item) c (courses db) Hc). }
    set (oi := OrderItem.mk (next_pk (order_items d)) order_pk
                 (CartItem.course item) (Course.price c)).
    destruct (IH (fun i Hi => Hfound i (or_intror Hi))
                 (put_rows OrderItems (order_items d ++ [oi]) d) Hd)
      as [news [Hloop Hcols]].
    exists (oi :: news). split.
    + cbn [for_each]. unfold bind at 1. unfold bind at 1.
      unfold objects_get at 1. cbn [rows Courses]. rewrite Hd, Hc.
      unfold bind at 1. unfold objects_create at 1. cbn [rows OrderItems].
      rewrite violates_unconstrained by reflexivity.
      change (with_pk (next_pk (order_items d)) _) with oi.
      unfold ret at 1. cbv beta iota. rewrite Hloop.
      cbn [order_items put_rows OrderItems].
      now rewrite <- app_assoc.
    + cbn [map]. rewrite Hcols, Hprice. reflexivity.
Qed.

(** What [initiate_payment] writes when there is something to pay. *)
Lemma initiate_payment_effect (env : Env) (user : nat)
        (gateway : option bool) (db : DB) (cart : Cart.t) :
  filter (fun c => (Cart.user c =? user)%nat) (carts db) = [cart] ->
  items_of db (Cart.id cart) <> [] ->
  courses_found db (items_of db (Cart.id cart)) ->
  existsb (fun o => String.eqb (Order.order_id o) (generate_order_id env))
          (orders db) = false ->
  let s := initiate_payment env user gateway db in
  exists order news,
    orders (fst s) = orders db ++ [order]
    /\ order_items (fst s) = order_items db ++ news
    /\ Order.user order = user
    /\ Order.order_id order = generate_order_id env
    /\ Order.currency order = "GHS"%string
    /\ Order.status order
       = match gateway with
         | Some true => Status.pending
         | _ => Status.failed
         end
    /\ snd s = Ok (JsonResponse match gateway with
                                | Some true => 200
                                | Some false => 400
                                | None => 500
                                end)
    /\ map item_columns news
       = map (fun i => (Order.id order, CartItem.course i,
                        course_price db (CartItem.course i)))
             (items_of db (Cart.id cart))
    /\ Order.total_amount order = sum_Z (map OrderItem.price news)
    /\ carts (fst s) = carts db
    /\ cart_items (fst s) = cart_items db
    /\ enrollments (fst s) = enrollments db
    /\ Order.id order = next_pk (orders db).
Proof.
  intros Hcart Hne Hfound Hfresh. cbv zeta.
  set (total := sum_Z (map (fun i => course_price db (CartItem.course i))
                           (items_of db (Cart.id cart)))).
  set (order := Order.mk (next_pk (orders db)) user (generate_order_id env)
                  total "GHS" Status.pending EmptyString EmptyString
                  (now env) (now env) None).
  set (db1 := put_rows Orders (orders db ++ [order]) db).
  destruct (@order_items_loop env (Order.id order) db
              (items_of db (Cart.id cart)) Hfound db1 eq_refl)
    as [news [Hloop Hcols]].
  set (db2 := put_rows OrderItems (order_items db1 ++ news) db1) in Hloop.
  assert (Htotal : total = sum_Z (map OrderItem.price news)).
  { unfold total.
    assert (Hp : map OrderItem.price news
                 = map (fun i => course_price db (CartItem.course i))
                       (items_of db (Cart.id cart))).
    { change OrderItem.price with (fun i => snd (item_columns i)).
      rewrite <- (map_map item_columns snd), Hcols, map_map. reflexivity. }
    now rewrite Hp. }
  assert (Hv : violates order (orders db) = false).
  { apply no_other_clash_no_violation. intros r Hr Hc. exfalso.
    assert (Hex : existsb (fun o => String.eqb (Order.order_id o)
                                      (generate_order_id env)) (orders db)
                  = true).
    { apply existsb_exists. exists r. split; [exact Hr|exact Hc]. }
    rewrite Hfresh in Hex. discriminate. }
  (* up to the call of the gateway *)
  assert (Hhead :
             initiate_payment env user gateway db
             = match gateway with
               | Some true => ret (JsonResponse 200)
               | Some false =>
                   save Orders (now env) (Order.set_status Status.failed order) ;;;
                   ret (JsonResponse 400)
               | None =>
                   save Orders (now env) (Order.set_status Status.failed order) ;;;
                   ret (JsonResponse 500)
               end db2).
  { unfold initiate_payment.
    unfold bind at 1. unfold get_object_or_404 at 1. cbn [rows Carts].
    rewrite Hcart.
    unfold bind at 1. unfold objects_exists at 1, gets. cbn [rows CartItems].
    fold (items_of db (Cart.id cart)).
    assert (Hex : existsb (fun i => (CartItem.cart i =? Cart.id cart)%nat)
                          (cart_items db) = true).
    { destruct (items_of db (Cart.id cart)) as [|i l] eqn:Hi;
        [contradiction|].
      apply existsb_exists. exists i.
      assert (Hin : In i (items_of db (Cart.id cart)))
        by (rewrite Hi; now left).
      unfold items_of in Hin. apply filter_In in Hin. exact Hin. }
    rewrite Hex. cbn [negb].
    unfold bind at 1. rewrite (@get_total_eq cart db Hfound). fold total.
    unfold bind at 1. unfold objects_create at 1. cbn [rows Orders].
    change (with_pk (next_pk (orders db)) _) with order.
    rewrite Hv. fold db1.
    unfold bind at 1. unfold objects_filter at 1, gets.
    cbn [rows CartItems].
    change (filter (fun i => (CartItem.cart i =? Cart.id cart)%nat)
                   (cart_items db1)) with (items_of db (Cart.id cart)).
    unfold bind at 1. rewrite Hloop. reflexivity. }
  rewrite Hhead. clear Hhead.
  assert (Hsave : forall (r : HttpResponse),
             (save Orders (now env) (Order.set_status Status.failed order) ;;;
              ret r) db2
             = (put_rows Orders
                  (orders db ++ [Order.set_status Status.failed order]) db2,
                Ok r)).
  { intros r.
    assert (Hv2 : violates (auto_now (now env)
                              (Order.set_status Status.failed order))
                           (rows Orders db2) = false).
    { apply no_other_clash_no_violation. intros r' Hr' Hc.
      cbn [rows Orders db2 db1 orders put_rows OrderItems] in Hr'.
      apply in_app_or in Hr'. destruct Hr' as [Hr'|[<-|[]]]; [|reflexivity].
      exfalso.
      assert (Hex : existsb (fun o => String.eqb (Order.order_id o)
                                        (generate_order_id env)) (orders db)
                    = true).
      { apply existsb_exists. exists r'. split; [exact Hr'|exact Hc]. }
      rewrite Hfresh in Hex. discriminate. }
    rewrite save_then by exact Hv2. unfold ret. f_equal. f_equal.
    change (rows Orders db2) with (orders db ++ [order]).
    change (auto_now (now env) (Order.set_status Status.failed order))
      with (Order.set_status Status.failed order).
    unfold upsert. rewrite has_pk_app.
    change (pk (Order.set_status Status.failed order))
      with (next_pk (orders db)).
    rewrite next_pk_fresh. unfold has_pk at 1. cbn [existsb orb].
    change (pk order) with (next_pk (orders db)). rewrite Nat.eqb_refl.
    cbn [orb]. unfold update_row. rewrite map_app.
    change (map (fun r0 => if (pk r0 =? pk (Order.set_status Status.failed order))%nat
                           then Order.set_status Status.failed order else r0)
                (orders db))
      with (update_row (Order.set_status Status.failed order) (orders db)).
    rewrite update_row_absent by apply next_pk_fresh.
    cbn [map]. change (pk order) with (next_pk (orders db)).
    change (pk (Order.set_status Status.failed order))
      with (next_pk (orders db)).
    now rewrite Nat.eqb_refl. }
  destruct gateway as [[|]|].
  - exists order, news. unfold ret. cbn [fst snd]. repeat split; auto.
  - rewrite Hsave. exists (Order.set_status Status.failed order), news.
    cbn [fst snd]. repeat split; auto.
  - rewrite Hsave. exists (Order.set_status Status.failed order), news.
    cbn [fst snd]. repeat split; auto.
Qed.






(* ------------------------------------------------------------------ *)
(** ** Confirmations that change nothing *)

(** X9.  [paystack_webhook] leaves the database alone unless it is a POST
    reporting [charge.success] for a stored order: any other method is
    answered 400, any other event and any unknown reference 200 (the
    missing order is swallowed), and nothing is written. *)
Theorem paystack_webhook_ignores (env : Env) (method : string)
        (payload : Payload) (db : DB) :
  (method <> "POST"%string ->
   paystack_webhook env method payload db = (db, Ok (JsonResponse 400)))
  /\ (method = "POST"%string ->
      event payload <> "charge.success"%string
      \/ filter (has_reference (data_reference payload)) (orders db) = [] ->
      paystack_webhook env method payload db = (db, Ok (JsonResponse 200))).
Proof.
  unfold paystack_webhook. split.
  - intros Hm. apply String.eqb_neq in Hm. now rewrite Hm.
  - intros -> Hcase. rewrite String.eqb_refl.
    destruct (String.eqb_spec (event payload) "charge.success") as [He|He].
    + destruct Hcase as [Hne|Hnone]; [contradiction|].
      cbv zeta. unfold bind at 1. unfold try_except.
      unfold bind at 1. unfold objects_get. cbn [rows Orders].
      change (filter (fun o => String.eqb (Order.order_id o)
                                 (data_reference payload)) (orders db))
        with (filter (has_reference (data_reference payload)) (orders db)).
      rewrite Hnone. reflexivity.
    + reflexivity.
Qed.

Lemma paystack_webhook_ignores_witness :
  paystack_webhook checkout_env "GET" (mkPayload "charge.success" "ORD-1" "1" "card")
                   shop_ordered
  = (shop_ordered, Ok (JsonResponse 400))
  /\ paystack_webhook checkout_env "POST"
       (mkPayload "charge.success" "ORD-1" "1" "card") shop_ordered
     = (shop_ordered, Ok (JsonResponse 200)).
Proof.
  split.
  - apply paystack_webhook_ignores. discriminate.
  - apply paystack_webhook_ignores; [reflexivity|]. right. reflexivity.
Defined.

(** X10.  [payment_verify] never lets an exception out: every call ends in
    a response.  A reference that names no order of the requesting user --
    unknown, or the order of someone else -- leads back to the cart with
    nothing written, and so does a gateway call that raises, whatever the
    order. *)
Theorem payment_verify_guarded (env : Env) (user : nat)
        (reference : option string) (gateway : option VerifyResult) (db : DB) :
  (exists response,
      snd (payment_verify env user reference gateway db) = Ok response)
  /\ (forall r,
         reference = Some r ->
         filter (fun o => String.eqb (Order.order_id o) r
                          && (Order.user o =? user)%nat) (orders db) = [] ->
         payment_verify env user reference gateway db
         = (db, Ok (Redirect "courses:cart")))
  /\ (gateway = None ->
      payment_verify env user reference gateway db
      = (db, Ok (Redirect "courses:cart"))).
Proof.
  split; [|split].
  - unfold payment_verify. destruct reference as [[|c r]|];
      [now eexists| |now eexists].
    unfold try_except.
    match goal with
    | |- context [match ?m db with _ => _ end] =>
        destruct (m db) as [s' [a|e]]
    end; now eexists.
  - intros r -> Hnone. unfold payment_verify.
    destruct r as [|c r]; [reflexivity|].
    unfold try_except. unfold bind at 1. unfold objects_get.
    cbn [rows Orders]. now rewrite Hnone.
  - intros ->. unfold payment_verify.
    destruct reference as [[|c r]|]; try reflexivity.
    unfold try_except. unfold bind at 1. unfold objects_get.
    cbn [rows Orders].
    destruct (filter _ (orders db)) as [|o [|o' l]]; reflexivity.
Qed.

Lemma payment_verify_guarded_witness :
  payment_verify (env_at 1500 "9f1b2c3d") 8 (Some shop_reference)
    (Some (mkVerifyResult true (Some (mkVerifyData "success" "4099" "card"))))
    shop_ordered
  = (shop_ordered, Ok (Redirect "courses:cart")).
Proof.
  apply (proj1 (proj2 (payment_verify_guarded (env_at 1500 "9f1b2c3d") 8
                         (Some shop_reference)
                         (Some (mkVerifyResult true
                                  (Some (mkVerifyData "success" "4099" "card"))))
                         shop_ordered)) shop_reference);
    reflexivity.
Defined.

(* ------------------------------------------------------------------ *)
(** ** The status of an order in the back office *)

Lemma of_string_some (s : string) (st : Status.t) :
  Status.of_string s = Some st -> s = Status.to_string st.
Proof.
  unfold Status.of_string. intros Hf. apply find_some in Hf.
  destruct Hf as [_ Hf]. apply String.eqb_eq in Hf. now symmetry.
Qed.

(** X11.  [admin_update_order_status] writes only for a POST that carries
    the name of one of the five statuses: for any other method, a missing
    status, or a status that is not one of those names, the database is
    left as it is. *)
Theorem admin_update_order_status_rejects (env : Env) (method : string)
        (order_id : string) (new_status : option string) (db : DB) :
  method <> "POST"%string
  \/ (forall st, new_status <> Some (Status.to_string st)) ->
  fst (admin_update_order_status env method order_id new_status db) = db.
Proof.
  intros Hcase. unfold admin_update_order_status.
  destruct (String.eqb_spec method "POST") as [Hm|Hm].
  - destruct Hcase as [Hne|Hbad]; [contradiction|].
    unfold bind at 1. unfold bind at 1. unfold get_object_or_404.
    cbn [rows Orders].
    destruct (filter _ (orders db)) as [|o [|o' l]]; try reflexivity.
    destruct new_status as [s|]; [|reflexivity].
    destruct (Status.of_string s) as [st|] eqn:Hs; [|reflexivity].
    exfalso. apply (Hbad st). f_equal. now apply of_string_some.
  - reflexivity.
Qed.

Lemma admin_update_order_status_rejects_witness :
  fst (admin_update_order_status checkout_env "POST" shop_reference
         (Some "paid"%string) shop_ordered) = shop_ordered.
Proof.
  apply admin_update_order_status_rejects. right.
  intros [] [= H].
Defined.

(* ------------------------------------------------------------------ *)
(** ** What a fulfilment leaves behind *)

(** X19.  A fulfilment -- by the webhook or by the verification page --
    of an order that its reference and its key identify, on an enrollment
    table respecting (student, course) uniqueness.  The stored order then
    carries the gateway's transaction id as payment reference, the channel
    as payment method and the time of the call as completion time; its
    owner, identifier, total, currency and creation time are as before.
    The buyer's carts are deleted and no item of a deleted cart remains;
    the carts of other users, the order items, the certificates and the
    lesson progress are untouched. *)
Theorem fulfilment_settles (env : Env) (reference : string) (tr : trigger)
        (db : DB) (order : Order.t) :
  filter (has_reference reference) (orders db) = [order] ->
  filter (fun o => (Order.id o =? Order.id order)%nat) (orders db) = [order] ->
  reaches tr reference order ->
  distinct_pairs (enrollments db) = true ->
  let db' := fst (fulfil env reference tr db) in
  lookup_pk (Order.id order) (orders db')
  = Some (Order.mk (Order.id order) (Order.user order) (Order.order_id order)
            (Order.total_amount order) (Order.currency order)
            Status.completed (trigger_id tr) (trigger_channel tr)
            (Order.created_at order) (now env) (Some (now env)))
  /\ carts db'
     = filter (fun c => negb (Cart.user c =? Order.user order)%nat) (carts db)
  /\ (forall i, In i (cart_items db') <->
                In i (cart_items db)
                /\ forall c, In c (carts db) ->
                             Cart.user c = Order.user order ->
                             CartItem.cart i <> Cart.id c)
  /\ order_items db' = order_items db
  /\ certificates db' = certificates db
  /\ lesson_progress db' = lesson_progress db.
Proof.
  intros Hf Hk Hr Hd. cbv zeta.
  rewrite (@fulfil_eq env reference tr db order Hf Hr). cbv zeta.
  set (order' := paid (now env) (trigger_id tr) (trigger_channel tr) order).
  set (db1 := put_rows Orders (update_row order' (orders db)) db).
  assert (Hd1 : distinct_pairs (enrollments db1) = true) by exact Hd.
  destruct (@enroll_in_items_ok env order' db1 Hd1)
    as [db2 [Hrun [_ [Hput _]]]].
  rewrite Hrun. unfold delete_carts_of, modify. cbn [fst].
  rewrite Hput.
  cbn [orders carts cart_items order_items certificates lesson_progress
       put_rows Carts CartItems Enrollments db1 Orders].
  destruct (filter_singleton _ _ Hf) as [Hpo Hin].
  destruct (@filter_update_row_singleton Order.t Order_Model
              (has_reference reference) order order' (orders db) Hf Hk
              eq_refl Hpo) as [_ Hk'].
  split.
  { exact (@lookup_pk_filter Order.t Order_Model (Order.id order) order'
             (update_row order' (orders db)) Hk'). }
  split; [reflexivity|]. split; [|now repeat split].
  intros i. rewrite filter_In, negb_true_iff.
  split; intros [Hi Hno]; (split; [exact Hi|]).
  - intros c Hc Hu Heq.
    assert (Hh : has_pk (CartItem.cart i)
                   (filter (fun c0 => (Cart.user c0 =? Order.user order)%nat)
                           (carts db)) = true).
    { apply has_pk_true. exists c. split; [|now symmetry].
      apply filter_In. split; [exact Hc|]. now apply Nat.eqb_eq. }
    rewrite Hno in Hh. discriminate.
  - apply not_true_is_false. intros Hh. apply has_pk_true in Hh.
    destruct Hh as [c [Hc Hpk]]. apply filter_In in Hc.
    destruct Hc as [Hc Hu]. apply Nat.eqb_eq in Hu.
    apply (Hno c Hc Hu). now symmetry.
Qed.

Lemma fulfilment_settles_witness :
  carts (fst (fulfil (env_at 2000 "5c0ffee0") shop_reference
                (ViaWebhook "4099" "card") shop_ordered)) = []
  /\ cart_items (fst (fulfil (env_at 2000 "5c0ffee0") shop_reference
                        (ViaWebhook "4099" "card") shop_ordered)) = [].
Proof.
  destruct (@fulfilment_settles (env_at 2000 "5c0ffee0") shop_reference
              (ViaWebhook "4099" "card") shop_ordered
              (Order.mk 1 7 shop_reference 300 "GHS" Status.pending "" ""
                        1000 1000 None)
              eq_refl eq_refl I eq_refl) as [_ [Hc [Hi _]]].
  split; [exact Hc|].
  destruct (cart_items _) as [|i l] eqn:Hl; [reflexivity|]. exfalso.
  destruct (proj1 (Hi i) (or_introl eq_refl)) as [Hin Hno].
  cbn in Hin. destruct Hin as [<-|[<-|[]]];
    exact (Hno (Cart.mk 1 7) (or_introl eq_refl) eq_refl eq_refl).
Defined.

(* ------------------------------------------------------------------ *)
(** ** From the cart to the enrollments *)

(** X24.  A purchase, end to end.  A user with one cart whose items each
    point to one stored course starts the payment, at a moment whose
    generated order identifier is unused and on an enrollment table
    respecting (student, course) uniqueness; the gateway accepts, and
    then confirms the charge for that identifier -- by the webhook, or by
    the user's return to the verification page.  Afterwards the user is
    enrolled in the course of every item that was in the cart, the user's
    cart is gone, and the one order with that identifier is completed with
    the sum of the courses' prices as its total. *)
Theorem purchase_enrolls (env env2 : Env) (user : nat) (tr : trigger)
        (db : DB) (cart : Cart.t) :
  filter (fun c => (Cart.user c =? user)%nat) (carts db) = [cart] ->
  items_of db (Cart.id cart) <> [] ->
  courses_found db (items_of db (Cart.id cart)) ->
  existsb (fun o => String.eqb (Order.order_id o) (generate_order_id env))
          (orders db) = false ->
  distinct_pairs (enrollments db) = true ->
  match tr with ViaWebhook _ _ => True | ViaVerify u _ _ => u = user end ->
  let db1 := fst (initiate_payment env user (Some true) db) in
  let db2 := fst (fulfil env2 (generate_order_id env) tr db1) in
  (forall i, In i (items_of db (Cart.id cart)) ->
             existsb (same_pair user (CartItem.course i)) (enrollments db2)
             = true)
  /\ filter (fun c => (Cart.user c =? user)%nat) (carts db2) = []
  /\ exists order,
       filter (has_reference (generate_order_id env)) (orders db2) = [order]
       /\ Order.user order = user
       /\ Order.status order = Status.completed
       /\ Order.total_amount order
          = sum_Z (map (fun i => course_price db (CartItem.course i))
                       (items_of db (Cart.id cart))).
Proof.
  intros Hcart Hne Hfound Hfresh Hd Htr. cbv zeta.
  destruct (@initiate_payment_effect env user (Some true) db cart Hcart Hne
              Hfound Hfresh)
    as (order & news & Ho & Hi & Hu & Hoid & _ & _ & _ & Hcols & Htot & _
        & _ & He & Hpk).
  cbv zeta in Ho, Hi, He.
  set (db1 := fst (initiate_payment env user (Some true) db)) in *.
  set (ref := generate_order_id env) in *.
  assert (Hf : filter (has_reference ref) (orders db1) = [order]).
  { rewrite Ho, filter_app.
    assert (Hold : filter (has_reference ref) (orders db) = [])
      by exact (existsb_false_filter _ _ Hfresh).
    rewrite Hold. cbn [filter app].
    unfold has_reference. now rewrite Hoid, String.eqb_refl. }
  assert (Hk : filter (fun o => (Order.id o =? Order.id order)%nat)
                      (orders db1) = [order]).
  { rewrite Ho, filter_app.
    pose proof (@next_pk_fresh Order.t Order_Model (orders db)) as Hnf.
    unfold has_pk in Hnf. rewrite Hpk.
    assert (Hold : filter (fun o => (Order.id o =? next_pk (orders db))%nat)
                          (orders db) = [])
      by exact (existsb_false_filter _ _ Hnf).
    rewrite Hold. cbn [filter app].
    rewrite <- Hpk. now rewrite Nat.eqb_refl. }
  assert (Hr : reaches tr ref order).
  { destruct tr as [i c|u i c]; [exact I|]. split; [now rewrite Hu|].
    unfold ref, generate_order_id. cbn. discriminate. }
  assert (Hd1 : distinct_pairs (enrollments db1) = true) by now rewrite He.
  destruct (@fulfil_once env2 ref tr db1 order Hf Hk Hr Hd1)
    as [db2 [Hrun [Hf2 [_ [_ [_ [_ [Hin Hcarts]]]]]]]].
  rewrite Hrun. cbn [fst]. rewrite Hu in Hin, Hcarts.
  split; [|split; [exact Hcarts|]].
  - intros i Hiin. apply Hin. unfold ordered_courses. rewrite Hi, filter_app,
      map_app. apply in_or_app. right.
    assert (Hall : forall n, In n news ->
               OrderItem.order n = Order.id order).
    { intros n Hn.
      assert (Hc : In (item_columns n) (map item_columns news))
        by now apply in_map.
      rewrite Hcols in Hc. apply in_map_iff in Hc.
      destruct Hc as [j [Hj _]]. unfold item_columns in Hj.
      now injection Hj as -> _ _. }
    assert (Hkeep : filter (fun n => (OrderItem.order n =? Order.id order)%nat)
                           news = news).
    { clear -Hall. induction news as [|n l IH]; cbn [filter]; [reflexivity|].
      rewrite (Hall n (or_introl eq_refl)), Nat.eqb_refl. f_equal.
      apply IH. intros m Hm. apply Hall. now right. }
    rewrite Hkeep.
    assert (Hcs : map OrderItem.course news
                  = map CartItem.course (items_of db (Cart.id cart))).
    { change OrderItem.course with (fun n => snd (fst (item_columns n))).
      rewrite <- (map_map item_columns (fun t => snd (fst t))), Hcols, map_map.
      reflexivity. }
    rewrite Hcs. now apply in_map.
  - eexists. split; [exact Hf2|]. split; [exact Hu|]. split; [reflexivity|].
    cbn [paid Order.total_amount]. rewrite Htot.
    f_equal.
    change OrderItem.price with (fun n => snd (item_columns n)).
    rewrite <- (map_map item_columns snd), Hcols, map_map. reflexivity.
Qed.

Lemma purchase_enrolls_witness :
  let db1 := fst (initiate_payment checkout_env 7 (Some true) shop) in
  let db2 := fst (fulfil (env_at 2000 "6c0ffee0") (generate_order_id checkout_env)
                    (ViaVerify 7 "4099" "card") db1) in
  existsb (same_pair 7 1) (enrollments db2) = true
  /\ existsb (same_pair 7 2) (enrollments db2) = true
  /\ filter (fun c => (Cart.user c =? 7)%nat) (carts db2) = [].
Proof.
  cbv zeta.
  destruct (@purchase_enrolls checkout_env (env_at 2000 "6c0ffee0") 7
              (ViaVerify 7 "4099" "card") shop (Cart.mk 1 7) eq_refl)
    as [Hen [Hc _]].
  - discriminate.
  - intros i Hi. cbn in Hi. destruct Hi as [<-|[<-|[]]].
    + exists (Course.mk 1 "mining-101" 100). reflexivity.
    + exists (Course.mk 2 "blasting-201" 200). reflexivity.
  - reflexivity.
  - reflexivity.
  - reflexivity.
  - split; [|split; [|exact Hc]].
    + exact (Hen (CartItem.mk 1 1 1) (or_introl eq_refl)).
    + exact (Hen (CartItem.mk 2 1 2) (or_intror (or_introl eq_refl))).
Defined.

(* ------------------------------------------------------------------ *)
(** ** Generated identifiers *)

Lemma length_substring_0 (n : nat) (s : string) :
  String.length (substring 0 n s) = Nat.min n (String.length s).
Proof.
  revert s. induction n as [|n IH]; intros [|c s]; cbn; auto.
Qed.

Lemma length_upper (s : string) : String.length (upper s) = String.length s.
Proof. induction s as [|c s IH]; cbn; auto. Qed.

Lemma upper_ascii_not_lowercase (c : ascii) : lowercase (upper_ascii c) = false.
Proof.
  unfold upper_ascii, lowercase.
  pose proof (nat_ascii_bounded c) as Hb.
  destruct ((97 <=? nat_of_ascii c)%nat && (nat_of_ascii c <=? 122)%nat)
    eqn:Hl.
  - apply andb_prop in Hl. destruct Hl as [H1 H2].
    apply Nat.leb_le in H1, H2.
    rewrite nat_ascii_embedding by lia.
    apply andb_false_iff. left. apply Nat.leb_gt. lia.
  - exact Hl.
Qed.

Lemma upper_idem (s : string) : upper (upper s) = upper s.
Proof.
  induction s as [|c s IH]; cbn [upper]; [reflexivity|].
  rewrite IH. f_equal.
  pose proof (upper_ascii_not_lowercase c) as Hn.
  unfold lowercase in Hn. unfold upper_ascii at 1. now rewrite Hn.
Qed.

(** X12.  The identifiers generated for certificates and orders end in the
    same token: the first eight characters of the UUID in upper case.  It
    is eight characters long (shorter only if the UUID string is), holds no
    lowercase ASCII letter, and is unchanged by a further [upper()]; the
    certificate identifier is [CERT-], the month stamp, [-] and the token,
    the order identifier [ORD-], the time stamp, [-] and the token. *)
Theorem generated_identifiers (env : Env) :
  exists token,
    generate_certificate_id_static env
    = ("CERT-" ++ strftime_Ym env ++ "-" ++ token)%string
    /\ generate_order_id env
       = ("ORD-" ++ strftime_YmdHMS env ++ "-" ++ token)%string
    /\ String.length token = Nat.min 8 (String.length (uuid4 env))
    /\ string_forallb (fun c => negb (lowercase c)) token = true
    /\ upper token = token.
Proof.
  exists (upper (substring 0 8 (uuid4 env))).
  split; [reflexivity|]. split; [reflexivity|].
  split; [now rewrite length_upper, length_substring_0|].
  split; [|apply upper_idem].
  induction (substring 0 8 (uuid4 env)) as [|c s IH]; cbn [upper string_forallb];
    [reflexivity|].
  now rewrite upper_ascii_not_lowercase, IH.
Qed.

(* ------------------------------------------------------------------ *)
(** ** Certificates that are never issued *)



(** X14.  When the identifier generated for the certificate is already in
    use by a certificate of another pair, the recalculation that completes
    an enrollment stores the completion and then fails: it raises
    [IntegrityError], the stored enrollment is completed with percentage
    100, and no certificate is created. *)
Theorem completion_with_identifier_in_use (env : Env) (db : DB)
        (e : Enrollment.t) :
  Enrollment.completed e = false ->
  violates e (enrollments db) = false ->
  let n := total_lessons db (Enrollment.course e) in
  (0 < n < 2 ^ 53)%Z ->
  completed_lessons db (Enrollment.student e) (Enrollment.course e) = n ->
  existsb (cert_for (Enrollment.student e) (Enrollment.course e))
          (certificates db) = false ->
  existsb (fun r => String.eqb (Certificate.certificate_id r)
                               (generate_certificate_id_static env))
          (certificates db) = true ->
  let s := calculate_progress env (db, e) in
  snd s = Raise IntegrityError
  /\ certificates (fst (fst s)) = certificates db
  /\ exists row,
       lookup_pk (Enrollment.id e) (enrollments (fst (fst s))) = Some row
       /\ Enrollment.completed row = true
       /\ Enrollment.completed_at row = Some (now env)
       /\ Enrollment.progress_percentage row = 100%Z.
Proof.
  intros Hc Hv n Hn Hk Hnone Hused. cbv zeta.
  destruct (@percentage_bounds n n ltac:(lia) Hn) as [p [Hp [_ Hiff]]].
  assert (Hp100 : p = 100%Z) by now apply Hiff.
  subst p.
  rewrite calculate_progress_eq. cbv zeta. fold n. rewrite Hk.
  destruct (Z.eqb_spec n 0) as [H0|_]; [lia|].
  rewrite Hp, Hc. cbn [negb andb Z.eqb Pos.eqb].
  set (e2 := Enrollment.set_completed_at (Some (now env))
               (Enrollment.set_completed true
                  (Enrollment.set_progress_percentage 100 e))).
  change (violates e2 (enrollments db)) with (violates e (enrollments db)).
  rewrite Hv. rewrite issue_certificate_eq. cbv zeta.
  change (certificates (saved e2 db)) with (certificates db).
  change (Enrollment.completed e2) with true.
  change (Enrollment.student e2) with (Enrollment.student e).
  change (Enrollment.course e2) with (Enrollment.course e).
  rewrite Hnone. cbn [andb negb].
  assert (Hclash : violates (Certificate.mk
                      (next_pk (certificates db)) (Enrollment.student e)
                      (Enrollment.course e)
                      (generate_certificate_id_static env) (now env) None)
                      (certificates db) = true).
  { unfold violates. apply existsb_exists.
    apply existsb_exists in Hused. destruct Hused as [r [Hin Hr]].
    exists r. split; [exact Hin|].
    cbn [clashes Certificate_Model Certificate.certificate_id pk
         Certificate.id].
    rewrite Hr. cbn [orb]. rewrite andb_true_r.
    apply negb_true_iff. apply Nat.eqb_neq.
    pose proof (@next_pk_fresh Certificate.t Certificate_Model
                  (certificates db)) as Hfresh.
    intros Heq. unfold has_pk in Hfresh.
    assert (Hex : existsb (fun r0 => (pk r0 =? next_pk (certificates db))%nat)
                          (certificates db) = true).
    { apply existsb_exists. exists r. split; [exact Hin|].
      apply Nat.eqb_eq. exact Heq. }
    rewrite Hfresh in Hex. discriminate. }
  rewrite Hclash. cbn [fst snd].
  split; [reflexivity|]. split; [reflexivity|].
  exists e2. split; [|now repeat split].
  rewrite enrollments_saved. exact (lookup_pk_upsert e2 (enrollments db)).
Qed.

Lemma completion_with_identifier_in_use_witness :
  let s := calculate_progress (env_at 2000 "7b2a9c1e-52d1-4c0a-9d3e-0123456789ab")
             (campus_identifier_taken, classroom_enrollment) in
  snd s = Raise IntegrityError
  /\ certificates (fst (fst s)) = certificates campus_identifier_taken.
Proof.
  cbv zeta.
  destruct (@completion_with_identifier_in_use
              (env_at 2000 "7b2a9c1e-52d1-4c0a-9d3e-0123456789ab")
              campus_identifier_taken classroom_enrollment
              eq_refl eq_refl ltac:(vm_compute; split; reflexivity)
              eq_refl eq_refl eq_refl) as [H1 [H2 _]].
  split; assumption.
Defined.

(* ------------------------------------------------------------------ *)
(** ** Editing a course in the back office *)


Lemma put_lessons_sections (ll : list Lesson.t) (ls : list CourseSection.t)
      (ll' : list Lesson.t) (ls' : list CourseSection.t) (d : DB) :
  put_rows Lessons ll' (put_rows Sections ls' (put_rows Lessons ll
                          (put_rows Sections ls d)))
  = put_rows Lessons ll' (put_rows Sections ls' d).
Proof. reflexivity. Qed.

(** The inner loop of [admin_edit_course]: the lessons of one section. *)
Lemma create_lessons_loop (env : Env) (spk : nat) (flags : list bool) :
  forall d,
  exists newl,
    for_each flags (fun is_preview =>
      objects_create Lessons (now env) (Lesson.mk 0 spk is_preview) ;;;
      ret tt) d
    = (put_rows Lessons (lessons d ++ newl) d, Ok tt)
    /\ Forall (fun l => Lesson.section l = spk) newl
    /\ List.length newl = List.length flags.
Proof.
  induction flags as [|b flags IH]; intros d.
  - exists []. cbn [for_each]. rewrite app_nil_r.
    split; [now destruct d|]. split; [constructor|reflexivity].
  - set (nl := Lesson.mk (next_pk (lessons d)) spk b).
    destruct (IH (put_rows Lessons (lessons d ++ [nl]) d))
      as [newl [Hloop [Hsec Hlen]]].
    exists (nl :: newl). split; [|split].
    + cbn [for_each]. unfold bind at 1. unfold bind at 1.
      unfold objects_create at 1. cbn [rows Lessons].
      rewrite violates_unconstrained by reflexivity.
      change (with_pk (next_pk (lessons d)) _) with nl.
      unfold ret at 1. cbv beta iota. rewrite Hloop.
      cbn [lessons put_rows Lessons]. now rewrite <- app_assoc.
    + constructor; [reflexivity|exact Hsec].
    + cbn [List.length]. now rewrite Hlen.
Qed.

(** The outer loop: the posted sections, each with its lessons. *)
Lemma create_sections_loop (env : Env) (cid : nat) (data : list (list bool)) :
  forall d,
  exists news newl,
    for_each data (fun section_data =>
      section <- objects_create Sections (now env) (CourseSection.mk 0 cid) ;;
      for_each section_data (fun is_preview =>
        objects_create Lessons (now env)
          (Lesson.mk 0 (CourseSection.id section) is_preview) ;;;
        ret tt)) d
    = (put_rows Lessons (lessons d ++ newl)
         (put_rows Sections (sections d ++ news) d), Ok tt)
    /\ Forall (fun s => CourseSection.course s = cid
                        /\ has_pk (CourseSection.id s) (sections d) = false)
              news
    /\ Forall (fun l => has_pk (Lesson.section l) news = true) newl
    /\ List.length newl = List.length (List.concat data).
Proof.
  induction data as [|flags data IH]; intros d.
  - exists [], []. cbn [for_each]. rewrite !app_nil_r.
    split; [now destruct d|]. repeat split; constructor.
  - set (ns := CourseSection.mk (next_pk (sections d)) cid).
    set (d1 := put_rows Sections (sections d ++ [ns]) d).
    destruct (create_lessons_loop env (CourseSection.id ns) flags d1)
      as [nl1 [Hin [Hsec1 Hlen1]]].
    set (d2 := put_rows Lessons (lessons d1 ++ nl1) d1) in Hin.
    destruct (IH d2) as [news [newl [Hloop [Hnews [Hnewl Hlen]]]]].
    exists (ns :: news), (nl1 ++ newl). split; [|split; [|split]].
    + cbn [for_each]. unfold bind at 1. unfold bind at 1.
      unfold objects_create at 1. cbn [rows Sections].
      rewrite violates_unconstrained by reflexivity.
      change (with_pk (next_pk (sections d)) _) with ns. fold d1.
      rewrite Hin. rewrite Hloop.
      unfold d2, d1. cbn [lessons sections put_rows Lessons Sections].
      now rewrite <- !app_assoc.
    + constructor.
      * split; [reflexivity|]. apply next_pk_fresh.
      * eapply Forall_impl; [|exact Hnews]. intros s [Hc Hf].
        split; [exact Hc|].
        unfold d2, d1 in Hf. cbn [sections put_rows Lessons Sections] in Hf.
        rewrite has_pk_app in Hf. now apply orb_false_iff in Hf.
    + apply Forall_app. split.
      * eapply Forall_impl; [|exact Hsec1]. intros l Hl.
        cbn [has_pk existsb]. change (pk ns) with (CourseSection.id ns).
        rewrite Hl, Nat.eqb_refl. reflexivity.
      * eapply Forall_impl; [|exact Hnewl]. intros l Hl.
        change (ns :: news) with ([ns] ++ news).
        rewrite has_pk_app, Hl. apply orb_true_r.
    + cbn [List.concat]. rewrite !List.length_app. now rewrite Hlen1, Hlen.
Qed.

(** X15.  Saving the edit form of a course replaces its content and
    discards what students did in it.  On a database whose lessons point to
    stored sections and whose progress rows point to stored lessons, after
    [admin_edit_course] the course has exactly the posted lessons, and no
    student has a completed lesson in it any more -- also when the posted
    content is the content the course had.  The enrollments are not
    touched. *)
Theorem admin_edit_course_resets (env : Env) (course_id : nat)
        (sections_data : list (list bool)) (db : DB) (course : Course.t) :
  filter (fun c => (Course.id c =? course_id)%nat) (courses db) = [course] ->
  lessons_have_sections db = true ->
  progress_has_lessons db = true ->
  let s := admin_edit_course env course_id sections_data db in
  snd s = Ok (Redirect "courses:admin_course_detail")
  /\ total_lessons (fst s) course_id
     = Z.of_nat (List.length (List.concat sections_data))
  /\ (forall student, completed_lessons (fst s) student course_id = 0%Z)
  /\ enrollments (fst s) = enrollments db.
Proof.
  intros Hc Hfk1 Hfk2. cbv zeta.
  destruct (filter_singleton _ _ Hc) as [Hid _]. apply Nat.eqb_eq in Hid.
  set (gone_s := filter (fun s => (CourseSection.course s =? Course.id course)%nat)
                        (sections db)).
  set (gone_l := filter (fun l => has_pk (Lesson.section l) gone_s) (lessons db)).
  set (rs := filter (fun s => negb (CourseSection.course s =? Course.id course)%nat)
                    (sections db)).
  set (rl := filter (fun l => negb (has_pk (Lesson.section l) gone_s))
                    (lessons db)).
  set (rp := filter (fun p => negb (has_pk (LessonProgress.lesson p) gone_l))
                    (lesson_progress db)).
  set (db0 := put_rows Sections rs
                (put_rows Lessons rl (put_rows LessonProgresses rp db))).
  destruct (create_sections_loop env (Course.id course) sections_data db0)
    as [news [newl [Hloop [Hnews [Hnewl Hlen]]]]].
  set (db' := put_rows Lessons (lessons db0 ++ newl)
                (put_rows Sections (sections db0 ++ news) db0)) in Hloop.
  assert (Hs : admin_edit_course env course_id sections_data db
               = (db', Ok (Redirect "courses:admin_course_detail"))).
  { unfold admin_edit_course. unfold bind at 1. unfold get_object_or_404.
    cbn [rows Courses]. rewrite Hc.
    unfold bind at 1. unfold delete_sections_of, modify. cbv zeta.
    fold gone_s. fold gone_l. fold rs. fold rl. fold rp.
    change (put_rows Sections _ _) with db0.
    unfold bind at 1. rewrite Hloop. reflexivity. }
  rewrite Hs. cbn [fst snd]. clear Hs Hloop.
  assert (Hsec : sections db' = rs ++ news) by reflexivity.
  assert (Hles : lessons db' = rl ++ newl) by reflexivity.
  assert (Hpro : lesson_progress db' = rp) by reflexivity.
  (* a lesson that stays belongs to a section that stays *)
  assert (Hstay : forall l, In l rl ->
             lesson_in_course db' (Course.id course) l = false).
  { intros l Hl. unfold rl in Hl. apply filter_In in Hl.
    destruct Hl as [Hin Hng]. apply negb_true_iff in Hng.
    unfold lessons_have_sections in Hfk1. rewrite forallb_forall in Hfk1.
    specialize (Hfk1 l Hin). apply has_pk_true in Hfk1.
    destruct Hfk1 as [s [Hsin Hspk]].
    assert (Hsrs : In s rs).
    { unfold rs. apply filter_In. split; [exact Hsin|].
      apply negb_true_iff. apply not_true_is_false. intros Hcs.
      assert (Hg : has_pk (Lesson.section l) gone_s = true).
      { apply has_pk_true. exists s. split; [|exact Hspk].
        unfold gone_s. apply filter_In. now split. }
      rewrite Hng in Hg. discriminate. }
    assert (Hh : has_pk (Lesson.section l) rs = true)
      by (apply has_pk_true; now exists s).
    destruct (has_pk_lookup _ _ Hh) as [s' Hs'].
    unfold lesson_in_course, lesson_course. rewrite Hsec, lookup_pk_app, Hs'.
    cbn [option_map]. apply lookup_pk_some in Hs'. destruct Hs' as [Hs' _].
    unfold rs in Hs'. apply filter_In in Hs'. destruct Hs' as [_ Hs'].
    now apply negb_true_iff in Hs'. }
  (* a new lesson belongs to a new section *)
  assert (Hnew : forall l, In l newl ->
             lesson_in_course db' (Course.id course) l = true).
  { intros l Hl. rewrite Forall_forall in Hnewl, Hnews.
    specialize (Hnewl l Hl).
    assert (Hh := Hnewl). apply has_pk_true in Hh.
    destruct Hh as [ns [Hns Hpk]].
    destruct (Hnews ns Hns) as [_ Hfresh].
    change (pk ns) with (CourseSection.id ns) in Hpk. rewrite Hpk in Hfresh.
    destruct (has_pk_lookup _ _ Hnewl) as [ns' Hl'].
    unfold lesson_in_course, lesson_course.
    rewrite Hsec, lookup_pk_app.
    change (sections db0) with rs in Hfresh.
    rewrite (lookup_pk_none _ _ Hfresh), Hl'. cbn [option_map].
    apply lookup_pk_some in Hl'. destruct Hl' as [Hl' _].
    destruct (Hnews ns' Hl') as [Hcid _]. rewrite Hcid. apply Nat.eqb_refl. }
  rewrite <- Hid.
  split; [reflexivity|]. split; [|split; [|reflexivity]].
  - unfold total_lessons. rewrite Hles, filter_app, List.length_app.
    assert (H1 : filter (lesson_in_course db' (Course.id course)) rl = [])
      by (apply filter_none; exact Hstay).
    assert (H2 : filter (lesson_in_course db' (Course.id course)) newl = newl).
    { clear -Hnew. induction newl as [|a l IH]; cbn [filter]; [reflexivity|].
      rewrite (Hnew a (or_introl eq_refl)). f_equal. apply IH.
      intros x Hx. apply Hnew. now right. }
    rewrite H1, H2, Hlen. reflexivity.
  - intros student. unfold completed_lessons. rewrite Hpro.
    rewrite filter_none; [reflexivity|].
    intros p Hp. unfold rp in Hp. apply filter_In in Hp.
    destruct Hp as [Hin Hng]. apply negb_true_iff in Hng.
    unfold progress_has_lessons in Hfk2. rewrite forallb_forall in Hfk2.
    specialize (Hfk2 p Hin). apply has_pk_true in Hfk2.
    destruct Hfk2 as [l [Hlin Hlpk]].
    assert (Hlrl : In l rl).
    { unfold rl. apply filter_In. split; [exact Hlin|].
      apply negb_true_iff. apply not_true_is_false. intros Hg.
      assert (Hg' : has_pk (LessonProgress.lesson p) gone_l = true).
      { apply has_pk_true. exists l. split; [|exact Hlpk].
        unfold gone_l. apply filter_In. now split. }
      rewrite Hng in Hg'. discriminate. }
    assert (Hh : has_pk (LessonProgress.lesson p) rl = true)
      by (apply has_pk_true; now exists l).
    destruct (has_pk_lookup _ _ Hh) as [l' Hl'].
    unfold completed_in_course. rewrite Hles, lookup_pk_app, Hl'.
    apply lookup_pk_some in Hl'. destruct Hl' as [Hl' _].
    rewrite (Hstay l' Hl'). now rewrite andb_false_r.
Qed.

Lemma admin_edit_course_resets_witness :
  let s := admin_edit_course (env_at 3000 "00000000-0000-4000-8000-000000000000")
             1 [[false]] campus_completed in
  total_lessons (fst s) 1 = 1%Z /\ completed_lessons (fst s) 7 1 = 0%Z.
Proof.
  cbv zeta.
  destruct (@admin_edit_course_resets
              (env_at 3000 "00000000-0000-4000-8000-000000000000") 1
              [[false]] campus_completed (Course.mk 1 "mining-101" 100)
              eq_refl eq_refl eq_refl) as [_ [Ht [Hc _]]].
  split; [exact Ht|exact (Hc 7)].
Defined.

(** What [admin_edit_course] leaves in the three tables of a course's
    content. *)
Lemma admin_edit_course_effect (env : Env) (course_id : nat)
      (sections_data : list (list bool)) (db : DB) (course : Course.t) :
  filter (fun c => (Course.id c =? course_id)%nat) (courses db) = [course] ->
  let gone_s := filter (fun s => (CourseSection.course s =? course_id)%nat)
                       (sections db) in
  let gone_l := filter (fun l => has_pk (Lesson.section l) gone_s)
                       (lessons db) in
  let rs := filter (fun s => negb (CourseSection.course s =? course_id)%nat)
                   (sections db) in
  let rl := filter (fun l => negb (has_pk (Lesson.section l) gone_s))
                   (lessons db) in
  let db' := fst (admin_edit_course env course_id sections_data db) in
  exists news newl,
    sections db' = rs ++ news
    /\ lessons db' = rl ++ newl
    /\ lesson_progress db'
       = filter (fun p => negb (has_pk (LessonProgress.lesson p) gone_l))
                (lesson_progress db)
    /\ Forall (fun s => CourseSection.course s = course_id
                        /\ has_pk (CourseSection.id s) rs = false) news
    /\ Forall (fun l => has_pk (Lesson.section l) news = true) newl.
Proof.
  intros Hc. cbv zeta.
  destruct (filter_singleton _ _ Hc) as [Hid _]. apply Nat.eqb_eq in Hid.
  subst course_id.
  set (gone_s := filter (fun s => (CourseSection.course s =? Course.id course)%nat)
                        (sections db)).
  set (gone_l := filter (fun l => has_pk (Lesson.section l) gone_s) (lessons db)).
  set (rs := filter (fun s => negb (CourseSection.course s =? Course.id course)%nat)
                    (sections db)).
  set (rl := filter (fun l => negb (has_pk (Lesson.section l) gone_s))
                    (lessons db)).
  set (rp := filter (fun p => negb (has_pk (LessonProgress.lesson p) gone_l))
                    (lesson_progress db)).
  set (db0 := put_rows Sections rs
                (put_rows Lessons rl (put_rows LessonProgresses rp db))).
  destruct (create_sections_loop env (Course.id course) sections_data db0)
    as [news [newl [Hloop [Hnews [Hnewl _]]]]].
  set (db' := put_rows Lessons (lessons db0 ++ newl)
                (put_rows Sections (sections db0 ++ news) db0)) in Hloop.
  assert (Hs : admin_edit_course env (Course.id course) sections_data db
               = (db', Ok (Redirect "courses:admin_course_detail"))).
  { unfold admin_edit_course. unfold bind at 1. unfold get_object_or_404.
    cbn [rows Courses]. rewrite Hc.
    unfold bind at 1. unfold delete_sections_of, modify. cbv zeta.
    fold gone_s. fold gone_l. fold rs. fold rl. fold rp.
    change (put_rows Sections _ _) with db0.
    unfold bind at 1. rewrite Hloop. reflexivity. }
  rewrite Hs. cbn [fst]. exists news, newl.
  repeat split; try reflexivity; assumption.
Qed.


(* ------------------------------------------------------------------ *)
(** ** Invariants of every history of requests *)

Lemma hoare_try_except {A : Type} (P : DB -> Prop) (m : M DB A)
      (catches : Exn -> bool) (h : Exn -> M DB A)
      (Q : A -> DB -> Prop) (E' E : DB -> Prop) :
  hoare P m Q E' ->
  (forall x, hoare E' (h x) Q E) ->
  (forall db, E' db -> E db) ->
  hoare P (try_except m catches h) Q E.
Proof.
  intros Hm Hh HE db HP. unfold try_except. specialize (Hm db HP).
  destruct (m db) as [db' [a|x]]; [exact Hm|].
  destruct (catches x); [now apply Hh|now apply HE].
Qed.

Lemma keeps_fst {A : Type} (I : DB -> Prop) (m : M DB A) (db : DB) :
  keeps I m -> I db -> I (fst (m db)).
Proof.
  intros Hm HI. specialize (Hm db HI). now destruct (m db) as [db' [a|x]].
Qed.

Lemma keeps_reads {A : Type} (I : DB -> Prop) (m : M DB A) :
  (forall db, fst (m db) = db) -> keeps I m.
Proof.
  intros Hr db HI. specialize (Hr db).
  destruct (m db) as [db' [a|x]]; cbn [fst] in Hr; now subst db'.
Qed.

Lemma in_insert_desc {T : Type} (key : T -> Z) (x y : T) (l : list T) :
  In y (insert_desc key x l) <-> y = x \/ In y l.
Proof.
  induction l as [|a l IH]; cbn [insert_desc In].
  - intuition.
  - destruct (key a <=? key x)%Z; cbn [In]; [intuition|].
    rewrite IH. intuition.
Qed.

Lemma in_order_by_desc {T : Type} (key : T -> Z) (y : T) (l : list T) :
  In y (order_by_desc key l) <-> In y l.
Proof.
  unfold order_by_desc. induction l as [|a l IH]; cbn [fold_right In];
    [reflexivity|].
  rewrite in_insert_desc, IH. intuition.
Qed.

(** Keys without repetition identify rows. *)
Lemma distinct_keys_in (k : nat) (l : list nat) :
  existsb (Nat.eqb k) l = true <-> In k l.
Proof.
  rewrite existsb_exists. split.
  - intros [x [Hin Hx]]. apply Nat.eqb_eq in Hx. now subst x.
  - intros Hin. exists k. split; [exact Hin|apply Nat.eqb_refl].
Qed.

Lemma distinct_keys_same {T : Type} `{Model T} (l : list T) (a b : T) :
  distinct_keys (map pk l) = true ->
  In a l -> In b l -> pk a = pk b -> a = b.
Proof.
  induction l as [|x l IH]; cbn [map distinct_keys In]; [contradiction|].
  intros Hd Ha Hb Hk. apply andb_prop in Hd. destruct Hd as [Hx Hd].
  apply negb_true_iff in Hx.
  assert (Hno : forall y, In y l -> pk y <> pk x).
  { intros y Hy Heq. rewrite <- Heq in Hx.
    assert (Hin : existsb (Nat.eqb (pk y)) (map pk l) = true)
      by (apply distinct_keys_in; now apply in_map).
    rewrite Hx in Hin. discriminate. }
  destruct Ha as [<-|Ha], Hb as [<-|Hb].
  - reflexivity.
  - exfalso. apply (Hno b Hb). now symmetry.
  - exfalso. now apply (Hno a Ha).
  - now apply IH.
Qed.

Lemma map_pk_update_row {T : Type} `{Model T} (x : T) (l : list T) :
  map pk (update_row x l) = map pk l.
Proof.
  unfold update_row. rewrite map_map. apply map_ext_in.
  intros a _. destruct (Nat.eqb_spec (pk a) (pk x)) as [Heq|]; auto.
Qed.

Lemma distinct_keys_app_fresh {T : Type} `{Model T} (x : T) (l : list T) :
  distinct_keys (map pk l) = true ->
  has_pk (pk x) l = false ->
  distinct_keys (map pk (l ++ [x])) = true.
Proof.
  intros Hd Hf. induction l as [|a l IH]; cbn [map app distinct_keys];
    [reflexivity|].
  cbn [map distinct_keys] in Hd. apply andb_prop in Hd.
  destruct Hd as [Ha Hd]. cbn [has_pk existsb] in Hf.
  apply orb_false_iff in Hf. destruct Hf as [Hax Hf].
  rewrite IH by assumption. rewrite andb_true_r.
  rewrite map_app, existsb_app. apply negb_true_iff in Ha. rewrite Ha.
  cbn [map existsb orb]. now rewrite Hax.
Qed.

Lemma distinct_keys_upsert {T : Type} `{Model T} (x : T) (l : list T) :
  distinct_keys (map pk l) = true ->
  distinct_keys (map pk (upsert x l)) = true.
Proof.
  intros Hd. unfold upsert. destruct (has_pk (pk x) l) eqn:Hh.
  - now rewrite map_pk_update_row.
  - now apply distinct_keys_app_fresh.
Qed.

Lemma distinct_keys_create {T : Type} `{Model T} (x : T) (l : list T) :
  distinct_keys (map pk l) = true ->
  pk x = next_pk l ->
  distinct_keys (map pk (l ++ [x])) = true.
Proof.
  intros Hd Hx. apply distinct_keys_app_fresh; [exact Hd|].
  rewrite Hx. apply next_pk_fresh.
Qed.

(** What a recalculation does to the other rows of the enrollment table. *)
Lemma calculate_progress_others (env : Env) (e r : Enrollment.t) (db : DB) :
  In r (enrollments db) -> Enrollment.id r <> Enrollment.id e ->
  In r (enrollments (fst (call (calculate_progress env) e db))).
Proof.
  intros Hin Hne.
  assert (Hup : forall x, Enrollment.id x = Enrollment.id e ->
                          In r (upsert x (enrollments db))).
  { intros x Hx. unfold upsert. destruct (has_pk (pk x) (enrollments db)).
    - unfold update_row. apply in_map_iff. exists r. split; [|exact Hin].
      change (pk r) with (Enrollment.id r). change (pk x) with (Enrollment.id x).
      rewrite Hx. apply Nat.eqb_neq in Hne. now rewrite Hne.
    - apply in_or_app. now left. }
  unfold call. rewrite calculate_progress_eq. cbv zeta.
  destruct (_ =? 0)%Z; [exact Hin|].
  destruct (percentage _ _) as [p|]; [|exact Hin].
  destruct ((p =? 100)%Z && negb (Enrollment.completed e)).
  - destruct (violates _ (enrollments db)); [exact Hin|].
    rewrite issue_certificate_eq. cbv zeta.
    destruct (Enrollment.completed _ && negb _);
      [destruct (violates _ (certificates _))|]; cbn [fst];
      try (rewrite enrollments_saved); now apply Hup.
  - destruct (violates _ (enrollments db)); [exact Hin|].
    cbn [fst]. rewrite enrollments_saved. now apply Hup.
Qed.

Lemma get_or_create_enrollment_frame (now : Z) (p : Enrollment.t -> bool)
      (x : Enrollment.t) (db : DB) :
  orders (fst (objects_get_or_create Enrollments now p x db)) = orders db
  /\ order_items (fst (objects_get_or_create Enrollments now p x db))
     = order_items db.
Proof.
  unfold objects_get_or_create. cbn [rows Enrollments].
  destruct (filter p (enrollments db)) as [|r [|r' l]]; try (now split).
  unfold bind, objects_create. cbn [rows Enrollments].
  destruct (violates _ (enrollments db)); now split.
Qed.

Section SiteInvariant.
Variable I : DB -> Prop.
Hypothesis I_frame :
  forall db db',
    enrollments db' = enrollments db -> certificates db' = certificates db ->
    orders db' = orders db -> order_items db' = order_items db ->
    I db -> I db'.
Hypothesis I_keys :
  forall db, I db -> distinct_keys (map Enrollment.id (enrollments db)) = true.
Hypothesis I_calc :
  forall env e db, I db -> In e (enrollments db) ->
                   I (fst (call (calculate_progress env) e db)).
Hypothesis I_order_create :
  forall now x, keeps I (objects_create Orders now x).
Hypothesis I_item_create :
  forall now x, keeps I (objects_create OrderItems now x).
Hypothesis I_order_save :
  forall now o x db,
    I db -> In o (orders db) ->
    Order.id x = Order.id o -> Order.user x = Order.user o ->
    I (fst (save Orders now x db)).
Hypothesis I_enroll :
  forall now o i db,
    I db -> In o (orders db) -> In i (order_items db) ->
    OrderItem.order i = Order.id o ->
    I (fst (objects_get_or_create Enrollments now
              (same_pair (Order.user o) (OrderItem.course i))
              (new_enrollment (Order.user o) (OrderItem.course i)) db)).

Lemma frame_courses : ignores I Courses.
Proof. intros l db HI. now apply (@I_frame db). Qed.
Lemma frame_sections : ignores I Sections.
Proof. intros l db HI. now apply (@I_frame db). Qed.
Lemma frame_lessons : ignores I Lessons.
Proof. intros l db HI. now apply (@I_frame db). Qed.
Lemma frame_lesson_progress : ignores I LessonProgresses.
Proof. intros l db HI. now apply (@I_frame db). Qed.
Lemma frame_carts : ignores I Carts.
Proof. intros l db HI. now apply (@I_frame db). Qed.
Lemma frame_cart_items : ignores I CartItems.
Proof. intros l db HI. now apply (@I_frame db). Qed.

(** A recalculation of a stored enrollment, as a triple. *)
Lemma recalculation_keeps (env : Env) (e : Enrollment.t) :
  hoare (fun db => I db /\ In e (enrollments db))
        (call (calculate_progress env) e) (fun _ => I) I.
Proof.
  intros db [HI Hin]. pose proof (@I_calc env e db HI Hin) as Hk.
  destruct (call (calculate_progress env) e db) as [db' [a|x]]; exact Hk.
Qed.

(** The views recalculate the enrollment they have just fetched. *)
Lemma fetched_keeps {A} (p : Enrollment.t -> bool)
      (k_none : M DB A) (k_some : Enrollment.t -> M DB A) :
  keeps I k_none ->
  (forall e, hoare (fun db => I db /\ In e (enrollments db)) (k_some e)
                   (fun _ => I) I) ->
  keeps I (bind (objects_first Enrollments p)
                (fun o => match o with
                          | Some e => k_some e
                          | None => k_none
                          end)).
Proof.
  intros Hn Hs. eapply hoare_bind.
  - eapply hoare_objects_first with (P := I) (E := I); auto.
  - intros [e|].
    + eapply hoare_consequence; [apply (Hs e)|..]; auto.
      intros db [HI Ho]. split; [exact HI|].
      symmetry in Ho. apply first_in in Ho. apply filter_In in Ho.
      apply Ho.
    + eapply hoare_consequence; [apply Hn|..]; auto. now intros db [HI _].
Qed.

Lemma site_course_content (env : Env) (user : nat) (slug : string) :
  keeps I (course_content env user slug).
Proof.
  unfold course_content. keeps_step; [keeps_step|].
  apply fetched_keeps; [keeps_step|]. intros e.
  eapply hoare_bind; [apply recalculation_keeps|].
  intros ?. apply keeps_ret.
Qed.

Lemma site_lesson_view (env : Env) (user : nat) (slug : string)
      (lesson_id : nat) :
  keeps I (lesson_view env user slug lesson_id).
Proof.
  unfold lesson_view. do 3 (keeps_step; [keeps_step|]).
  destruct (negb (is_some _) && negb _); [keeps_step|].
  keeps_step; [|keeps_step].
  destruct (is_some _); [|keeps_step].
  keeps_step; [|keeps_step].
  apply keeps_objects_get_or_create. apply frame_lesson_progress.
Qed.

Lemma site_mark_lesson_complete (env : Env) (user lesson_id : nat) :
  keeps I (mark_lesson_complete env user lesson_id).
Proof.
  unfold mark_lesson_complete. do 2 (keeps_step; [keeps_step|]).
  apply fetched_keeps; [keeps_step|]. intros e.
  assert (Hframe : ignores (fun d => I d /\ In e (enrollments d))
                           LessonProgresses).
  { intros l d [HI Hin]. split; [now apply frame_lesson_progress|exact Hin]. }
  eapply hoare_bind with
    (Q := fun _ db => I db /\ In e (enrollments db)).
  { apply (@hoare_objects_get_or_create _ _ LessonProgresses
             (fun d => I d /\ In e (enrollments d)) I
             (fun d H => proj1 H) Hframe). }
  intros created.
  eapply hoare_bind with
    (Q := fun _ db => I db /\ In e (enrollments db)).
  { apply (@hoare_save _ _ LessonProgresses
             (fun d => I d /\ In e (enrollments d)) I
             (fun d H => proj1 H) Hframe). }
  intros ?.
  eapply hoare_bind; [apply recalculation_keeps|].
  intros ?. apply keeps_ret.
Qed.

Lemma site_admin_add_lesson (env : Env) (section : nat) (is_preview : bool) :
  keeps I (admin_add_lesson env section is_preview).
Proof.
  unfold admin_add_lesson. keeps_step; [keeps_step|].
  apply keeps_objects_create. apply frame_lessons.
Qed.

Lemma site_admin_edit_course (env : Env) (course_id : nat)
      (sections_data : list (list bool)) :
  keeps I (admin_edit_course env course_id sections_data).
Proof.
  unfold admin_edit_course. keeps_step; [keeps_step|].
  keeps_step; [intros db H; now apply (@I_frame db)|].
  keeps_step; [|keeps_step].
  keeps_step. keeps_step.
  { apply keeps_objects_create. apply frame_sections. }
  keeps_step. keeps_step; [|keeps_step].
  apply keeps_objects_create. apply frame_lessons.
Qed.

Lemma site_handle (env : Env) (r : request) (db : DB) :
  I db -> I (handle env r db).
Proof.
  intros HI. destruct r; cbn [handle]; apply keeps_fst; try exact HI.
  - apply site_course_content.
  - apply site_lesson_view.
  - apply site_mark_lesson_complete.
  - apply site_admin_add_lesson.
  - apply site_admin_edit_course.
Qed.

(** The dashboard: one recalculation per enrollment of the user. *)
Lemma site_recalculations (env : Env) (visit : list Enrollment.t) :
  hoare (fun db => I db
                   /\ distinct_keys (map Enrollment.id visit) = true
                   /\ forall e, In e visit -> In e (enrollments db))
        (for_each visit (fun enrollment =>
           call (calculate_progress env) enrollment ;;; ret tt))
        (fun _ => I) I.
Proof.
  induction visit as [|e visit IH]; intros db [HI [Hd Hin]].
  - exact HI.
  - cbn [for_each]. unfold bind at 1. unfold bind at 1.
    pose proof (@I_calc env e db HI (Hin e (or_introl eq_refl))) as Hk.
    cbn [map distinct_keys] in Hd. apply andb_prop in Hd.
    destruct Hd as [He Hd]. apply negb_true_iff in He.
    assert (Hrest : forall r, In r visit ->
               In r (enrollments (fst (call (calculate_progress env) e db)))).
    { intros r Hr. apply calculate_progress_others.
      - apply Hin. now right.
      - intros Heq.
        assert (Hex : existsb (Nat.eqb (Enrollment.id e))
                              (map Enrollment.id visit) = true).
        { apply distinct_keys_in. rewrite <- Heq. now apply in_map. }
        rewrite He in Hex. discriminate. }
    destruct (call (calculate_progress env) e db) as [db' [a|x]];
      cbn [fst] in Hk, Hrest; [|exact Hk].
    unfold ret at 1. apply IH. now repeat split.
Qed.

Lemma distinct_keys_filter {T : Type} (key : T -> nat) (p : T -> bool)
      (l : list T) :
  distinct_keys (map key l) = true ->
  distinct_keys (map key (filter p l)) = true.
Proof.
  induction l as [|a l IH]; cbn [map filter distinct_keys]; [reflexivity|].
  intros Hd. apply andb_prop in Hd. destruct Hd as [Ha Hd].
  destruct (p a); [|now apply IH].
  cbn [map distinct_keys]. rewrite IH by exact Hd. rewrite andb_true_r.
  apply negb_true_iff. apply negb_true_iff in Ha.
  apply not_true_is_false. intros Hex. apply distinct_keys_in in Hex.
  apply in_map_iff in Hex. destruct Hex as [x [Hx Hin]].
  apply filter_In in Hin.
  assert (Hex' : existsb (Nat.eqb (key a)) (map key l) = true).
  { apply distinct_keys_in. rewrite <- Hx. apply in_map. apply Hin. }
  rewrite Ha in Hex'. discriminate.
Qed.

Lemma distinct_keys_insert_desc {T : Type} (key : T -> nat) (k : T -> Z)
      (x : T) (l : list T) :
  distinct_keys (map key (insert_desc k x l))
  = distinct_keys (map key (x :: l)).
Proof.
  induction l as [|a l IH]; [reflexivity|].
  cbn [insert_desc]. destruct (k a <=? k x)%Z; [reflexivity|].
  cbn [map distinct_keys] in *. rewrite IH.
  assert (Hex : forall y, existsb (Nat.eqb y) (map key (insert_desc k x l))
                          = (Nat.eqb y (key x)
                             || existsb (Nat.eqb y) (map key l))%bool).
  { intros y. clear IH. induction l as [|b l IHl]; [reflexivity|].
    cbn [insert_desc]. destruct (k b <=? k x)%Z; [reflexivity|].
    cbn [map existsb]. rewrite IHl.
    now destruct (Nat.eqb y (key b)), (Nat.eqb y (key x)). }
  rewrite Hex. cbn [existsb]. rewrite (Nat.eqb_sym (key a) (key x)).
  destruct (Nat.eqb (key x) (key a)), (existsb (Nat.eqb (key x)) (map key l)),
    (existsb (Nat.eqb (key a)) (map key l)), (distinct_keys (map key l));
    reflexivity.
Qed.

Lemma distinct_keys_order_by_desc {T : Type} (key : T -> nat) (k : T -> Z)
      (l : list T) :
  distinct_keys (map key (order_by_desc k l)) = distinct_keys (map key l).
Proof.
  unfold order_by_desc. induction l as [|a l IH]; [reflexivity|].
  cbn [fold_right]. rewrite distinct_keys_insert_desc.
  cbn [map distinct_keys]. rewrite IH. f_equal. f_equal.
  clear IH. induction l as [|b l IHl]; [reflexivity|].
  cbn [fold_right].
  assert (Hex : forall y t, existsb (Nat.eqb y) (map key (insert_desc k b t))
                            = (Nat.eqb y (key b)
                               || existsb (Nat.eqb y) (map key t))%bool).
  { intros y t. induction t as [|c t IHt]; [reflexivity|].
    cbn [insert_desc]. destruct (k c <=? k b)%Z; [reflexivity|].
    cbn [map existsb]. rewrite IHt.
    now destruct (Nat.eqb y (key c)), (Nat.eqb y (key b)). }
  rewrite Hex, IHl. reflexivity.
Qed.

Lemma site_dashboard (env : Env) (user : nat) : keeps I (dashboard env user).
Proof.
  unfold dashboard. eapply hoare_bind with
    (Q := fun l db => I db
            /\ l = filter (fun e => (Enrollment.student e =? user)%nat)
                          (enrollments db)).
  { intros db HI. cbn. now split. }
  intros l. cbv zeta. eapply hoare_bind; [|intros ?; apply keeps_ret].
  eapply hoare_consequence; [apply site_recalculations|..]; auto.
  intros db [HI ->]. split; [exact HI|]. split.
  - rewrite distinct_keys_order_by_desc. apply distinct_keys_filter.
    now apply I_keys.
  - intros e He. apply in_order_by_desc in He. apply filter_In in He.
    apply He.
Qed.

(** The cart views. *)
Lemma site_get_total (cart : Cart.t) : keeps I (get_total cart).
Proof. apply keeps_reads. apply get_total_reads. Qed.

Lemma site_cart_view (env : Env) (user : nat) : keeps I (cart_view env user).
Proof.
  unfold cart_view. keeps_step.
  { apply keeps_objects_get_or_create. apply frame_carts. }
  keeps_step; [apply site_get_total|keeps_step].
Qed.

Lemma site_add_to_cart (env : Env) (user course_id : nat) :
  keeps I (add_to_cart env user course_id).
Proof.
  unfold add_to_cart. do 2 (keeps_step; [keeps_step|]).
  match goal with |- keeps _ (if ?b then _ else _) => destruct b end;
    [keeps_step|].
  keeps_step.
  { apply keeps_objects_get_or_create. apply frame_carts. }
  cbv zeta. keeps_step; [|keeps_step].
  apply keeps_objects_get_or_create. apply frame_cart_items.
Qed.

Lemma site_remove_from_cart (user item_id : nat) :
  keeps I (remove_from_cart user item_id).
Proof.
  unfold remove_from_cart. keeps_step.
  { intros db HI.
    pose proof (@keeps_get_object_or_404 I _ CartItems
                  (fun i => (CartItem.id i =? item_id)%nat
                            && in_cart_of db user i) db HI) as Hk.
    exact Hk. }
  keeps_step; [keeps_step|].
  keeps_step; [|keeps_step].
  intros db HI. now apply (@I_frame db).
Qed.

Lemma site_checkout (user : nat) : keeps I (checkout user).
Proof.
  apply keeps_reads. intros db. apply checkout_unchanged.
Qed.

Lemma site_delete_carts_of (u : nat) : keeps I (delete_carts_of u).
Proof. intros db HI. now apply (@I_frame db). Qed.

(** Writing orders. *)
Lemma order_save_keeps (now : Z) (o x : Order.t) :
  Order.id x = Order.id o -> Order.user x = Order.user o ->
  hoare (fun db => I db /\ In o (orders db))
        (save Orders now x)
        (fun x' db => I db /\ In x' (orders db) /\ x' = auto_now now x) I.
Proof.
  intros Hid Hu db [HI Hin].
  pose proof (@I_order_save now o x db HI Hin Hid Hu) as Hk.
  unfold save in *. cbn [rows Orders] in *.
  destruct (violates _ (orders db)); [exact Hk|].
  cbn [fst] in Hk. split; [exact Hk|]. split; [|reflexivity].
  cbn [orders put_rows Orders]. unfold upsert.
  destruct (has_pk _ (orders db)) eqn:Hh.
  - unfold update_row. apply in_map_iff. exists o. split; [|exact Hin].
    change (pk (auto_now now x)) with (Order.id x).
    change (pk o) with (Order.id o). rewrite Hid. now rewrite Nat.eqb_refl.
  - apply in_or_app. right. now left.
Qed.

Lemma order_create_keeps (now : Z) (x : Order.t) :
  hoare I (objects_create Orders now x)
        (fun o db => I db /\ In o (orders db)
                     /\ Order.user o = Order.user x) I.
Proof.
  intros db HI. pose proof (@I_order_create now x db HI) as Hk.
  unfold objects_create in *. cbn [rows Orders] in *.
  destruct (violates _ (orders db)); [exact Hk|].
  split; [exact Hk|]. split; [|reflexivity].
  cbn [orders put_rows Orders]. apply in_or_app. right. now left.
Qed.

Lemma enroll_in_items_keeps (env : Env) (o : Order.t) :
  hoare (fun db => I db /\ In o (orders db)) (enroll_in_items env o)
        (fun _ => I) I.
Proof.
  unfold enroll_in_items. eapply hoare_bind with
    (Q := fun items db => I db /\ In o (orders db)
            /\ forall i, In i items ->
                 In i (order_items db) /\ OrderItem.order i = Order.id o).
  { intros db [HI Hin]. cbn. split; [exact HI|]. split; [exact Hin|].
    intros i Hi. apply filter_In in Hi. destruct Hi as [Hi Hp].
    apply Nat.eqb_eq in Hp. now split. }
  intros items. induction items as [|i items IH].
  - intros db [HI _]. exact HI.
  - intros db [HI [Hin Hitems]]. cbn [for_each].
    unfold bind at 1. unfold bind at 1.
    destruct (Hitems i (or_introl eq_refl)) as [Hi Hio].
    pose proof (@I_enroll (now env) o i db HI Hin Hi Hio) as Hk.
    destruct (get_or_create_enrollment_frame (now env)
                (same_pair (Order.user o) (OrderItem.course i))
                (new_enrollment (Order.user o) (OrderItem.course i)) db)
      as [Ho Hoi].
    destruct (objects_get_or_create Enrollments (now env) _ _ db)
      as [db' [a|x]]; cbn [fst] in Hk, Ho, Hoi; [|exact Hk].
    unfold ret at 1. apply IH. split; [exact Hk|]. rewrite Ho, Hoi.
    split; [exact Hin|]. intros j Hj. apply Hitems. now right.
Qed.

Lemma fulfilment_keeps (env : Env) (o x : Order.t) :
  Order.id x = Order.id o -> Order.user x = Order.user o ->
  hoare (fun db => I db /\ In o (orders db))
        (order <- save Orders (now env) x ;;
         enroll_in_items env order ;;;
         delete_carts_of (Order.user order) ;;;
         send_enrollment_email (Order.user order) order)
        (fun _ => I) I.
Proof.
  intros Hid Hu.
  eapply hoare_bind; [apply (@order_save_keeps (now env) o x Hid Hu)|].
  intros x'. eapply hoare_bind with (Q := fun _ => I).
  - eapply hoare_consequence; [apply enroll_in_items_keeps|..]; auto.
    intros db [HI [Hin _]]. now split.
  - intros ?. keeps_step; [apply site_delete_carts_of|].
    unfold send_enrollment_email. keeps_step.
Qed.

Lemma fetched_order (p : Order.t -> bool) :
  hoare I (objects_get Orders p) (fun o db => I db /\ In o (orders db)) I.
Proof.
  eapply hoare_consequence;
    [eapply hoare_objects_get with (P := I) (E := I); auto|..]; auto.
  intros o db [HI Hf]. split; [exact HI|].
  apply filter_singleton in Hf. apply Hf.
Qed.

Lemma site_paystack_webhook (env : Env) (method : string) (payload : Payload) :
  keeps I (paystack_webhook env method payload).
Proof.
  unfold paystack_webhook. destruct (String.eqb method "POST"); [|keeps_step].
  keeps_step; [|keeps_step].
  destruct (String.eqb (event payload) "charge.success"); [|keeps_step].
  cbv zeta. apply hoare_try_except with (E' := I);
    [|intros ?; now apply hoare_ret|auto].
  eapply hoare_bind; [apply fetched_order|].
  intros o. cbv beta. apply (@fulfilment_keeps env o); reflexivity.
Qed.

Lemma site_payment_verify (env : Env) (user : nat) (reference : option string)
      (gateway : option VerifyResult) :
  keeps I (payment_verify env user reference gateway).
Proof.
  unfold payment_verify. destruct reference as [[|c r]|]; try keeps_step.
  apply hoare_try_except with (E' := I);
    [|intros ?; now apply hoare_ret|auto].
  eapply hoare_bind; [apply fetched_order|].
  intros o. cbv beta.
  eapply hoare_bind with (Q := fun _ db => I db /\ In o (orders db)).
  { apply hoare_lift_option; auto. now intros db _ [HI _]. }
  intros result.
  eapply hoare_bind with (Q := fun _ db => I db /\ In o (orders db)).
  { destruct (result_status result).
    - eapply hoare_bind with (Q := fun _ db => I db /\ In o (orders db)).
      + apply hoare_lift_option; auto. now intros db _ [HI _].
      + intros d. now apply hoare_ret.
    - now apply hoare_ret. }
  intros [[success id] channel]. destruct success.
  - cbv zeta.
    pose proof (@fulfilment_keeps env o
                  (Order.set_completed_at (Some (now env))
                     (Order.set_payment_method channel
                        (Order.set_payment_reference id
                           (Order.set_status Status.completed o))))
                  eq_refl eq_refl) as Hk.
    intros db HP. specialize (Hk db HP). unfold bind in *.
    destruct (save Orders (now env) _ db) as [db1 [x1|e1]]; [|exact Hk].
    destruct (enroll_in_items env x1 db1) as [db2 [u2|e2]]; [|exact Hk].
    destruct (delete_carts_of (Order.user x1) db2) as [db3 [u3|e3]];
      [|exact Hk].
    destruct (send_enrollment_email (Order.user x1) x1 db3) as [db4 [u4|e4]];
      exact Hk.
  - cbv zeta. eapply hoare_bind with (Q := fun _ => I).
    + eapply hoare_consequence;
        [apply (@order_save_keeps (now env) o
                  (Order.set_status Status.failed o) eq_refl eq_refl)|..];
        auto.
      now intros a db [HI _].
    + intros ?. now apply hoare_ret.
Qed.

Lemma site_admin_update_order_status (env : Env) (method order_id : string)
      (new_status : option string) :
  keeps I (admin_update_order_status env method order_id new_status).
Proof.
  unfold admin_update_order_status. keeps_step; [|keeps_step].
  destruct (String.eqb method "POST"); [|keeps_step].
  eapply hoare_bind.
  { eapply hoare_get_object_or_404 with (P := I) (E := I). auto. }
  intros o. destruct new_status as [s|].
  2: { apply hoare_ret. now intros db [HI _]. }
  destruct (Status.of_string s) as [st|].
  2: { apply hoare_ret. now intros db [HI _]. }
  eapply hoare_bind with (Q := fun _ => I).
  - eapply hoare_consequence;
      [apply (@order_save_keeps (now env) o (Order.set_status st o)
                eq_refl eq_refl)|..]; auto.
    + intros db [HI Hf]. split; [exact HI|].
      apply filter_singleton in Hf. apply Hf.
    + now intros a db [HI _].
  - intros ?. now apply hoare_ret.
Qed.

Lemma site_initiate_payment (env : Env) (user : nat) (gateway : option bool) :
  keeps I (initiate_payment env user gateway).
Proof.
  unfold initiate_payment. do 2 (keeps_step; [keeps_step|]).
  match goal with |- keeps _ (if ?b then _ else _) => destruct b end;
    [keeps_step|].
  keeps_step; [apply site_get_total|].
  eapply hoare_bind; [apply order_create_keeps|].
  intros o.
  eapply hoare_bind with (Q := fun _ db => I db /\ In o (orders db)).
  { intros db [HI [Hin _]]. cbn. now split. }
  intros items.
  eapply hoare_bind with (Q := fun _ db => I db /\ In o (orders db)).
  { apply hoare_for_each. intros item _.
    eapply hoare_bind with (Q := fun _ db => I db /\ In o (orders db)).
    - intros db HP. unfold objects_get.
      destruct (filter _ (rows Courses db)) as [|c [|c' l]]; cbn; tauto.
    - intros course.
      eapply hoare_bind with (Q := fun _ db => I db /\ In o (orders db)).
      + intros db [HI Hin].
        pose proof (@I_item_create (now env)
                      (OrderItem.mk 0 (Order.id o) (CartItem.course item)
                         (Course.price course)) db HI) as Hk.
        unfold objects_create in *. cbn [rows OrderItems] in *.
        destruct (violates _ (order_items db)); [exact Hk|].
        split; [exact Hk|exact Hin].
      + intros ?. now apply hoare_ret. }
  intros ?.
  assert (Hfail : forall r : HttpResponse,
             hoare (fun db => I db /\ In o (orders db))
                   (save Orders (now env) (Order.set_status Status.failed o) ;;;
                    ret r) (fun _ => I) I).
  { intros r. eapply hoare_bind with (Q := fun _ => I).
    - eapply hoare_consequence;
        [apply (@order_save_keeps (now env) o
                  (Order.set_status Status.failed o) eq_refl eq_refl)|..];
        auto.
      now intros ? db [HI _].
    - intros ?. now apply hoare_ret. }
  destruct gateway as [[|]|]; [|apply Hfail|apply Hfail].
  apply hoare_ret. now intros db [HI _].
Qed.

Lemma site_perform (env : Env) (a : action) (db : DB) :
  I db -> I (perform env a db).
Proof.
  intros HI. destruct a; cbn [perform];
    [now apply site_handle|apply keeps_fst; try exact HI..].
  - apply site_dashboard.
  - apply site_cart_view.
  - apply site_add_to_cart.
  - apply site_remove_from_cart.
  - apply site_checkout.
  - apply site_initiate_payment.
  - apply site_paystack_webhook.
  - apply site_payment_verify.
  - apply site_admin_update_order_status.
Qed.

Lemma site_run (history : list (Env * action)) (db : DB) :
  I db -> I (run history db).
Proof.
  revert db. induction history as [|[env a] h IH]; intros db HI.
  - exact HI.
  - cbn [run fold_left fst snd]. apply IH. now apply site_perform.
Qed.
End SiteInvariant.

(** Everything a recalculation can write: the enrollment row, with its
    key and pair and without undoing a completion, and at most one
    certificate, for that pair, when the row is completed and the pair had
    none. *)
Lemma calculate_progress_effect (env : Env) (e : Enrollment.t) (db : DB) :
  let db' := fst (call (calculate_progress env) e db) in
  orders db' = orders db /\ order_items db' = order_items db
  /\ ((enrollments db' = enrollments db /\ certificates db' = certificates db)
      \/ exists x,
           enrollments db' = upsert x (enrollments db)
           /\ Enrollment.id x = Enrollment.id e
           /\ Enrollment.student x = Enrollment.student e
           /\ Enrollment.course x = Enrollment.course e
           /\ (Enrollment.completed e = true -> Enrollment.completed x = true)
           /\ (certificates db' = certificates db
               \/ exists c,
                    certificates db' = certificates db ++ [c]
                    /\ Certificate.student c = Enrollment.student e
                    /\ Certificate.course c = Enrollment.course e
                    /\ Enrollment.completed x = true
                    /\ existsb (cert_for (Enrollment.student e)
                                         (Enrollment.course e))
                               (certificates db) = false)).
Proof.
  cbv zeta. unfold call. rewrite calculate_progress_eq. cbv zeta.
  destruct (_ =? 0)%Z; [now repeat split; try left|].
  destruct (percentage _ _) as [p|]; [|now repeat split; try left].
  destruct ((p =? 100)%Z && negb (Enrollment.completed e)).
  - destruct (violates _ (enrollments db)); [now repeat split; try left|].
    rewrite issue_certificate_eq. cbv zeta.
    set (e2 := Enrollment.set_completed_at (Some (now env))
                 (Enrollment.set_completed true
                    (Enrollment.set_progress_percentage p e))).
    change (certificates (saved e2 db)) with (certificates db).
    change (Enrollment.completed e2) with true.
    change (Enrollment.student e2) with (Enrollment.student e).
    change (Enrollment.course e2) with (Enrollment.course e).
    cbn [andb].
    destruct (existsb (cert_for (Enrollment.student e) (Enrollment.course e))
                      (certificates db)) eqn:Hex; cbn [negb].
    + cbn [fst]. split; [reflexivity|]. split; [reflexivity|].
      right. exists e2. repeat split; auto.
    + destruct (violates _ (certificates db)); cbn [fst].
      * split; [reflexivity|]. split; [reflexivity|].
        right. exists e2. repeat split; auto.
      * split; [reflexivity|]. split; [reflexivity|].
        right. exists e2. split; [reflexivity|]. repeat split; auto.
        right. eexists. split; [reflexivity|]. now repeat split.
  - destruct (violates _ (enrollments db)); [now repeat split; try left|].
    cbn [fst]. split; [reflexivity|]. split; [reflexivity|].
    right. exists (Enrollment.set_progress_percentage p e).
    repeat split; auto.
Qed.

Lemma in_upsert_cases {T : Type} `{Model T} (x r : T) (l : list T) :
  In r (upsert x l) -> r = x \/ (In r l /\ pk r <> pk x).
Proof.
  unfold upsert. destruct (has_pk (pk x) l) eqn:Hh.
  - unfold update_row. intros Hin. apply in_map_iff in Hin.
    destruct Hin as [a [Ha Hin]].
    destruct (Nat.eqb_spec (pk a) (pk x)) as [Heq|Hne]; [now left|].
    right. subst a. now split.
  - intros Hin. apply in_app_or in Hin. destruct Hin as [Hin|[<-|[]]];
      [|now left].
    right. split; [exact Hin|]. intros Heq.
    assert (Hh' : has_pk (pk x) l = true).
    { unfold has_pk. apply existsb_exists. exists r. split; [exact Hin|].
      now apply Nat.eqb_eq. }
    rewrite Hh in Hh'. discriminate.
Qed.

Lemma in_upsert_self {T : Type} `{Model T} (x : T) (l : list T) :
  In x (upsert x l).
Proof.
  pose proof (lookup_pk_upsert x l) as Hl. apply lookup_pk_some in Hl.
  apply Hl.
Qed.

Lemma in_upsert_other {T : Type} `{Model T} (x r : T) (l : list T) :
  In r l -> pk r <> pk x -> In r (upsert x l).
Proof.
  intros Hin Hne. unfold upsert. destruct (has_pk (pk x) l).
  - unfold update_row. apply in_map_iff. exists r. split; [|exact Hin].
    apply Nat.eqb_neq in Hne. now rewrite Hne.
  - apply in_or_app. now left.
Qed.

(* ------------------------------------------------------------------ *)
(** ** Certificates are sound in every history *)

Lemma sound_frame (db db' : DB) :
  enrollments db' = enrollments db -> certificates db' = certificates db ->
  certificates_sound db -> certificates_sound db'.
Proof. unfold certificates_sound. intros -> ->. auto. Qed.

Lemma sound_calculate_progress (env : Env) (e : Enrollment.t) (db : DB) :
  certificates_sound db -> In e (enrollments db) ->
  certificates_sound (fst (call (calculate_progress env) e db)).
Proof.
  intros [Hk [Hb Hu]] Hin.
  destruct (calculate_progress_effect env e db) as [_ [_ Heff]].
  cbv zeta in Heff.
  set (db' := fst (call (calculate_progress env) e db)) in *.
  destruct Heff as [[He Hc]|[x [He [Hid [Hs [Hco [Hdone Hcert]]]]]]].
  { apply (@sound_frame db db' He Hc). now repeat split. }
  assert (Hrows : forall c, existsb (backs c) (enrollments db) = true ->
                            existsb (backs c) (enrollments db') = true).
  { intros c Hex. apply existsb_exists in Hex. destruct Hex as [r [Hr Hbr]].
    apply existsb_exists. rewrite He.
    destruct (Nat.eq_dec (Enrollment.id r) (Enrollment.id e)) as [Heq|Hne].
    - assert (Hre : r = e)
        by (apply (@distinct_keys_same Enrollment.t Enrollment_Model
                     (enrollments db)); assumption).
      subst r. exists x. split; [apply in_upsert_self|].
      unfold backs, same_pair in *. apply andb_prop in Hbr.
      destruct Hbr as [Hp Hcm]. rewrite Hs, Hco, Hp. cbn [andb].
      now apply Hdone.
    - exists r. split; [|exact Hbr]. apply in_upsert_other; [exact Hr|].
      change (pk r) with (Enrollment.id r). change (pk x) with (Enrollment.id x).
      now rewrite Hid. }
  assert (Hkeys : distinct_keys (map Enrollment.id (enrollments db')) = true).
  { rewrite He. now apply (@distinct_keys_upsert Enrollment.t Enrollment_Model). }
  destruct Hcert as [Hc|[c [Hc [Hcs [Hcc [Hxd Hnone]]]]]].
  - split; [exact Hkeys|]. rewrite Hc. split; [|exact Hu].
    intros c Hcin. now apply Hrows, Hb.
  - split; [exact Hkeys|]. rewrite Hc. split.
    + intros c' Hcin. apply in_app_or in Hcin.
      destruct Hcin as [Hcin|[<-|[]]]; [now apply Hrows, Hb|].
      apply existsb_exists. exists x. rewrite He.
      split; [apply in_upsert_self|].
      unfold backs, same_pair. rewrite Hcs, Hcc, Hs, Hco, !Nat.eqb_refl.
      exact Hxd.
    + intros s' c'. rewrite filter_app, List.length_app. cbn [filter].
      unfold cert_for at 2. rewrite Hcs, Hcc.
      destruct ((Enrollment.student e =? s')%nat
                && (Enrollment.course e =? c')%nat) eqn:Hp; cbn [List.length].
      * apply andb_prop in Hp. destruct Hp as [H1 H2].
        apply Nat.eqb_eq in H1, H2. subst s' c'.
        rewrite (existsb_false_filter _ _ Hnone). cbn. lia.
      * specialize (Hu s' c'). lia.
Qed.

Lemma sound_enroll (now : Z) (s c : nat) (db : DB) :
  certificates_sound db ->
  certificates_sound
    (fst (objects_get_or_create Enrollments now (same_pair s c)
            (new_enrollment s c) db)).
Proof.
  intros [Hk [Hb Hu]]. unfold objects_get_or_create. cbn [rows Enrollments].
  destruct (filter (same_pair s c) (enrollments db)) as [|r [|r' l]];
    try (now repeat split).
  unfold bind, objects_create. cbn [rows Enrollments].
  destruct (violates _ (enrollments db)); [now repeat split|].
  unfold ret. cbn [fst]. unfold certificates_sound.
  cbn [enrollments certificates put_rows Enrollments].
  split; [|split; [|exact Hu]].
  - apply (@distinct_keys_create Enrollment.t Enrollment_Model);
      [exact Hk|reflexivity].
  - intros c' Hc'. rewrite existsb_app, (Hb c' Hc'). reflexivity.
Qed.

(** X16.  Certificates stay sound.  Start from a database whose
    enrollment keys are distinct, in which every certificate is backed by a
    stored completed enrollment of its student in its course and no
    (student, course) pair has two certificates.  Then the same holds after
    any history of requests to the modelled views -- learning, dashboard,
    cart, payment and back office -- including requests that raise. *)
Theorem certificates_always_sound (history : list (Env * action)) (db : DB) :
  certificates_sound db -> certificates_sound (run history db).
Proof.
  apply (@site_run certificates_sound).
  - intros d d' He Hc _ _. now apply sound_frame.
  - intros d [Hk _]. exact Hk.
  - intros env e d. apply sound_calculate_progress.
  - intros now x. apply keeps_objects_create.
    intros l d. now apply sound_frame.
  - intros now x. apply keeps_objects_create.
    intros l d. now apply sound_frame.
  - intros now o x d HI _ _ _. unfold save. cbn [rows Orders].
    destruct (violates _ (orders d)); [exact HI|].
    cbn [fst]. revert HI. now apply sound_frame.
  - intros now o i d HI _ _ _. now apply sound_enroll.
Qed.

Lemma certificates_always_sound_witness :
  certificates_sound
    (run [(env_at 3000 "00000000-0000-4000-8000-000000000000",
           Learn (AdminEditCourse 1 []));
          (env_at 4000 "2c0ffee0-0000-4000-8000-000000000000", Dashboard 7)]
         campus_completed).
Proof.
  apply certificates_always_sound.
  split; [reflexivity|]. split.
  - intros c [<-|[]]. reflexivity.
  - intros s c. cbn. destruct (cert_for s c _); cbn; lia.
Defined.

(* ------------------------------------------------------------------ *)
(** ** Enrollments go back to orders in every history *)

Lemma ordered_by_frame (db db' : DB) (s c : nat) :
  (forall o, In o (orders db) -> In o (orders db')) ->
  (forall i, In i (order_items db) -> In i (order_items db')) ->
  ordered_by db s c -> ordered_by db' s c.
Proof.
  intros Ho Hi (o & i & Hoin & Hiin & H). exists o, i.
  split; [now apply Ho|]. split; [now apply Hi|exact H].
Qed.

Lemma ordered_frame (db db' : DB) :
  enrollments db' = enrollments db -> orders db' = orders db ->
  order_items db' = order_items db ->
  enrollments_ordered db -> enrollments_ordered db'.
Proof.
  unfold enrollments_ordered, ordered_by. intros -> -> ->. auto.
Qed.

Lemma ordered_calculate_progress (env : Env) (e : Enrollment.t) (db : DB) :
  enrollments_ordered db -> In e (enrollments db) ->
  enrollments_ordered (fst (call (calculate_progress env) e db)).
Proof.
  intros [Hk [Hko Hall]] Hin.
  destruct (calculate_progress_effect env e db) as [Ho [Hi Heff]].
  cbv zeta in Heff, Ho, Hi.
  set (db' := fst (call (calculate_progress env) e db)) in *.
  destruct Heff as [[He _]|[x [He [Hid [Hs [Hco _]]]]]].
  { apply (@ordered_frame db db' He Ho Hi). now repeat split. }
  unfold enrollments_ordered. rewrite He, Ho. split; [|split; [exact Hko|]].
  - now apply (@distinct_keys_upsert Enrollment.t Enrollment_Model).
  - intros r Hr. apply in_upsert_cases in Hr.
    assert (Hold : forall s c, ordered_by db s c -> ordered_by db' s c).
    { intros s c. apply ordered_by_frame.
      - intros o. now rewrite Ho.
      - intros i. now rewrite Hi. }
    apply Hold. destruct Hr as [->|[Hr _]]; [|now apply Hall].
    rewrite Hs, Hco. now apply Hall.
Qed.

Lemma ordered_order_create (now : Z) (x : Order.t) :
  keeps enrollments_ordered (objects_create Orders now x).
Proof.
  intros db [Hk [Hko Hall]]. unfold objects_create. cbn [rows Orders].
  destruct (violates _ (orders db)); [now repeat split|].
  unfold enrollments_ordered.
  cbn [enrollments orders order_items put_rows Orders].
  split; [exact Hk|]. split.
  - apply (@distinct_keys_create Order.t Order_Model);
      [exact Hko|reflexivity].
  - intros e He. eapply ordered_by_frame; [| |apply (Hall e He)].
    + intros o Ho. cbn [orders]. apply in_or_app. now left.
    + intros i Hi. exact Hi.
Qed.

Lemma ordered_item_create (now : Z) (x : OrderItem.t) :
  keeps enrollments_ordered (objects_create OrderItems now x).
Proof.
  intros db [Hk [Hko Hall]]. unfold objects_create. cbn [rows OrderItems].
  destruct (violates _ (order_items db)); [now repeat split|].
  unfold enrollments_ordered.
  cbn [enrollments orders order_items put_rows OrderItems].
  split; [exact Hk|]. split; [exact Hko|].
  intros e He. eapply ordered_by_frame; [| |apply (Hall e He)].
  - intros o Ho. exact Ho.
  - intros i Hi. cbn [order_items]. apply in_or_app. now left.
Qed.

Lemma ordered_order_save (now : Z) (o x : Order.t) (db : DB) :
  enrollments_ordered db -> In o (orders db) ->
  Order.id x = Order.id o -> Order.user x = Order.user o ->
  enrollments_ordered (fst (save Orders now x db)).
Proof.
  intros [Hk [Hko Hall]] Hin Hid Hu. unfold save. cbn [rows Orders].
  destruct (violates _ (orders db)); [now repeat split|].
  cbn [fst]. unfold enrollments_ordered.
  cbn [enrollments orders order_items put_rows Orders].
  set (x' := auto_now now x).
  split; [exact Hk|]. split.
  - now apply (@distinct_keys_upsert Order.t Order_Model).
  - intros e He. destruct (Hall e He) as (o' & i & Ho' & Hi & Hio & Huo & Hc).
    destruct (Nat.eq_dec (Order.id o') (Order.id o)) as [Heq|Hne].
    + assert (Hoo : o' = o)
        by (apply (@distinct_keys_same Order.t Order_Model (orders db));
            assumption).
      subst o'. exists x', i. split; [apply in_upsert_self|].
      split; [exact Hi|]. split; [|split; [|exact Hc]].
      * rewrite Hio. symmetry. exact Hid.
      * rewrite <- Huo. exact Hu.
    + exists o', i. split; [|now repeat split].
      apply in_upsert_other; [exact Ho'|].
      change (pk o') with (Order.id o'). change (pk x') with (Order.id x).
      now rewrite Hid.
Qed.

Lemma ordered_enroll (now : Z) (o : Order.t) (i : OrderItem.t) (db : DB) :
  enrollments_ordered db -> In o (orders db) -> In i (order_items db) ->
  OrderItem.order i = Order.id o ->
  enrollments_ordered
    (fst (objects_get_or_create Enrollments now
            (same_pair (Order.user o) (OrderItem.course i))
            (new_enrollment (Order.user o) (OrderItem.course i)) db)).
Proof.
  intros [Hk [Hko Hall]] Ho Hi Hio.
  unfold objects_get_or_create. cbn [rows Enrollments].
  destruct (filter _ (enrollments db)) as [|r [|r' l]];
    try (now repeat split).
  unfold bind, objects_create. cbn [rows Enrollments].
  destruct (violates _ (enrollments db)); [now repeat split|].
  unfold ret. cbn [fst]. unfold enrollments_ordered.
  cbn [enrollments orders order_items put_rows Enrollments].
  split; [|split; [exact Hko|]].
  - apply (@distinct_keys_create Enrollment.t Enrollment_Model);
      [exact Hk|reflexivity].
  - intros e He. apply in_app_or in He. destruct He as [He|[<-|[]]].
    + destruct (Hall e He) as (o' & i' & H). now exists o', i'.
    + exists o, i. now repeat split.
Qed.

(** X17.  No enrollment without an order.  Start from a database with
    distinct enrollment and order keys in which every enrollment goes back
    to an item, for its course, of an order of its student.  Then the same
    holds after any history of requests to the modelled views: no sequence
    of learning, dashboard, cart, payment and back-office requests enrolls
    a student in a course that none of the student's orders contains. *)
Theorem enrollments_always_ordered (history : list (Env * action)) (db : DB) :
  enrollments_ordered db -> enrollments_ordered (run history db).
Proof.
  apply (@site_run enrollments_ordered).
  - intros d d' He _ Ho Hi. now apply ordered_frame.
  - intros d [Hk _]. exact Hk.
  - intros env e d. apply ordered_calculate_progress.
  - apply ordered_order_create.
  - apply ordered_item_create.
  - apply ordered_order_save.
  - apply ordered_enroll.
Qed.

Lemma enrollments_always_ordered_witness :
  enrollments_ordered
    (run [(checkout_env, InitiatePayment 7 (Some true));
          (env_at 2000 "3c0ffee0",
           PaystackWebhook "POST"
             (mkPayload "charge.success" shop_reference "4099" "card"));
          (env_at 2500 "4c0ffee0", Dashboard 7)]
         shop).
Proof.
  apply enrollments_always_ordered.
  split; [reflexivity|]. split; [reflexivity|]. intros e [].
Defined.

(* ------------------------------------------------------------------ *)
(** ** A completion survives every history *)

Lemma settled_frame (i : nat) (t : option Z) (db db' : DB) :
  enrollments db' = enrollments db -> settled i t db -> settled i t db'.
Proof. unfold settled, stored_completed. now intros ->. Qed.

Lemma settled_calculate_progress (i : nat) (t : option Z) (env : Env)
      (e : Enrollment.t) (db : DB) :
  settled i t db -> In e (enrollments db) ->
  settled i t (fst (call (calculate_progress env) e db)).
Proof.
  intros [Hk Hs] Hin. split.
  - destruct (calculate_progress_effect env e db) as [_ [_ Heff]].
    cbv zeta in Heff.
    destruct Heff as [[He _]|[x [He _]]]; rewrite He; [exact Hk|].
    now apply (@distinct_keys_upsert Enrollment.t Enrollment_Model).
  - assert (He : Enrollment.id e = i ->
                 Enrollment.completed e = true
                 /\ Enrollment.completed_at e = t)
      by (intros Hi; now apply (proj2 Hs)).
    pose proof (calculate_progress_keeps_completed env e Hs He) as Hkc.
    unfold call.
    destruct (calculate_progress env (db, e)) as [[db' e'] [a|x]]; exact Hkc.
Qed.

Lemma settled_enroll (i : nat) (t : option Z) (now : Z) (s c : nat) (db : DB) :
  settled i t db ->
  settled i t (fst (objects_get_or_create Enrollments now (same_pair s c)
                      (new_enrollment s c) db)).
Proof.
  intros HI. pose proof HI as [Hk [Hh Hr]].
  unfold objects_get_or_create. cbn [rows Enrollments].
  destruct (filter (same_pair s c) (enrollments db)) as [|r [|r' l]];
    try exact HI.
  unfold bind, objects_create. cbn [rows Enrollments].
  destruct (violates _ (enrollments db)); [exact HI|].
  unfold ret. cbn [fst]. unfold settled, stored_completed.
  cbn [enrollments put_rows Enrollments].
  split; [|split].
  - apply (@distinct_keys_create Enrollment.t Enrollment_Model);
      [exact Hk|reflexivity].
  - rewrite has_pk_app, Hh. reflexivity.
  - intros r Hin Hid. apply in_app_or in Hin.
    destruct Hin as [Hin|[<-|[]]]; [now apply Hr|].
    exfalso. cbn in Hid. subst i.
    pose proof (@next_pk_fresh Enrollment.t Enrollment_Model (enrollments db))
      as Hf.
    rewrite Hf in Hh. discriminate.
Qed.

(** X18.  A completion survives every request.  Take an enrollment stored
    as completed since [t], in a table with distinct keys.  After any
    history of requests to the modelled views -- among them the dashboard,
    which recalculates every enrollment of a user, and the payment views,
    which create enrollments -- the row is still completed, and still
    since [t]. *)
Theorem completion_survives (i : nat) (t : option Z)
        (history : list (Env * action)) (db : DB) :
  settled i t db -> settled i t (run history db).
Proof.
  apply (@site_run (settled i t)).
  - intros d d' He _ _ _. now apply settled_frame.
  - intros d [Hk _]. exact Hk.
  - intros env e d. apply settled_calculate_progress.
  - intros now x. apply keeps_objects_create.
    intros l d. now apply settled_frame.
  - intros now x. apply keeps_objects_create.
    intros l d. now apply settled_frame.
  - intros now o x d HI _ _ _. unfold save. cbn [rows Orders].
    destruct (violates _ (orders d)); [exact HI|].
    cbn [fst]. revert HI. now apply settled_frame.
  - intros now o i0 d HI _ _ _. now apply settled_enroll.
Qed.

Lemma completion_survives_witness :
  settled 1 (Some 2000%Z)
    (run [(env_at 3000 "00000000-0000-4000-8000-000000000000",
           Learn (AdminAddLesson 1 false));
          (env_at 4000 "2c0ffee0-0000-4000-8000-000000000000", Dashboard 7)]
         campus_completed).
Proof.
  apply completion_survives.
  split; [reflexivity|]. split; [reflexivity|].
  intros r [<-|[]] _. split; reflexivity.
Defined.

(* ------------------------------------------------------------------ *)
(** ** The dashboard touches the user's own enrollments only *)

Lemma recalculations_own (env : Env) (user : nat) (visit : list Enrollment.t) :
  (forall e, In e visit -> Enrollment.student e = user) ->
  forall db,
    let db' := fst (for_each visit (fun enrollment =>
                      call (calculate_progress env) enrollment ;;; ret tt) db) in
    (forall r, In r (enrollments db) ->
               (forall e, In e visit -> Enrollment.id r <> Enrollment.id e) ->
               In r (enrollments db'))
    /\ (forall c, In c (certificates db') ->
                  In c (certificates db) \/ Certificate.student c = user).
Proof.
  induction visit as [|e visit IH]; intros Hown db; cbv zeta.
  - cbn [for_each fst ret]. split; auto.
  - assert (Hstep :
              fst (for_each (e :: visit) (fun enrollment =>
                     call (calculate_progress env) enrollment ;;; ret tt) db)
              = match call (calculate_progress env) e db with
                | (db1, Ok _) =>
                    fst (for_each visit (fun enrollment =>
                           call (calculate_progress env) enrollment ;;; ret tt)
                           db1)
                | (db1, Raise _) => db1
                end).
    { cbn [for_each]. unfold bind at 1. unfold bind at 1.
      destruct (call (calculate_progress env) e db) as [db1 [a|x]];
        reflexivity. }
    rewrite Hstep. clear Hstep.
    pose proof (fun r Hr Hne =>
                  @calculate_progress_others env e r db Hr Hne) as Hothers.
    destruct (calculate_progress_effect env e db) as [_ [_ Heff]].
    cbv zeta in Heff.
    assert (Hcerts : forall c,
               In c (certificates (fst (call (calculate_progress env) e db))) ->
               In c (certificates db) \/ Certificate.student c = user).
    { intros c Hc.
      destruct Heff as [[_ Hce]|[x [_ [_ [_ [_ [_ Hce]]]]]]].
      - rewrite Hce in Hc. now left.
      - destruct Hce as [Hce|[c0 [Hce [Hs _]]]]; rewrite Hce in Hc;
          [now left|].
        apply in_app_or in Hc. destruct Hc as [Hc|[<-|[]]]; [now left|].
        right. rewrite Hs. apply Hown. now left. }
    clear Heff.
    destruct (call (calculate_progress env) e db) as [db1 [a|x]];
      cbn [fst] in Hothers, Hcerts.
    + destruct (IH (fun e' He' => Hown e' (or_intror He')) db1)
        as [Hrows Hc].
      split.
      * intros r Hr Hne. apply Hrows.
        -- apply Hothers; [exact Hr|]. apply Hne. now left.
        -- intros e' He'. apply Hne. now right.
      * intros c Hcin. destruct (Hc c Hcin) as [Hold|Hu]; [|now right].
        now apply Hcerts.
    + split; [|exact Hcerts].
      intros r Hr Hne. apply Hothers; [exact Hr|]. apply Hne. now left.
Qed.



(* ------------------------------------------------------------------ *)
(** ** Editing one course and the other courses *)

Lemma lookup_pk_filter_all {T : Type} `{Model T} (q : T -> bool) (i : nat)
      (l : list T) :
  (forall x, In x l -> pk x = i -> q x = true) ->
  lookup_pk i (filter q l) = lookup_pk i l.
Proof.
  unfold lookup_pk. induction l as [|a l IH]; intros Hq; [reflexivity|].
  cbn [filter find]. destruct (Nat.eqb_spec (pk a) i) as [Hi|Hi].
  - rewrite (Hq a (or_introl eq_refl) Hi). cbn [find].
    apply Nat.eqb_eq in Hi. now rewrite Hi.
  - destruct (q a); cbn [find].
    + apply Nat.eqb_neq in Hi. rewrite Hi. apply IH.
      intros x Hx. apply Hq. now right.
    + apply IH. intros x Hx. apply Hq. now right.
Qed.

Lemma filter_absorb {A : Type} (f r : A -> bool) (l : list A) :
  (forall x, In x l -> f x = true -> r x = true) ->
  filter f (filter r l) = filter f l.
Proof.
  induction l as [|a l IH]; intros Hfr; [reflexivity|].
  cbn [filter]. destruct (r a) eqn:Hr; cbn [filter].
  - destruct (f a); [f_equal|]; apply IH; intros x Hx; apply Hfr; now right.
  - destruct (f a) eqn:Hf.
    + rewrite (Hfr a (or_introl eq_refl) Hf) in Hr. discriminate.
    + apply IH. intros x Hx. apply Hfr. now right.
Qed.

Lemma filter_agree {A : Type} (f g : A -> bool) (l : list A) :
  (forall x, In x l -> f x = g x) -> filter f l = filter g l.
Proof.
  induction l as [|a l IH]; intros Hfg; [reflexivity|].
  cbn [filter]. rewrite (Hfg a (or_introl eq_refl)).
  rewrite IH by (intros x Hx; apply Hfg; now right). reflexivity.
Qed.

(** X25.  Editing one course leaves the others alone.  On a database
    with distinct section and lesson keys, whose lessons point to stored
    sections and whose progress rows point to stored lessons, after
    [admin_edit_course] every other course has the lessons it had, and
    every student has in it the completed lessons they had. *)
Theorem admin_edit_course_elsewhere (env : Env) (course_id : nat)
        (sections_data : list (list bool)) (db : DB) (course : Course.t) :
  filter (fun c => (Course.id c =? course_id)%nat) (courses db) = [course] ->
  distinct_keys (map CourseSection.id (sections db)) = true ->
  distinct_keys (map Lesson.id (lessons db)) = true ->
  lessons_have_sections db = true ->
  progress_has_lessons db = true ->
  let db' := fst (admin_edit_course env course_id sections_data db) in
  forall c, c <> course_id ->
    filter (lesson_in_course db' c) (lessons db')
    = filter (lesson_in_course db c) (lessons db)
    /\ forall student,
         filter (completed_in_course db' student c) (lesson_progress db')
         = filter (completed_in_course db student c) (lesson_progress db).
Proof.
  intros Hc Hks Hkl Hfk1 Hfk2. cbv zeta.
  destruct (@admin_edit_course_effect env course_id sections_data db course Hc)
    as (news & newl & Hsec & Hles & Hpro & Hnews & Hnewl).
  cbv zeta in Hsec, Hles, Hpro, Hnews, Hnewl.
  set (db' := fst (admin_edit_course env course_id sections_data db)) in *.
  set (gone_s := filter (fun s => (CourseSection.course s =? course_id)%nat)
                        (sections db)) in *.
  set (gone_l := filter (fun l => has_pk (Lesson.section l) gone_s)
                        (lessons db)) in *.
  set (rs := filter (fun s => negb (CourseSection.course s =? course_id)%nat)
                    (sections db)) in *.
  set (rl := filter (fun l => negb (has_pk (Lesson.section l) gone_s))
                    (lessons db)) in *.
  unfold lessons_have_sections in Hfk1. rewrite forallb_forall in Hfk1.
  unfold progress_has_lessons in Hfk2. rewrite forallb_forall in Hfk2.
  rewrite Forall_forall in Hnews, Hnewl.
  intros c Hne.
  (* the section of a lesson that stays is found as before *)
  assert (Hstay : forall l, In l (lessons db) ->
             has_pk (Lesson.section l) gone_s = false ->
             lesson_in_course db' c l = lesson_in_course db c l).
  { intros l Hl Hng. unfold lesson_in_course, lesson_course.
    rewrite Hsec, lookup_pk_app.
    assert (Hrs : lookup_pk (Lesson.section l) rs
                  = lookup_pk (Lesson.section l) (sections db)).
    { apply lookup_pk_filter_all. intros x Hx Hpk.
      apply negb_true_iff. apply not_true_is_false. intros Hcx.
      assert (Hg : has_pk (Lesson.section l) gone_s = true).
      { apply has_pk_true. exists x. split; [|exact Hpk].
        apply filter_In. now split. }
      rewrite Hng in Hg. discriminate. }
    rewrite Hrs.
    destruct (has_pk_lookup _ _ (Hfk1 l Hl)) as [s0 Hs0]. now rewrite Hs0. }
  (* a lesson that goes was in the edited course *)
  assert (Hgone : forall l, In l (lessons db) ->
             has_pk (Lesson.section l) gone_s = true ->
             lesson_in_course db c l = false).
  { intros l Hl Hg. unfold lesson_in_course, lesson_course.
    destruct (has_pk_lookup _ _ (Hfk1 l Hl)) as [s0 Hs0]. rewrite Hs0.
    cbn [option_map]. apply lookup_pk_some in Hs0. destruct Hs0 as [Hin Hpk].
    apply has_pk_true in Hg. destruct Hg as [g [Hgin Hgpk]].
    apply filter_In in Hgin. destruct Hgin as [Hgin Hgc].
    assert (Heq : s0 = g).
    { apply (@distinct_keys_same CourseSection.t CourseSection_Model
               (sections db)); try assumption. congruence. }
    subst g. apply Nat.eqb_eq in Hgc. rewrite Hgc.
    apply Nat.eqb_neq. auto. }
  (* a new lesson is in the edited course *)
  assert (Hnew : forall l, In l newl -> lesson_in_course db' c l = false).
  { intros l Hl. specialize (Hnewl l Hl).
    assert (Hh := Hnewl). apply has_pk_true in Hh.
    destruct Hh as [ns [Hns Hpk]].
    destruct (Hnews ns Hns) as [_ Hfresh].
    change (pk ns) with (CourseSection.id ns) in Hpk. rewrite Hpk in Hfresh.
    destruct (has_pk_lookup _ _ Hnewl) as [ns' Hl'].
    unfold lesson_in_course, lesson_course.
    rewrite Hsec, lookup_pk_app, (lookup_pk_none _ _ Hfresh), Hl'.
    cbn [option_map]. apply lookup_pk_some in Hl'. destruct Hl' as [Hl' _].
    destruct (Hnews ns' Hl') as [Hcid _]. rewrite Hcid.
    apply Nat.eqb_neq. auto. }
  assert (Hrl : forall l, In l rl ->
             In l (lessons db) /\ has_pk (Lesson.section l) gone_s = false).
  { intros l Hl. apply filter_In in Hl. destruct Hl as [Hl Hn].
    apply negb_true_iff in Hn. now split. }
  split.
  - rewrite Hles, filter_app.
    rewrite (filter_none _ _ Hnew), app_nil_r.
    rewrite (@filter_agree _ (lesson_in_course db' c) (lesson_in_course db c) rl)
      by (intros l Hl; destruct (Hrl l Hl); now apply Hstay).
    apply filter_absorb. intros l Hl Hin.
    apply negb_true_iff. apply not_true_is_false. intros Hg.
    rewrite (Hgone l Hl Hg) in Hin. discriminate.
  - intros student. rewrite Hpro.
    assert (Hsame : forall p, In p (lesson_progress db) ->
               has_pk (LessonProgress.lesson p) gone_l = false ->
               completed_in_course db' student c p
               = completed_in_course db student c p).
    { intros p Hp Hng. unfold completed_in_course.
      rewrite Hles, lookup_pk_app.
      assert (Hl0 : lookup_pk (LessonProgress.lesson p) rl
                    = lookup_pk (LessonProgress.lesson p) (lessons db)).
      { apply lookup_pk_filter_all. intros x Hx Hpk.
        apply negb_true_iff. apply not_true_is_false. intros Hgx.
        assert (Hg : has_pk (LessonProgress.lesson p) gone_l = true).
        { apply has_pk_true. exists x. split; [|exact Hpk].
          apply filter_In. now split. }
        rewrite Hng in Hg. discriminate. }
      rewrite Hl0.
      destruct (has_pk_lookup _ _ (Hfk2 p Hp)) as [l0 Hl0'].
      rewrite Hl0'. apply lookup_pk_some in Hl0'.
      destruct Hl0' as [Hin Hpk].
      assert (Hns : has_pk (Lesson.section l0) gone_s = false).
      { apply not_true_is_false. intros Hg.
        assert (Hg' : has_pk (LessonProgress.lesson p) gone_l = true).
        { apply has_pk_true. exists l0. split; [|exact Hpk].
          apply filter_In. now split. }
        rewrite Hng in Hg'. discriminate. }
      now rewrite (Hstay l0 Hin Hns). }
    rewrite (@filter_agree _ (completed_in_course db' student c)
               (completed_in_course db student c)
               (filter (fun p => negb (has_pk (LessonProgress.lesson p) gone_l))
                       (lesson_progress db))).
    2: { intros p Hp. apply filter_In in Hp. destruct Hp as [Hp Hn].
         apply negb_true_iff in Hn. now apply Hsame. }
    apply filter_absorb. intros p Hp Hin.
    apply negb_true_iff. apply not_true_is_false. intros Hg.
    assert (Hfalse : completed_in_course db student c p = false).
    { unfold completed_in_course.
      destruct (has_pk_lookup _ _ (Hfk2 p Hp)) as [l0 Hl0]. rewrite Hl0.
      apply lookup_pk_some in Hl0. destruct Hl0 as [Hl0in Hl0pk].
      apply has_pk_true in Hg. destruct Hg as [g [Hgin Hgpk]].
      apply filter_In in Hgin. destruct Hgin as [Hgin Hgs].
      assert (Heq : l0 = g).
      { apply (@distinct_keys_same Lesson.t Lesson_Model (lessons db));
          try assumption. congruence. }
      subst g. rewrite (Hgone l0 Hl0in Hgs). now rewrite andb_false_r. }
    rewrite Hfalse in Hin. discriminate.
Qed.

Lemma admin_edit_course_elsewhere_witness :
  let db' := fst (admin_edit_course (env_at 3000 "00000000") 1 [[true; false]]
                    two_courses) in
  filter (lesson_in_course db' 2) (lessons db') = [Lesson.mk 2 2 false].
Proof.
  cbv zeta.
  destruct (@admin_edit_course_elsewhere (env_at 3000 "00000000") 1
              [[true; false]] two_courses (Course.mk 1 "mining-101" 100)
              eq_refl eq_refl eq_refl eq_refl eq_refl 2 ltac:(discriminate))
    as [H _].
  rewrite H. reflexivity.
Defined.

(* ------------------------------------------------------------------ *)
(** ** Embedding a video *)

Lemma append_assoc_s (a b c : string) :
  ((a ++ b) ++ c = a ++ (b ++ c))%string.
Proof. induction a as [|x a IH]; cbn [append]; [reflexivity|now rewrite IH]. Qed.

Lemma append_nil_s (a : string) : (a ++ "" = a)%string.
Proof. induction a as [|x a IH]; cbn [append]; [reflexivity|now rewrite IH]. Qed.

Lemma split_fuel_head (fuel : nat) (sep s : string) :
  exists x l, split_fuel fuel sep s = x :: l.
Proof.
  destruct fuel as [|fuel]; cbn [split_fuel]; [now eexists; eexists|].
  destruct (partition sep s) as [[before rest]|]; now eexists; eexists.
Qed.

Lemma prefix_append (p t : string) : prefix p (p ++ t) = true.
Proof.
  induction p as [|a p IH]; cbn [prefix append]; [now destruct t|].
  destruct (ascii_dec a a) as [_|Hne]; [exact IH|contradiction].
Qed.

Lemma prefix_split (p s : string) :
  prefix p s = true -> exists t, s = (p ++ t)%string.
Proof.
  revert s. induction p as [|a p IH]; intros s.
  - intros _. now exists s.
  - destruct s as [|b s]; cbn [prefix]; [discriminate|].
    destruct (ascii_dec a b) as [->|]; [|discriminate].
    intros Hp. destruct (IH s Hp) as [t ->]. now exists t.
Qed.

Lemma drop_append (p t : string) : drop (String.length p) (p ++ t) = t.
Proof.
  induction p as [|a p IH]; cbn [String.length drop append].
  - now destruct t.
  - exact IH.
Qed.

Lemma partition_here (sep s : string) :
  prefix sep s = true ->
  partition sep s = Some (EmptyString, drop (String.length sep) s).
Proof. intros Hp. destruct s; cbn [partition]; now rewrite Hp. Qed.

Lemma partition_next (sep : string) (c : ascii) (s : string) :
  prefix sep (String c s) = false ->
  partition sep (String c s)
  = match partition sep s with
    | Some (before, rest) => Some (String c before, rest)
    | None => None
    end.
Proof. intros Hp. cbn [partition]. now rewrite Hp. Qed.

Lemma partition_after (b a t : string) :
  partition b (a ++ (b ++ t)) <> None.
Proof.
  induction a as [|c a IH]; cbn [append].
  - rewrite partition_here by apply prefix_append. discriminate.
  - destruct (prefix b (String c (a ++ b ++ t))) eqn:Hp.
    + rewrite partition_here by exact Hp. discriminate.
    + rewrite partition_next by exact Hp.
      destruct (partition b (a ++ b ++ t)) as [[x y]|]; [discriminate|].
      contradiction.
Qed.

(** Where a text occurs, so does each of its endings. *)
Lemma contains_suffix (a b s : string) :
  contains (a ++ b) s = true -> contains b s = true.
Proof.
  unfold contains.
  assert (Hhere : forall s, prefix (a ++ b) s = true ->
                            partition b s <> None).
  { intros s0 Hp. apply prefix_split in Hp. destruct Hp as [t ->].
    rewrite append_assoc_s. apply partition_after. }
  induction s as [|c s IH].
  - destruct (prefix (a ++ b) EmptyString) eqn:Hp.
    + intros _. specialize (Hhere _ Hp).
      destruct (partition b EmptyString); [reflexivity|contradiction].
    + destruct (a ++ b)%string; cbn in *; discriminate.
  - destruct (prefix (a ++ b) (String c s)) eqn:Hp.
    + intros _. specialize (Hhere _ Hp).
      destruct (partition b (String c s)); [reflexivity|contradiction].
    + rewrite partition_next by exact Hp.
      destruct (partition (a ++ b) s) as [[x y]|]; [|discriminate].
      intros _. specialize (IH eq_refl).
      destruct (prefix b (String c s)) eqn:Hb.
      * now rewrite partition_here.
      * rewrite partition_next by exact Hb.
        destruct (partition b s) as [[x' y']|]; [reflexivity|discriminate].
Qed.

Lemma nth_error_split_1 (sep s : string) (c : ascii) (sep' : string) :
  sep = String c sep' ->
  contains sep s = true ->
  exists rest, nth_error (split sep s) 1 = Some rest.
Proof.
  intros Hsep Hc. unfold contains in Hc. unfold split.
  destruct s as [|x s].
  - rewrite Hsep in Hc. cbn in Hc. discriminate.
  - cbn [String.length split_fuel].
    destruct (partition sep (String x s)) as [[before rest]|];
      [|discriminate].
    destruct (split_fuel_head (String.length s) sep rest) as [y [l ->]].
    now exists y.
Qed.

Lemma nth_error_split_0 (sep s : string) :
  exists first, nth_error (split sep s) 0 = Some first.
Proof.
  unfold split.
  destruct (split_fuel_head (String.length s) sep s) as [y [l ->]].
  now exists y.
Qed.

(** X21.  [get_youtube_embed_url] never fails: the index [1] it takes
    after splitting is always there, because the text tested for contains
    the text split at.  An address with neither of the two markers comes
    back unchanged. *)
Theorem get_youtube_embed_url_total (video_url : string) :
  (exists embed, get_youtube_embed_url video_url = Some embed)
  /\ (contains "youtube.com/watch?v=" video_url = false ->
      contains "youtu.be/" video_url = false ->
      get_youtube_embed_url video_url = Some video_url).
Proof.
  unfold get_youtube_embed_url. split.
  - destruct (contains "youtube.com/watch?v=" video_url) eqn:H1.
    + assert (H1' : contains "watch?v=" video_url = true)
        by (apply (@contains_suffix "youtube.com/" "watch?v=" video_url);
            exact H1).
      destruct (@nth_error_split_1 "watch?v=" video_url "w" "atch?v="
                  eq_refl H1') as [rest ->].
      destruct (nth_error_split_0 "&" rest) as [first ->]. now eexists.
    + destruct (contains "youtu.be/" video_url) eqn:H2; [|now eexists].
      destruct (@nth_error_split_1 "youtu.be/" video_url "y" "outu.be/"
                  eq_refl H2) as [rest ->].
      destruct (nth_error_split_0 "?" rest) as [first ->]. now eexists.
  - intros -> ->. reflexivity.
Qed.

Lemma get_youtube_embed_url_total_witness :
  get_youtube_embed_url "https://vimeo.com/76979871"
  = Some "https://vimeo.com/76979871"%string.
Proof.
  apply (proj2 (get_youtube_embed_url_total "https://vimeo.com/76979871"));
    reflexivity.
Defined.

Lemma prefix_blocked (q : ascii) (p s rest : string) :
  blocked q p = true -> id_char q = false -> video_id s = true ->
  starts_with_or_empty q rest ->
  prefix p (s ++ rest) = false.
Proof.
  intros Hb Hq. revert s. induction p as [|a p IH]; intros s Hs Hrest;
    [discriminate|].
  cbn [blocked] in Hb. destruct s as [|c s]; cbn [append].
  - destruct Hrest as [->|[r ->]]; [reflexivity|]. cbn [prefix].
    destruct (ascii_dec a q) as [->|]; [|reflexivity].
    rewrite Hq in Hb. now rewrite Ascii.eqb_refl in Hb.
  - cbn [prefix]. destruct (ascii_dec a c) as [->|]; [|reflexivity].
    unfold video_id in Hs. cbn [string_forallb] in Hs.
    apply andb_prop in Hs. destruct Hs as [Hc Hs]. rewrite Hc in Hb.
    now apply IH.
Qed.

(** No occurrence of a blocked text starts inside a video identifier. *)
Lemma partition_clean (q : ascii) (p s rest : string) :
  blocked q p = true -> id_char q = false -> video_id s = true ->
  starts_with_or_empty q rest ->
  partition p (s ++ rest)
  = match partition p rest with
    | Some (before, after) => Some ((s ++ before)%string, after)
    | None => None
    end.
Proof.
  intros Hb Hq. induction s as [|c s IH]; intros Hs Hrest; cbn [append].
  - now destruct (partition p rest) as [[x y]|].
  - rewrite partition_next
      by (apply (@prefix_blocked q p (String c s) rest); assumption).
    unfold video_id in Hs. cbn [string_forallb] in Hs.
    apply andb_prop in Hs. destruct Hs as [_ Hs].
    rewrite (IH Hs Hrest).
    now destruct (partition p rest) as [[x y]|].
Qed.

Lemma partition_mark (q : ascii) (s : string) :
  id_char q = false -> video_id s = true ->
  partition (String q EmptyString) s = None
  /\ forall r, partition (String q EmptyString) (s ++ String q r) = Some (s, r).
Proof.
  intros Hq. induction s as [|c s IH]; intros Hs.
  - split; [reflexivity|]. intros r. cbn [append].
    rewrite partition_here; cbn [prefix];
      destruct (ascii_dec q q) as [_|Hne]; try contradiction;
      now destruct r.
  - unfold video_id in Hs. cbn [string_forallb] in Hs.
    apply andb_prop in Hs. destruct Hs as [Hc Hs].
    destruct (IH Hs) as [Hnone Hsome].
    assert (Hp : forall t, prefix (String q EmptyString) (String c t) = false).
    { intros t. cbn [prefix]. destruct (ascii_dec q c) as [->|]; [|reflexivity].
      rewrite Hq in Hc. discriminate. }
    split.
    + rewrite partition_next by apply Hp. now rewrite Hnone.
    + intros r. cbn [append]. rewrite partition_next by apply Hp.
      now rewrite Hsome.
Qed.

(** The first piece of a split of a video identifier followed by nothing,
    or by the separator and more. *)
Lemma split_mark_first (q : ascii) (s rest : string) :
  id_char q = false -> video_id s = true -> starts_with_or_empty q rest ->
  nth_error (split (String q EmptyString) (s ++ rest)) 0 = Some s.
Proof.
  intros Hq Hs Hrest. destruct (@partition_mark q s Hq Hs) as [Hnone Hsome].
  unfold split. destruct Hrest as [->|[r ->]].
  - rewrite append_nil_s. destruct (String.length s); cbn [split_fuel];
      [reflexivity|]. now rewrite Hnone.
  - destruct (String.length (s ++ String q r)) eqn:Hlen.
    + exfalso. clear -Hlen. induction s; cbn in Hlen; discriminate.
    + cbn [split_fuel]. now rewrite Hsome.
Qed.

(** The piece taken by [split(p)[1]] once the text after the first [p] is
    a video identifier followed by nothing, or by [q] and more: the
    identifier, followed by nothing or by [q] and more. *)
Lemma split_second_clean (q : ascii) (p s rest : string) (fuel : nat) :
  blocked q p = true -> id_char q = false -> video_id s = true ->
  starts_with_or_empty q rest ->
  exists tail l,
    split_fuel (S fuel) p (s ++ rest) = (s ++ tail)%string :: l
    /\ starts_with_or_empty q tail.
Proof.
  intros Hb Hq Hs Hrest. cbn [split_fuel].
  rewrite (@partition_clean q p s rest Hb Hq Hs Hrest).
  destruct (partition p rest) as [[x y]|] eqn:Hp.
  - exists x. eexists. split; [reflexivity|].
    destruct Hrest as [->|[r ->]].
    + exfalso. revert Hp. destruct p; cbn; discriminate.
    + assert (Hpre : prefix p (String q r) = false).
      { pose proof (@prefix_blocked q p EmptyString (String q r) Hb Hq
                      eq_refl (or_intror (ex_intro _ r eq_refl))) as H0.
        exact H0. }
      rewrite partition_next in Hp by exact Hpre.
      destruct (partition p r) as [[x' y']|]; [|discriminate].
      injection Hp as <- _. right. now eexists.
  - exists rest. eexists. split; [reflexivity|exact Hrest].
Qed.

Lemma partition_watch (t : string) :
  partition "watch?v=" ("https://www.youtube.com/watch?v=" ++ t)
  = Some ("https://www.youtube.com/"%string, t).
Proof.
  cbn [append]. repeat (rewrite partition_next by reflexivity).
  rewrite partition_here by (apply (prefix_append "watch?v=" t)).
  reflexivity.
Qed.

Lemma partition_short (t : string) :
  partition "youtu.be/" ("https://youtu.be/" ++ t)
  = Some ("https://"%string, t).
Proof.
  cbn [append]. repeat (rewrite partition_next by reflexivity).
  rewrite partition_here by (apply (prefix_append "youtu.be/" t)).
  reflexivity.
Qed.

Lemma contains_watch_marker (t : string) :
  contains "youtube.com/watch?v=" ("https://www.youtube.com/watch?v=" ++ t)
  = true.
Proof.
  unfold contains.
  pose proof (@partition_after "youtube.com/watch?v=" "https://www." t) as Hn.
  change ("https://www." ++ "youtube.com/watch?v=" ++ t)%string
    with ("https://www.youtube.com/watch?v=" ++ t)%string in Hn.
  destruct (partition _ _); [reflexivity|contradiction].
Qed.

Lemma contains_short_marker (t : string) :
  contains "youtube.com/watch?v=" ("https://youtu.be/" ++ t)
  = contains "youtube.com/watch?v=" t.
Proof.
  unfold contains. cbn [append].
  repeat (rewrite partition_next by reflexivity).
  now destruct (partition "youtube.com/watch?v=" t) as [[x y]|].
Qed.

(** X22.  [get_youtube_embed_url] turns the two usual forms of a video
    address into the embed address of the same video.  For a video
    identifier of letters, digits, [-] and [_]: the watch address, alone or
    followed by [&] and further parameters, and the short address, alone
    or followed by [?] and parameters that do not mention the watch
    marker, both give [https://www.youtube.com/embed/] followed by the
    identifier. *)
Theorem get_youtube_embed_url_converts (id rest : string) :
  video_id id = true ->
  (starts_with_or_empty "&" rest ->
   get_youtube_embed_url ("https://www.youtube.com/watch?v=" ++ id ++ rest)
   = Some ("https://www.youtube.com/embed/" ++ id)%string)
  /\ (starts_with_or_empty "?" rest ->
      contains "youtube.com/watch?v=" rest = false ->
      get_youtube_embed_url ("https://youtu.be/" ++ id ++ rest)
      = Some ("https://www.youtube.com/embed/" ++ id)%string).
Proof.
  intros Hid. split.
  - intros Hrest. unfold get_youtube_embed_url.
    rewrite contains_watch_marker.
    assert (H2 : split "watch?v="
                   ("https://www.youtube.com/watch?v=" ++ id ++ rest)
                 = "https://www.youtube.com/"%string
                   :: split_fuel (S (30 + String.length (id ++ rest)))
                        "watch?v=" (id ++ rest)).
    { unfold split.
      change (String.length ("https://www.youtube.com/watch?v=" ++ id ++ rest))
        with (S (S (30 + String.length (id ++ rest)))).
      cbn [split_fuel]. now rewrite partition_watch. }
    rewrite H2.
    destruct (@split_second_clean "&" "watch?v=" id rest
                (30 + String.length (id ++ rest)) eq_refl eq_refl Hid Hrest)
      as [tail [l [-> Htail]]].
    pose proof (@split_mark_first "&" id tail eq_refl Hid Htail) as Hm.
    cbn [nth_error] in Hm |- *. now rewrite Hm.
  - intros Hrest Hno. unfold get_youtube_embed_url.
    assert (H0 : contains "youtube.com/watch?v=" (id ++ rest) = false).
    { unfold contains in *.
      rewrite (@partition_clean "?" "youtube.com/watch?v=" id rest
                 eq_refl eq_refl Hid Hrest).
      now destruct (partition "youtube.com/watch?v=" rest) as [[x y]|]. }
    rewrite contains_short_marker, H0.
    assert (H2 : contains "youtu.be/" ("https://youtu.be/" ++ id ++ rest)
                 = true)
      by (unfold contains; now rewrite partition_short).
    rewrite H2.
    assert (H3 : split "youtu.be/" ("https://youtu.be/" ++ id ++ rest)
                 = "https://"%string
                   :: split_fuel (S (15 + String.length (id ++ rest)))
                        "youtu.be/" (id ++ rest)).
    { unfold split.
      change (String.length ("https://youtu.be/" ++ id ++ rest))
        with (S (S (15 + String.length (id ++ rest)))).
      cbn [split_fuel]. now rewrite partition_short. }
    rewrite H3.
    destruct (@split_second_clean "?" "youtu.be/" id rest
                (15 + String.length (id ++ rest)) eq_refl eq_refl Hid Hrest)
      as [tail [l [-> Htail]]].
    pose proof (@split_mark_first "?" id tail eq_refl Hid Htail) as Hm.
    cbn [nth_error] in Hm |- *. now rewrite Hm.
Qed.

Lemma get_youtube_embed_url_converts_witness :
  get_youtube_embed_url "https://www.youtube.com/watch?v=dQw4w9WgXcQ&t=42s"
  = Some "https://www.youtube.com/embed/dQw4w9WgXcQ"%string
  /\ get_youtube_embed_url "https://youtu.be/dQw4w9WgXcQ?t=42"
     = Some "https://www.youtube.com/embed/dQw4w9WgXcQ"%string.
Proof.
  destruct (@get_youtube_embed_url_converts "dQw4w9WgXcQ" "&t=42s" eq_refl)
    as [H1 _].
  destruct (@get_youtube_embed_url_converts "dQw4w9WgXcQ" "?t=42" eq_refl)
    as [_ H2].
  split.
  - apply H1. right. now eexists.
  - apply H2; [right; now eexists|reflexivity].
Defined.

(* ------------------------------------------------------------------ *)
(** ** Downloading a certificate *)

(** A recalculation adds at most one certificate, and that one has no
    document. *)
Lemma calculate_progress_documents (env : Env) (e : Enrollment.t) (db : DB) :
  let db' := fst (call (calculate_progress env) e db) in
  certificates db' = certificates db
  \/ exists c, certificates db' = certificates db ++ [c]
               /\ Certificate.pdf_file c = None.
Proof.
  cbv zeta. unfold call. rewrite calculate_progress_eq. cbv zeta.
  destruct (_ =? 0)%Z; [now left|].
  destruct (percentage _ _) as [p|]; [|now left].
  destruct ((p =? 100)%Z && negb (Enrollment.completed e)).
  - destruct (violates _ (enrollments db)); [now left|].
    rewrite issue_certificate_eq. cbv zeta.
    set (e2 := Enrollment.set_completed_at (Some (now env))
                 (Enrollment.set_completed true
                    (Enrollment.set_progress_percentage p e))).
    change (certificates (saved e2 db)) with (certificates db).
    destruct (Enrollment.completed e2 && negb _); [|now left].
    destruct (violates _ (certificates db)); cbn [fst]; [now left|].
    right. eexists. split; reflexivity.
  - destruct (violates _ (enrollments db)); now left.
Qed.

Lemma undocumented_frame (db db' : DB) :
  enrollments db' = enrollments db -> certificates db' = certificates db ->
  undocumented db -> undocumented db'.
Proof. unfold undocumented. intros -> ->. auto. Qed.

Lemma undocumented_calculate_progress (env : Env) (e : Enrollment.t) (db : DB) :
  undocumented db ->
  undocumented (fst (call (calculate_progress env) e db)).
Proof.
  intros [Hk Hd].
  destruct (calculate_progress_effect env e db) as [_ [_ Heff]].
  pose proof (calculate_progress_documents env e db) as Hdoc.
  cbv zeta in Heff, Hdoc.
  set (db' := fst (call (calculate_progress env) e db)) in *.
  split.
  - destruct Heff as [[He _]|[x [He _]]]; rewrite He; [exact Hk|].
    now apply (@distinct_keys_upsert Enrollment.t Enrollment_Model).
  - destruct Hdoc as [Hc|[c [Hc Hnone]]]; rewrite Hc; [exact Hd|].
    rewrite forallb_app, Hd. cbn [forallb andb]. unfold has_file.
    now rewrite Hnone.
Qed.

Lemma undocumented_enroll (now : Z) (s c : nat) (db : DB) :
  undocumented db ->
  undocumented
    (fst (objects_get_or_create Enrollments now (same_pair s c)
            (new_enrollment s c) db)).
Proof.
  intros [Hk Hd]. unfold objects_get_or_create. cbn [rows Enrollments].
  destruct (filter (same_pair s c) (enrollments db)) as [|r [|r' l]];
    try (now split).
  unfold bind, objects_create. cbn [rows Enrollments].
  destruct (violates _ (enrollments db)); [now split|].
  unfold ret. cbn [fst]. unfold undocumented.
  cbn [enrollments certificates put_rows Enrollments].
  split; [|exact Hd].
  apply (@distinct_keys_create Enrollment.t Enrollment_Model);
    [exact Hk|reflexivity].
Qed.

(** No request to the modelled views attaches a document. *)
Lemma undocumented_run (history : list (Env * action)) (db : DB) :
  undocumented db -> undocumented (run history db).
Proof.
  apply (@site_run undocumented).
  - intros d d' He Hc _ _. now apply undocumented_frame.
  - intros d [Hk _]. exact Hk.
  - intros env e d HI _. now apply undocumented_calculate_progress.
  - intros now x. apply keeps_objects_create.
    intros l d. now apply undocumented_frame.
  - intros now x. apply keeps_objects_create.
    intros l d. now apply undocumented_frame.
  - intros now o x d HI _ _ _. unfold save. cbn [rows Orders].
    destruct (violates _ (orders d)); [exact HI|].
    cbn [fst]. revert HI. now apply undocumented_frame.
  - intros now o i d HI _ _ _. now apply undocumented_enroll.
Qed.

Lemma download_certificate_eq
      (generate_certificate_pdf : Certificate.t -> string)
      (user : nat) (certificate_id : string) (db : DB) (c : Certificate.t) :
  filter (owned_certificate certificate_id user) (certificates db) = [c] ->
  download_certificate generate_certificate_pdf user certificate_id db
  = (db, if has_file c then Returned (Certificate.pdf_file c)
         else NameError "File").
Proof.
  intros Hf. unfold download_certificate, get_object_or_404.
  cbn [rows Certificates]. rewrite Hf. now destruct (has_file c).
Qed.

(** X26.  [download_certificate] never produces a document.  It writes
    nothing, whatever it is asked.  An identifier that names no
    certificate of the requesting user -- unknown, or someone else's --
    gives a 404.  For the one certificate of the requesting user that the
    identifier names: a certificate that has a document is served it; for
    a certificate without one the view, once the document is drawn, raises
    NameError for [File], a name that views.py never imports, and stores
    nothing.  So, starting from a database in which no certificate has a
    document (and whose enrollment keys are distinct), after any history
    of requests to the modelled views -- which issue every certificate
    without a document -- a download of one's own certificate raises that
    NameError, and no download at all is answered with a file. *)
Theorem download_certificate_unavailable
        (generate_certificate_pdf : Certificate.t -> string)
        (history : list (Env * action))
        (user : nat) (certificate_id : string) (db : DB) :
  fst (download_certificate generate_certificate_pdf user certificate_id db)
  = db
  /\ (filter (owned_certificate certificate_id user) (certificates db) = [] ->
      snd (download_certificate generate_certificate_pdf user
                                certificate_id db)
      = Raised Http404)
  /\ (forall c,
         filter (owned_certificate certificate_id user) (certificates db)
         = [c] ->
         snd (download_certificate generate_certificate_pdf user
                                   certificate_id db)
         = if has_file c then Returned (Certificate.pdf_file c)
           else NameError "File")
  /\ (undocumented db ->
      let db' := run history db in
      (forall c,
          filter (owned_certificate certificate_id user) (certificates db')
          = [c] ->
          download_certificate generate_certificate_pdf user
                               certificate_id db'
          = (db', NameError "File"))
      /\ forall file,
          snd (download_certificate generate_certificate_pdf user
                                    certificate_id db')
          <> Returned file).
Proof.
  split; [|split; [|split]].
  - unfold download_certificate, get_object_or_404. cbn [rows Certificates].
    destruct (filter _ (certificates db)) as [|c [|c' l]];
      try reflexivity.
    now destruct (has_file c).
  - intros Hf. unfold download_certificate, get_object_or_404.
    cbn [rows Certificates]. now rewrite Hf.
  - intros c Hf.
    now rewrite (@download_certificate_eq generate_certificate_pdf user
                   certificate_id db c Hf).
  - intros HI. cbv zeta.
    destruct (@undocumented_run history db HI) as [_ Hd].
    set (db' := run history db) in *.
    assert (Hnone : forall c,
               filter (owned_certificate certificate_id user)
                      (certificates db') = [c] ->
               has_file c = false).
    { intros c Hf. destruct (filter_singleton _ _ Hf) as [_ Hin].
      rewrite forallb_forall in Hd. apply negb_true_iff. now apply Hd. }
    split.
    + intros c Hf.
      rewrite (@download_certificate_eq generate_certificate_pdf user
                 certificate_id db' c Hf).
      now rewrite (Hnone c Hf).
    + intros file. unfold download_certificate, get_object_or_404.
      cbn [rows Certificates].
      destruct (filter _ (certificates db')) as [|c [|c' l]] eqn:Hf;
        cbn [snd]; try discriminate.
      rewrite (Hnone c eq_refl). cbn [negb snd]. discriminate.
Qed.

Lemma download_certificate_unavailable_witness :
  undocumented campus
  /\ run [(env_at 2000 "7b2a9c1e-52d1-4c0a-9d3e-0123456789ab",
           Learn (MarkLessonComplete 7 1))] campus
     = campus_completed
  /\ filter (owned_certificate "CERT-202611-7B2A9C1E" 7)
            (certificates campus_completed)
     = [Certificate.mk 1 7 1 "CERT-202611-7B2A9C1E" 2000 None]
  /\ download_certificate (fun c => Certificate.certificate_id c) 7
       "CERT-202611-7B2A9C1E" campus_completed
     = (campus_completed, NameError "File").
Proof.
  assert (HI : undocumented campus) by (split; reflexivity).
  destruct (@download_certificate_unavailable
              (fun c => Certificate.certificate_id c)
              [(env_at 2000 "7b2a9c1e-52d1-4c0a-9d3e-0123456789ab",
                Learn (MarkLessonComplete 7 1))]
              7 "CERT-202611-7B2A9C1E" campus)
    as [_ [_ [_ Hrun]]].
  destruct (Hrun HI) as [Hown _].
  split; [exact HI|]. split; [reflexivity|]. split; [reflexivity|].
  exact (Hown (Certificate.mk 1 7 1 "CERT-202611-7B2A9C1E" 2000 None)
              eq_refl).
Defined.
